(** * Tab title randomiser: the save / disguise / restore engine of popup.js

    A shallow embedding of [src/popup.js]: the four content-script functions
    ([getTabDetails], [purgeTabDetails], [setSpecificDetails],
    [restoreTabDetails]) as functions on a small model of a page's document,
    and the three asynchronous functions of the popup ([loadDomainMappings],
    [manageTabs], [undoChanges]) as computations over the browser's state
    that also record the calls they make to the browser's services. *)

From Stdlib Require Import ZArith Ascii String DecimalString DecimalPos DecimalZ.
From stdpp Require Import base option list strings gmap fin_maps.

#[local] Open Scope Z_scope.
#[local] Open Scope string_scope.

(** ** The JavaScript operations the source relies on *)

Module JS.

(** [s.startsWith(p)] *)
Definition startsWith (s p : string) : bool := String.prefix p s.

(** [s.includes(sub)] *)
Fixpoint includes (s sub : string) : bool :=
  String.prefix sub s ||
  match s with
  | EmptyString => false
  | String _ s' => includes s' sub
  end.

(** Truthiness of a string: only the empty string is falsy. *)
Definition truthy (s : string) : bool :=
  match s with EmptyString => false | String _ _ => true end.

(** Truthiness of a number (NaN does not occur for the integers used). *)
Definition truthyNum (n : Z) : bool := negb (Z.eqb n 0).

(** *** Numbers

    The Numbers of the source are whole, infinite or NaN. A whole or
    infinite one is given as an integer: a double that is whole is that
    integer, and [infinity] and its opposite, beyond every double, stand for
    [Infinity] and [-Infinity]. NaN is [None] where it can arise. *)
Definition infinity : Z := 2 ^ 1024.

(** The double nearest to the integer [v >= 0], ties to the even
    significand: below 2^53 every integer is a double; above, the 53 leading
    bits are kept and the rest rounds them. *)
Definition nearestDouble (v : Z) : Z :=
  if (v <? 2 ^ 53)%Z then v
  else
    let k := Z.log2 v - 52 in
    let q := Z.shiftr v k in
    let r := Z.land v (Z.ones k) in
    let half := 2 ^ (k - 1) in
    let q' := if ((half <? r) || ((r =? half) && Z.odd q))%Z then q + 1 else q in
    Z.min infinity (Z.shiftl q' k).

(** The decimal numeral of an integer, with a minus sign when negative. *)
Definition decimal (n : Z) : string := NilZero.string_of_int (Z.to_int n).

(** The least number of significant digits that still reads back as the
    double [x], and of the two integers of that many digits around [x], the
    nearer: the [s * 10^(n-k)] of [Number::toString]. [k] digits are tried
    from one up; seventeen always do. *)
Fixpoint shortest (tries : nat) (k : Z) (x : Z) : Z :=
  match tries with
  | O => x
  | S tries' =>
      let p := 10 ^ (Z.of_nat (String.length (decimal x)) - k) in
      let below := x / p * p in
      let above := below + p in
      let fromBelow := (nearestDouble below =? x)%Z in
      let fromAbove := (nearestDouble above =? x)%Z in
      if fromBelow && fromAbove then (if (x - below <=? above - x)%Z then below else above)
      else if fromBelow then below
      else if fromAbove then above
      else shortest tries' (k + 1) x
  end.

(** A numeral without the zeros at its end. *)
Fixpoint significant (ds : string) : string :=
  match ds with
  | EmptyString => EmptyString
  | String c rest =>
      match significant rest with
      | EmptyString => if Ascii.eqb c "0" then EmptyString else String c EmptyString
      | rest' => String c rest'
      end
  end.

(** [d.ddde+n] for the numeral [ds] of more than 21 digits. *)
Definition exponential (ds : string) : string :=
  match significant ds with
  | EmptyString => ds
  | String c EmptyString => String c ("e+" +:+ decimal (Z.of_nat (String.length ds) - 1))
  | String c rest =>
      String c ("." +:+ rest +:+ "e+" +:+ decimal (Z.of_nat (String.length ds) - 1))
  end.

(** [String(n)], which is also the property key [obj[n] = v] uses: below
    2^53 the decimal numeral of [n]; from there on the shortest numeral
    that reads back as the double of [n], its digits filled with zeros up
    to 21 digits and in exponent notation beyond. *)
Definition toString (n : Z) : string :=
  let x := nearestDouble (Z.abs n) in
  if (x <? 2 ^ 53)%Z then decimal n
  else
    (if (n <? 0)%Z then "-" else "") +:+
    (if (x =? infinity)%Z then "Infinity"
     else
       let ds := decimal (shortest 17 1 x) in
       if (String.length ds <=? 21)%nat then ds else exponential ds).

(** The code of a byte. Strings are in UTF-8. *)
Definition code (c : ascii) : Z := Z.of_N (N_of_ascii c).

(** The white space and line terminators of JavaScript. Of one byte: tab,
    line feed, vertical tab, form feed, carriage return, space. *)
Definition isWhiteSpace (c : ascii) : bool :=
  (Z.leb 9 (code c) && Z.leb (code c) 13) || Z.eqb (code c) 32.

(** Of two bytes: U+00A0, the no-break space. *)
Definition isWhiteSpace2 (c1 c2 : ascii) : bool :=
  Z.eqb (code c1) 194 && Z.eqb (code c2) 160.

(** Of three bytes: U+1680; U+2000 to U+200A, the line and paragraph
    separators U+2028 and U+2029, U+202F; U+205F; U+3000; and U+FEFF, the
    byte order mark. *)
Definition isWhiteSpace3 (c1 c2 c3 : ascii) : bool :=
  (Z.eqb (code c1) 225 && Z.eqb (code c2) 154 && Z.eqb (code c3) 128) ||
  (Z.eqb (code c1) 226 && Z.eqb (code c2) 128 &&
     ((Z.leb 128 (code c3) && Z.leb (code c3) 138) ||
      Z.eqb (code c3) 168 || Z.eqb (code c3) 169 || Z.eqb (code c3) 175)) ||
  (Z.eqb (code c1) 226 && Z.eqb (code c2) 129 && Z.eqb (code c3) 159) ||
  (Z.eqb (code c1) 227 && Z.eqb (code c2) 128 && Z.eqb (code c3) 128) ||
  (Z.eqb (code c1) 239 && Z.eqb (code c2) 187 && Z.eqb (code c3) 191).

Definition isDigit (c : ascii) : bool :=
  Z.leb 48 (code c) && Z.leb (code c) 57.

(** The value of a digit of base 16, in either case. *)
Definition hexDigit (c : ascii) : option Z :=
  if isDigit c then Some (code c - 48)
  else if Z.leb 97 (code c) && Z.leb (code c) 102 then Some (code c - 87)
  else if Z.leb 65 (code c) && Z.leb (code c) 70 then Some (code c - 55)
  else None.

(** The string without the white space it begins with. *)
Fixpoint trimStart (s : string) : string :=
  match s with
  | EmptyString => EmptyString
  | String c1 r1 =>
      if isWhiteSpace c1 then trimStart r1
      else if (code c1 <? 128)%Z then s
      else
        match r1 with
        | EmptyString => s
        | String c2 r2 =>
            if isWhiteSpace2 c1 c2 then trimStart r2
            else
              match r2 with
              | EmptyString => s
              | String c3 r3 => if isWhiteSpace3 c1 c2 c3 then trimStart r3 else s
              end
        end
  end.

(** The longest prefix of decimal digits. *)
Fixpoint digitPrefix (s : string) : string :=
  match s with
  | String c s' => if isDigit c then String c (digitPrefix s') else EmptyString
  | EmptyString => EmptyString
  end.

(** The value of the longest prefix of hexadecimal digits, [None] when
    that prefix is empty. *)
Fixpoint hexPrefix (acc : option Z) (s : string) : option Z :=
  match s with
  | String c s' =>
      match hexDigit c with
      | Some d => hexPrefix (Some (16 * default 0 acc + d)) s'
      | None => acc
      end
  | EmptyString => acc
  end.

(** The part of [parseInt] that reads the digits, once white space and
    sign are gone: an [0x] / [0X] selects base 16, then the longest prefix
    of digits is read, whatever follows it, and the integer read becomes a
    Number: the nearest double (past the 20th digit the standard lets an
    implementation approximate; the model rounds exactly). [None] is NaN:
    no digit could be read. *)
Definition readInteger (negative : bool) (s : string) : option Z :=
  let sign (v : Z) := if negative then - nearestDouble v else nearestDouble v in
  match s with
  | String "0" (String "x" r) | String "0" (String "X" r) =>
      sign <$> hexPrefix None r
  | _ =>
      match digitPrefix s with
      | EmptyString => None
      | ds => (fun d => sign (Z.of_uint d)) <$> NilEmpty.uint_of_string ds
      end
  end%char.

(** [parseInt(s)] with no radix: leading white space is dropped, then an
    optional sign, then the integer is read. *)
Definition parseInt (s : string) : option Z :=
  match trimStart s with
  | String "-" r => readInteger true r
  | String "+" r => readInteger false r
  | s1 => readInteger false s1
  end%char.

(** [isNaN(parseInt(s))] *)
Definition isNaN (v : option Z) : bool :=
  match v with None => true | Some _ => false end.

(** ASCII lower-casing, for the attribute values that selectors compare
    without regard to case. *)
Definition lowerAscii (c : ascii) : ascii :=
  let n := nat_of_ascii c in
  if ((65 <=? n)%nat && (n <=? 90)%nat)%bool then ascii_of_nat (n + 32) else c.

Fixpoint lower (s : string) : string :=
  match s with
  | EmptyString => EmptyString
  | String c s' => String (lowerAscii c) (lower s')
  end.

End JS.

(** ** The page: the part of a tab's document the content scripts touch *)

Module DOM.

(** A [<link>] element: its [rel], [href] and [type] as the properties of
    the same names read them (the empty string when the attribute is not
    there). For [href] that is the address in resolved form, not the text
    of the attribute. *)
Record LinkElement := {
  rel : string;
  href : string;
  type : string
}.

(** A [<meta>] element. *)
Record MetaElement := {
  itemprop : string;
  content : string
}.

(** The document of a tab's top frame. [title] is what [document.title]
    reads. [links] holds the link elements, in the order of the document;
    they are taken to stand in its head, where HTML puts them, so that
    [document.head.appendChild] adds at the end of [links]. [resolve] is
    the URL parser of the page: [resolve v] is what [link.href] reads once
    it has been set to [v], that is [v] resolved against the base URL of
    the document ([v] itself once it is an absolute URL in serialised
    form). [faviconComplete] is what [img.complete] yields right after
    [img.src] is set to the default favicon path: it is up to the page's
    image cache. The document has a head and a body, so neither
    [appendChild] nor the reading of [document.body.offsetHeight] throws,
    and the [catch] handlers around them, which only log, do not run. *)
Record Document := {
  title : string;
  links : list LinkElement;
  metas : list MetaElement;
  origin : string;
  resolve : string -> string;
  faviconComplete : bool
}.

(** [link[rel='v']]: the HTML rule for selectors compares the value of
    [rel] without regard to ASCII case. *)
Definition relIs (v : string) (l : LinkElement) : bool :=
  String.eqb (JS.lower (rel l)) v.

(** [link[rel*='v']] *)
Definition relContains (v : string) (l : LinkElement) : bool :=
  JS.includes (JS.lower (rel l)) v.

(** [meta[itemprop='v']] *)
Definition itempropIs (v : string) (m : MetaElement) : bool :=
  String.eqb (itemprop m) v.

(** What [document.title] makes of the text of a title: the ASCII white
    space of HTML (tab, line feed, form feed, carriage return, space) is
    stripped at both ends and each run of it inside becomes one space. A
    title the scripts write is read back in this form; the writers of the
    model keep a title as it is given, which is the same for a title that
    is in this form already. *)
Definition isAsciiWhiteSpace (c : ascii) : bool :=
  let n := JS.code c in
  Z.eqb n 9 || Z.eqb n 10 || Z.eqb n 12 || Z.eqb n 13 || Z.eqb n 32.

Fixpoint collapse (gap : option string) (t : string) : string :=
  match t with
  | EmptyString => EmptyString
  | String c rest =>
      if isAsciiWhiteSpace c then collapse (const " " <$> gap) rest
      else default "" gap +:+ String c (collapse (Some "") rest)
  end.

Definition stripAndCollapse (t : string) : string := collapse None t.

Definition querySelector {A} (sel : A -> bool) (els : list A) : option A :=
  List.find sel els.

Definition querySelectorAll {A} (sel : A -> bool) (els : list A) : list A :=
  List.filter sel els.

Definition setTitle (t : string) (d : Document) : Document :=
  {| title := t; links := links d; metas := metas d;
     origin := origin d; resolve := resolve d; faviconComplete := faviconComplete d |}.

Definition setLinks (ls : list LinkElement) (d : Document) : Document :=
  {| title := title d; links := ls; metas := metas d;
     origin := origin d; resolve := resolve d; faviconComplete := faviconComplete d |}.

(** [document.head.appendChild(link)] *)
Definition appendChild (l : LinkElement) (d : Document) : Document :=
  setLinks (links d ++ [l]) d.

(** [document.querySelectorAll(sel).forEach(link => link.remove())] *)
Definition removeAll (sel : LinkElement -> bool) (d : Document) : Document :=
  setLinks (List.filter (fun l => negb (sel l)) (links d)) d.

End DOM.

(** ** The data of the engine *)

(** What [getTabDetails] captures of a tab. *)
Record TabDetails := {
  title : string;
  faviconHref : option string;
  faviconRel : string
}.

(** A disguise of [data/domain_mappings.json]; a field the file leaves out
    is [None]. *)
Module Profile.
Record t := {
  title : option string;
  favicon : option string
}.
End Profile.

(** The object kept under the storage key [originalTabDetails]: its keys are
    tab identifiers turned into strings. *)
Abbreviation Snapshot := (gmap string TabDetails).

(** ** The content scripts *)

(** U+200B, in UTF-8. *)
Definition zeroWidthSpace : string :=
  String (ascii_of_nat 226) (String (ascii_of_nat 128) (String (ascii_of_nat 139) EmptyString)).

(** The transparent image the blank-write installs: a [data:] URL, absolute
    and in serialised form, so that [link.href] reads it back as written. *)
Definition blankFavicon : string :=
  "data:image/gif;base64,R0lGODlhAQABAIAAAAAAAP///yH5BAEAAAAALAAAAAABAAEAAAIBRAA7".

Definition isSome {A} (o : option A) : bool :=
  match o with Some _ => true | None => false end.

(** [a || b] on element references. *)
Definition orElse {A} (a b : option A) : option A :=
  match a with Some _ => a | None => b end.

Definition getTabDetails (d : DOM.Document) : TabDetails :=
  let iconLink :=
    orElse (DOM.querySelector (DOM.relIs "icon") (DOM.links d))
      (orElse (DOM.querySelector (DOM.relIs "shortcut icon") (DOM.links d))
         (DOM.querySelector (DOM.relContains "icon") (DOM.links d))) in
  let atRoot :=
    if negb (isSome iconLink) then
      let faviconUrl := DOM.origin d +:+ "/favicon.ico" in
      if DOM.faviconComplete d then
        Some {| title := DOM.title d; faviconHref := Some faviconUrl; faviconRel := "icon" |}
      else None
    else None in
  match atRoot with
  | Some found => found
  | None =>
      let inMeta :=
        if negb (isSome iconLink) then
          match DOM.querySelector (DOM.itempropIs "image") (DOM.metas d) with
          | Some metaIcon =>
              Some {| title := DOM.title d;
                      faviconHref := Some (DOM.content metaIcon);
                      faviconRel := "icon" |}
          | None => None
          end
        else None in
      match inMeta with
      | Some found => found
      | None =>
          {| title := DOM.title d;
             faviconHref := match iconLink with Some l => Some (DOM.href l) | None => None end;
             faviconRel := match iconLink with Some l => DOM.rel l | None => "icon" end |}
      end
  end.

Definition purgeTabDetails (d : DOM.Document) : DOM.Document :=
  let d := DOM.setTitle zeroWidthSpace d in
  let faviconSet := existsb (DOM.relContains "icon") (DOM.links d) in
  let d :=
    DOM.setLinks
      (List.map (fun link =>
         if DOM.relContains "icon" link
         then {| DOM.rel := "icon"; DOM.href := blankFavicon; DOM.type := DOM.type link |}
         else link) (DOM.links d)) d in
  if negb faviconSet then
    DOM.appendChild {| DOM.rel := "icon"; DOM.href := blankFavicon; DOM.type := "" |} d
  else d.

(** [!v] for a field that may be missing. *)
Definition falsy (v : option string) : bool :=
  match v with Some s => negb (JS.truthy s) | None => true end.

(** [details] is [None] when the mapping holds [null] for the key drawn. The
    cache bust reads [link.href], sets it to the empty string and then to
    what it read: the address as the page resolves it. *)
Definition setSpecificDetails (details : option Profile.t) (d : DOM.Document) : DOM.Document :=
  match details with
  | None => d
  | Some details =>
      if falsy (Profile.title details) || falsy (Profile.favicon details) then d
      else
        let d := DOM.setTitle (default "" (Profile.title details)) d in
        let d := DOM.removeAll (DOM.relContains "icon") d in
        let originalHref := DOM.resolve d (default "" (Profile.favicon details)) in
        DOM.appendChild
          {| DOM.rel := "icon"; DOM.type := "image/x-icon";
             DOM.href := DOM.resolve d originalHref |} d
  end.

Definition restoreTabDetails (details : TabDetails) (d : DOM.Document) : DOM.Document :=
  let d := DOM.setTitle (title details) d in
  let d := DOM.removeAll (DOM.relContains "icon") d in
  let '(d, linkRestoredOrRemoved) :=
    if negb (falsy (faviconHref details)) then
      (DOM.appendChild
         {| DOM.rel := if JS.truthy (faviconRel details) then faviconRel details else "icon";
            DOM.href := DOM.resolve d (default "" (faviconHref details));
            DOM.type := "" |} d,
       true)
    else (d, false) in
  if negb linkRestoredOrRemoved then
    DOM.appendChild {| DOM.rel := "icon"; DOM.href := blankFavicon; DOM.type := "" |} d
  else d.

(** ** The browser *)

(** An open tab, as [chrome.tabs.query] lists it ([id], [url]), together
    with what the script-injection service finds behind it: its document,
    and [refuses], the message [chrome.scripting.executeScript] rejects with
    when it cannot run a function in the tab (a page the extension has no
    access to, a frame that is gone). The browser numbers its tabs with
    32-bit integers: [sessionId] holds the bits of a tab's number and
    [id], what [tab.id] reads, is their value in two's complement. *)
Module Tab.
Record t := {
  sessionId : option Z;
  url : option string;
  document : DOM.Document;
  refuses : option string
}.

Definition int32 (n : Z) : Z := (n + 2 ^ 31) mod 2 ^ 32 - 2 ^ 31.

Definition id (tab : t) : option Z := int32 <$> sessionId tab.

Definition setDocument (d : DOM.Document) (tab : t) : t :=
  {| sessionId := sessionId tab; url := url tab; document := d; refuses := refuses tab |}.
End Tab.

(** What [response.json()] yields, by the cases the loader tells apart. *)
Inductive Json :=
| JPrimitive                                      (* a number, a string, a boolean *)
| JNull
| JArray
| JObject (entries : gmap string (option Profile.t)).

(** What [fetch('data/domain_mappings.json')] and the reading of its body
    come to. *)
Inductive FetchOutcome :=
| NetworkError                                    (* [fetch] rejects *)
| HttpStatus (status : Z)                         (* [response.ok] is false *)
| SyntaxError                                     (* [response.json()] rejects *)
| Body (mappings : Json).

(** The state the popup's functions run against. [storage] is the value of
    [chrome.storage.local] at the key [originalTabDetails] ([None]: the key
    is not there). [entropy] is the supply [Math.random] draws from. *)
Record Browser := {
  storage : option Snapshot;
  tabs : list Tab.t;
  mappingsFile : FetchOutcome;
  entropy : list nat
}.

(** The functions [executeScript] is asked to run, with their arguments. *)
Inductive Script :=
| GetTabDetails
| PurgeTabDetails
| SetSpecificDetails (details : option Profile.t)
| RestoreTabDetails (details : TabDetails).

Inductive Level := Log | Warn | Error.

(** The calls the popup makes to the browser's services, in the order it
    makes them. *)
Inductive Call :=
| StorageGet
| StorageSet (originalTabDetails : Snapshot)
| StorageRemove
| TabsQuery
| Fetch
| ExecuteScript (tabId : Z) (func : Script)
| Console (level : Level) (message : string).

(** How a call to [executeScript] settles. *)
Inductive Settled :=
| Fulfilled (result : option TabDetails)
| Rejected (message : string).

(** ** Asynchronous functions

    An [async] function is a function from the browser's state to its
    result, the state it leaves and the calls it made. The per-tab promises
    of a loop are run one after the other, in the order the loop creates
    them: scripts injected in different tabs touch different documents. *)
Definition Async (A : Type) : Type := Browser -> A * Browser * list Call.

#[export] Instance Async_ret : MRet Async := fun A a b => (a, b, []).

#[export] Instance Async_bind : MBind Async := fun A B f m b =>
  let '(a, b1, t1) := m b in
  let '(r, b2, t2) := f a b1 in
  (r, b2, (t1 ++ t2)%list).

Definition call (c : Call) : Async unit := fun b => (tt, b, [c]).

Definition console (l : Level) (message : string) : Async unit :=
  call (Console l message).

Definition setStorage (v : option Snapshot) (b : Browser) : Browser :=
  {| storage := v; tabs := tabs b; mappingsFile := mappingsFile b; entropy := entropy b |}.

Definition setTabs (ts : list Tab.t) (b : Browser) : Browser :=
  {| storage := storage b; tabs := ts; mappingsFile := mappingsFile b; entropy := entropy b |}.

Definition setEntropy (e : list nat) (b : Browser) : Browser :=
  {| storage := storage b; tabs := tabs b; mappingsFile := mappingsFile b; entropy := e |}.

(** [chrome.storage.local.get('originalTabDetails')] *)
Definition storageGet : Async (option Snapshot) :=
  fun b => (storage b, b, [StorageGet]).

(** [chrome.storage.local.set({ originalTabDetails: v })] *)
Definition storageSet (v : Snapshot) : Async unit :=
  fun b => (tt, setStorage (Some v) b, [StorageSet v]).

(** [chrome.storage.local.remove('originalTabDetails')] *)
Definition storageRemove : Async unit :=
  fun b => (tt, setStorage None b, [StorageRemove]).

(** [chrome.tabs.query({})] *)
Definition tabsQuery : Async (list Tab.t) :=
  fun b => (tabs b, b, [TabsQuery]).

(** [fetch('data/domain_mappings.json')] and the reading of the body. *)
Definition fetchMappings : Async FetchOutcome :=
  fun b => (mappingsFile b, b, [Fetch]).

(** [Math.floor(Math.random() * n)]: the next number of the supply, brought
    below [n]. *)
Definition randomIndex (n : nat) : Async nat :=
  fun b =>
    match entropy b with
    | [] => (0%nat, b, [])
    | x :: rest => ((x mod n)%nat, setEntropy rest b, [])
    end.

(** What a script does to the document it runs in, and what it returns. *)
Definition runScript (func : Script) (d : DOM.Document) : DOM.Document * option TabDetails :=
  match func with
  | GetTabDetails => (d, Some (getTabDetails d))
  | PurgeTabDetails => (purgeTabDetails d, None)
  | SetSpecificDetails details => (setSpecificDetails details d, None)
  | RestoreTabDetails details => (restoreTabDetails details d, None)
  end.

Definition targets (tabId : Z) (tab : Tab.t) : bool :=
  match Tab.id tab with Some i => Z.eqb i tabId | None => false end.

(** The injection service: the function runs in the top frame of the tab
    that has the identifier, if there is one and it lets scripts in. A
    call for a number that no open tab has, one beyond 32 bits among them,
    settles as a rejection. *)
Fixpoint inject (tabId : Z) (func : Script) (ts : list Tab.t) : Settled * list Tab.t :=
  match ts with
  | [] => (Rejected ("No tab with id: " +:+ JS.toString tabId), [])
  | tab :: rest =>
      if targets tabId tab then
        match Tab.refuses tab with
        | Some message => (Rejected message, tab :: rest)
        | None =>
            let '(d, result) := runScript func (Tab.document tab) in
            (Fulfilled result, Tab.setDocument d tab :: rest)
        end
      else
        let '(r, rest') := inject tabId func rest in (r, tab :: rest')
  end.

(** [chrome.scripting.executeScript({ target: { tabId, frameIds: [0] }, func, args })] *)
Definition executeScript (tabId : Z) (func : Script) : Async Settled :=
  fun b =>
    let '(r, ts) := inject tabId func (tabs b) in
    (r, setTabs ts b, [ExecuteScript tabId func]).

(** [for (const x of xs) body], threading the loop's local state. *)
Fixpoint forOf {A S} (xs : list A) (body : S -> A -> Async S) (s : S) : Async S :=
  match xs with
  | [] => mret s
  | x :: rest => s' ← body s x; forOf rest body s'
  end.

(** ** The popup's functions *)

Definition invalidFormat : string :=
  "Invalid format in domain_mappings.json. Expected an object.".

Definition loadError : string :=
  "Error loading or parsing domain_mappings.json:".

Definition loadDomainMappings : Async (gmap string (option Profile.t)) :=
  response ← fetchMappings;
  match response with
  | Body (JObject mappings) => mret mappings
  | Body _ => console Error invalidFormat;; mret ∅
  | NetworkError | HttpStatus _ | SyntaxError => console Error loadError;; mret ∅
  end.

(** [tab.id && tab.url && (tab.url.startsWith('http:') || tab.url.startsWith('https:'))];
    when it holds, the tab's identifier. *)
Definition eligibleId (tab : Tab.t) : option Z :=
  match Tab.id tab, Tab.url tab with
  | Some i, Some u =>
      if JS.truthyNum i && JS.truthy u &&
         (JS.startsWith u "http:" || JS.startsWith u "https:")
      then Some i else None
  | _, _ => None
  end.

Definition eligible (tab : Tab.t) : bool := isSome (eligibleId tab).

(** [Object.keys(o)] *)
Definition keys {V} (o : gmap string V) : list string := (map_to_list o).*1.

(** [!saved || Object.keys(saved).length === 0] *)
Definition noSavedState (saved : option Snapshot) : bool :=
  match saved with
  | None => true
  | Some o => Nat.eqb (length (keys o)) 0
  end.

(** The body of the first loop of [manageTabs]: the promise pushed for one
    tab, with its [then] and [catch] handlers. *)
Definition saveTab (originalDetails : Snapshot) (tab : Tab.t) : Async Snapshot :=
  match eligibleId tab with
  | Some tabId =>
      results ← executeScript tabId GetTabDetails;
      match results with
      | Fulfilled (Some result) =>
          mret (<[JS.toString tabId := result]> originalDetails)
      | Fulfilled None =>
          console Warn ("Could not retrieve details for tab " +:+ JS.toString tabId +:+
                        " during save state.");;
          mret originalDetails
      | Rejected _ =>
          console Error ("Error saving state for tab " +:+ JS.toString tabId +:+ ":");;
          mret originalDetails
      end
  | None => mret originalDetails
  end.

(** The body of the loop of the [purgeAll] branch. *)
Definition purgeTab (_ : unit) (tab : Tab.t) : Async unit :=
  match eligibleId tab with
  | Some tabId =>
      results ← executeScript tabId PurgeTabDetails;
      match results with
      | Fulfilled _ => mret tt
      | Rejected _ => console Error ("Error purging tab " +:+ JS.toString tabId +:+ ":")
      end
  | None => mret tt
  end.

(** The body of the loop of the [professional] branch. *)
Definition applyRandom (domainMappings : gmap string (option Profile.t))
    (mappingKeys : list string) (_ : unit) (tab : Tab.t) : Async unit :=
  match eligibleId tab with
  | Some tabId =>
      randomKeyIndex ← randomIndex (length mappingKeys);
      let randomDomainKey := mappingKeys !! randomKeyIndex in
      let randomDetails := randomDomainKey ≫= (fun k => mjoin (domainMappings !! k)) in
      console Log ("Tab " +:+ JS.toString tabId +:+ ": Applying random details for domain '" +:+
                   default "undefined" randomDomainKey +:+ "':");;
      results ← executeScript tabId (SetSpecificDetails randomDetails);
      match results with
      | Fulfilled _ => mret tt
      | Rejected _ =>
          console Error ("Error applying random details to tab " +:+ JS.toString tabId +:+ ":")
      end
  | None => mret tt
  end.

(** The first part of [manageTabs], up to the end of the [if] on the saved
    state. *)
Definition saveState : Async unit :=
  existingSavedState ← storageGet;
  if noSavedState existingSavedState then
    console Log "No existing saved state found. Saving current tab states...";;
    tabs ← tabsQuery;
    originalDetails ← forOf tabs saveTab ∅;
    storageSet originalDetails;;
    console Log "Original tab details stored for undo."
  else
    console Log "Existing saved state found. Skipping state save.".

(** The [if] on [mode]; [false] when the function returns from inside it. *)
Definition applyPhase (mode : string) (tabsToModify : list Tab.t) : Async bool :=
  if String.eqb mode "purgeAll" then
    console Log "Mode: purgeAll - Purging all eligible tabs.";;
    forOf tabsToModify purgeTab tt;;
    console Log "Initial purge complete for purgeAll mode.";;
    mret true
  else if String.eqb mode "professional" then
    console Log "Mode: professional - Applying random professional details.";;
    domainMappings ← loadDomainMappings;
    let mappingKeys := keys domainMappings in
    if Nat.eqb (length mappingKeys) 0 then
      console Error
        "Professional mode failed: No domain mappings loaded from data/domain_mappings.json. Cannot select random details.";;
      mret false
    else
      console Log ("Loaded " +:+ JS.toString (Z.of_nat (length mappingKeys)) +:+
                   " mappings. Applying randomly.");;
      forOf tabsToModify (applyRandom domainMappings mappingKeys) tt;;
      console Log "Application of random details complete for professional mode.";;
      mret true
  else mret true.

(** [manageTabs] in a browser that stands still while the function
    awaits: both calls of [chrome.tabs.query] list the same tabs. *)
Definition manageTabs (mode : string) : Async unit :=
  console Log ("Executing manageTabs with mode: " +:+ mode);;
  saveState;;
  tabsToModify ← tabsQuery;
  continue ← applyPhase mode tabsToModify;
  if continue : bool then
    (if String.eqb mode "purgeAll" then console Log "Purge complete for purgeAll mode."
     else mret tt);;
    console Log ("Tab modification process complete for mode: " +:+ mode +:+ ".")
  else mret tt.

(** The browser goes its way while the popup awaits: [change] is what
    becomes of the open tabs. *)
Definition elapse (change : list Tab.t -> list Tab.t) : Async unit :=
  fun b => (tt, setTabs (change (tabs b)) b, []).

(** [manageTabs] in a browser whose tabs change between the end of the
    save phase and the second call of [chrome.tabs.query]: by the time the
    apply phase lists the tabs, some may have closed, opened or gone to
    another address. *)
Definition manageTabsAmid (change : list Tab.t -> list Tab.t) (mode : string) : Async unit :=
  console Log ("Executing manageTabs with mode: " +:+ mode);;
  saveState;;
  elapse change;;
  tabsToModify ← tabsQuery;
  continue ← applyPhase mode tabsToModify;
  if continue : bool then
    (if String.eqb mode "purgeAll" then console Log "Purge complete for purgeAll mode."
     else mret tt);;
    console Log ("Tab modification process complete for mode: " +:+ mode +:+ ".")
  else mret tt.

(** The body of the loop of [undoChanges]. *)
Definition restoreTab (_ : unit) (entry : string * TabDetails) : Async unit :=
  let '(tabIdStr, details) := entry in
  match JS.parseInt tabIdStr with
  | None =>
      console Warn ("Invalid tabId found in storage: " +:+ tabIdStr +:+ ", skipping restore.")
  | Some tabId =>
      console Log "details";;
      results ← executeScript tabId (RestoreTabDetails details);
      match results with
      | Fulfilled _ => mret tt
      | Rejected message =>
          if JS.includes message "No tab with id" || JS.includes message "Invalid tab ID" then
            console Warn ("Tab " +:+ JS.toString tabId +:+
                          " not found or invalid during restore, skipping.")
          else
            console Error ("Error restoring tab " +:+ JS.toString tabId +:+ ":")
      end
  end.

Definition undoChanges : Async unit :=
  console Log "Executing undoChanges";;
  originalTabDetails ← storageGet;
  if noSavedState originalTabDetails then
    console Log "No original tab details found to restore."
  else
    forOf (map_to_list (default ∅ originalTabDetails)) restoreTab tt;;
    storageRemove;;
    console Log "Tab details restoration attempted and storage cleared.".

(** ** Reading a run *)

Definition result {A} (r : A * Browser * list Call) : A := r.1.1.
Definition state {A} (r : A * Browser * list Call) : Browser := r.1.2.
Definition calls {A} (r : A * Browser * list Call) : list Call := r.2.

(** The writes to a page: the two disguises and the restore. *)
Definition isWrite (func : Script) : bool :=
  match func with
  | GetTabDetails => false
  | PurgeTabDetails | SetSpecificDetails _ | RestoreTabDetails _ => true
  end.

Definition isDisguise (func : Script) : bool :=
  match func with
  | PurgeTabDetails | SetSpecificDetails _ => true
  | GetTabDetails | RestoreTabDetails _ => false
  end.

Definition isInjection (c : Call) : bool :=
  match c with ExecuteScript _ _ => true | _ => false end.

Definition isPageWrite (c : Call) : bool :=
  match c with ExecuteScript _ func => isWrite func | _ => false end.

Definition isStorageSet (c : Call) : bool :=
  match c with StorageSet _ => true | _ => false end.

Definition isStorageWrite (c : Call) : bool :=
  match c with StorageSet _ | StorageRemove => true | _ => false end.

(** How many times a run wrote the snapshot. *)
Definition snapshotWrites (cs : list Call) : nat :=
  length (List.filter isStorageSet cs).

(** The tab the injection service reaches under an identifier. *)
Definition tabWith (tabId : Z) (ts : list Tab.t) : option Tab.t :=
  List.find (targets tabId) ts.

(** What a read of the tab under [tabId] brings back, if it brings back
    anything. *)
Definition detailsOf (ts : list Tab.t) (tabId : Z) : option TabDetails :=
  tab ← tabWith tabId ts;
  match Tab.refuses tab with
  | None => Some (getTabDetails (Tab.document tab))
  | Some _ => None
  end.

(** The state of the open tabs [ts] as a snapshot records it: under the key
    of every eligible tab that can be read, what [getTabDetails] finds in
    it. *)
Definition originalState (ts : list Tab.t) (snapshot : Snapshot) : Prop :=
  (forall k d, snapshot !! k = Some d ->
     exists tab i, tab ∈ ts /\ eligibleId tab = Some i /\ k = JS.toString i /\
                   detailsOf ts i = Some d) /\
  (forall tab i d, tab ∈ ts -> eligibleId tab = Some i -> detailsOf ts i = Some d ->
     snapshot !! JS.toString i = Some d).

(** The scheme of a URL: what stands before its first colon. *)
Fixpoint scheme (u : string) : option string :=
  match u with
  | EmptyString => None
  | String c rest =>
      if Ascii.eqb c ":" then Some EmptyString
      else String c <$> scheme rest
  end.

Definition schemeOf (tab : Tab.t) : option string := Tab.url tab ≫= scheme.

Definition httpScheme (tab : Tab.t) : bool :=
  match schemeOf tab with
  | Some s => String.eqb s "http" || String.eqb s "https"
  | None => false
  end.

(** The icon links of a document: what [link[rel*='icon']] selects. *)
Definition iconLinks (d : DOM.Document) : list DOM.LinkElement :=
  DOM.querySelectorAll (DOM.relContains "icon") (DOM.links d).

(** The mapping the loader hands to [manageTabs] is empty: the file cannot
    be fetched, is not JSON, is not a plain object, or is an object with no
    key. *)
Definition emptyMapping (f : FetchOutcome) : Prop :=
  match f with
  | NetworkError | HttpStatus _ | SyntaxError => True
  | Body (JObject mappings) => mappings = ∅
  | Body _ => True
  end.

(** ** Sequences of invocations

    The user's clicks run [manageTabs] and [undoChanges]; between two of
    them, and while [manageTabs] awaits between its two phases, the browser
    goes its way: tabs open, close, navigate, pages change, the mapping
    file may change. The storage key is the extension's own. A session
    also remembers, of the invocation that wrote the snapshot now in the
    store, [creator], the calls it made, and [listed], the tabs its apply
    phase was given by [chrome.tabs.query]. *)
Record Session := {
  browser : Browser;
  creator : list Call;
  listed : list Tab.t
}.

(** The save phase leaves the tabs as they are, so the apply phase lists
    what [change] makes of the tabs the invocation starts with. *)
Definition afterApply (change : list Tab.t -> list Tab.t) (mode : string) (s : Session) :
    Session :=
  let r := manageTabsAmid change mode (browser s) in
  let created := existsb isStorageSet (calls r) in
  {| browser := state r;
     creator := if created then calls r else creator s;
     listed := if created then change (tabs (browser s)) else listed s |}.

Definition afterUndo (s : Session) : Session :=
  let r := undoChanges (browser s) in
  {| browser := state r; creator := creator s; listed := listed s |}.

(** [allowed] tells which invocations of [manageTabs] the sequence may
    hold. *)
Inductive reachable (allowed : string -> Browser -> Prop) : Session -> Prop :=
| reach_start b :
    storage b = None -> reachable allowed {| browser := b; creator := []; listed := [] |}
| reach_apply change mode s :
    reachable allowed s -> allowed mode (browser s) ->
    reachable allowed (afterApply change mode s)
| reach_undo s :
    reachable allowed s -> reachable allowed (afterUndo s)
| reach_browser s ts f e :
    reachable allowed s ->
    reachable allowed
      {| browser := {| storage := storage (browser s); tabs := ts;
                       mappingsFile := f; entropy := e |};
         creator := creator s; listed := listed s |}.

Definition anyMode (mode : string) (b : Browser) : Prop := True.

(** The invocations that get to their apply loop: [purgeAll], and
    [professional] when the mapping is not empty. *)
Definition disguising (mode : string) (b : Browser) : Prop :=
  mode = "purgeAll" \/ (mode = "professional" /\ ~ emptyMapping (mappingsFile b)).

(** The invocations that get to their apply loop if they are to write a
    snapshot; one that finds a snapshot in the store may be of any mode. *)
Definition disguisingIfSaving (mode : string) (b : Browser) : Prop :=
  noSavedState (storage b) = true -> disguising mode b.

(** Every key of the persisted snapshot is that of a tab identifier, and
    the tab was sent a disguise by the invocation that created the
    snapshot, unless no eligible tab had the identifier any more when the
    apply phase of that invocation listed the tabs: the tab had closed, or
    left [http] and [https], in between. *)
Definition snapshotDisguised (s : Session) : Prop :=
  forall snapshot k, storage (browser s) = Some snapshot -> is_Some (snapshot !! k) ->
    exists i, Tab.int32 i = i /\ k = JS.toString i /\
      ((exists func, isDisguise func = true /\ ExecuteScript i func ∈ creator s) \/
       (forall tab, tab ∈ listed s -> eligibleId tab ≠ Some i)).

(** The tabs once the document of the tab under [tabId] has become [d]. *)
Fixpoint withDocument (tabId : Z) (d : DOM.Document) (ts : list Tab.t) : list Tab.t :=
  match ts with
  | [] => []
  | tab :: rest =>
      if targets tabId tab then Tab.setDocument d tab :: rest
      else tab :: withDocument tabId d rest
  end.

(** What the first loop of [manageTabs] adds to the snapshot for one tab. *)
Definition capture (ts : list Tab.t) (originalDetails : Snapshot) (tab : Tab.t) : Snapshot :=
  match eligibleId tab with
  | Some i =>
      match detailsOf ts i with
      | Some d => <[JS.toString i := d]> originalDetails
      | None => originalDetails
      end
  | None => originalDetails
  end.

(** What the browser shows of a tab whatever its page does: identifier,
    address, and whether it lets scripts in. *)
Definition outline (tab : Tab.t) : option Z * option string * option string :=
  (Tab.id tab, Tab.url tab, Tab.refuses tab).

(** A call that injects a script sends it to an eligible tab of [ts]. *)
Definition toEligible (ts : list Tab.t) (c : Call) : Prop :=
  forall j func, c = ExecuteScript j func ->
    exists tab, tab ∈ ts /\ eligibleId tab = Some j.

(** A call that writes neither to a page nor to the store. *)
Definition readOnly (c : Call) : Prop :=
  isPageWrite c = false /\ isStorageWrite c = false.

(** What a run leaves alone when it writes to pages only: the store, the
    outline of the tabs, the mapping file. *)
Definition keeps (b0 b : Browser) : Prop :=
  storage b = storage b0 /\
  outline <$> tabs b = outline <$> tabs b0 /\
  mappingsFile b = mappingsFile b0.

(** A call that sends a disguise to the tab under [i]. *)
Definition disguises (i : Z) (c : Call) : Prop :=
  exists func, c = ExecuteScript i func /\ isDisguise func = true.

(** A call of the apply phase over [ts]: it leaves the store alone, and a
    script it injects is a disguise sent to an eligible tab. *)
Definition pageCall (ts : list Tab.t) (c : Call) : Prop :=
  isStorageWrite c = false /\
  (forall j func, c = ExecuteScript j func -> isDisguise func = true) /\
  toEligible ts c.

(** The message [undoChanges] logs for a key it cannot read. *)
Definition invalidTabId (tabIdStr : string) : string :=
  "Invalid tabId found in storage: " +:+ tabIdStr +:+ ", skipping restore.".

(** A call of the loop of [undoChanges] over [entries]: it leaves the store
    alone, and a script it injects is the restore of an entry, sent to the
    tab the entry's key reads as. *)
Definition restoreCall (entries : list (string * TabDetails)) (c : Call) : Prop :=
  isStorageWrite c = false /\
  forall j func, c = ExecuteScript j func ->
    exists k d, (k, d) ∈ entries /\ JS.parseInt k = Some j /\ func = RestoreTabDetails d.

(** The entries of a snapshot whose key reads as a tab identifier. *)
Definition readable (entry : string * TabDetails) : bool :=
  negb (JS.isNaN (JS.parseInt entry.1)).

(** How many scripts a run injected. *)
Definition injections (cs : list Call) : nat :=
  length (List.filter isInjection cs).

(** The link the blank-write and the fall-back of the restore install. *)
Definition blankLink : DOM.LinkElement :=
  {| DOM.rel := "icon"; DOM.href := blankFavicon; DOM.type := "" |}.

(** A document shows the saved details: their title, and one icon link,
    with their relation and their address as the page resolves it. *)
Definition shows (details : TabDetails) (d : DOM.Document) : Prop :=
  DOM.title d = title details /\
  iconLinks d =
    [ {| DOM.rel := faviconRel details;
         DOM.href := DOM.resolve d (default "" (faviconHref details));
         DOM.type := "" |} ].

(** A call that sends a restore to the tab under [i]. *)
Definition restores (i : Z) (c : Call) : bool :=
  match c with
  | ExecuteScript j (RestoreTabDetails _) => Z.eqb i j
  | _ => false
  end.

(** ** Pages, tabs and browsers to try the functions on *)

Module Sample.

(** A page with a style sheet and a shortcut icon. *)
Definition inbox : DOM.Document :=
  {| DOM.title := "Inbox (3)";
     DOM.links :=
       [ {| DOM.rel := "stylesheet"; DOM.href := "https://mail.example/app.css"; DOM.type := "text/css" |};
         {| DOM.rel := "Shortcut Icon"; DOM.href := "https://mail.example/mail.png"; DOM.type := "" |} ];
     DOM.metas := [];
     DOM.origin := "https://mail.example";
     DOM.resolve := fun address => address;
     DOM.faviconComplete := false |}.

(** A page whose icon link has no [href]. *)
Definition notes : DOM.Document :=
  {| DOM.title := "Notes";
     DOM.links := [ {| DOM.rel := "icon"; DOM.href := ""; DOM.type := "" |} ];
     DOM.metas := [];
     DOM.origin := "https://notes.example";
     DOM.resolve := fun address => address;
     DOM.faviconComplete := false |}.

(** A page with no icon link. *)
Definition plain : DOM.Document :=
  {| DOM.title := "Settings";
     DOM.links := [];
     DOM.metas := [];
     DOM.origin := "chrome://settings";
     DOM.resolve := fun address => address;
     DOM.faviconComplete := false |}.

Definition mail : Tab.t :=
  {| Tab.sessionId := Some 7; Tab.url := Some "https://mail.example/inbox";
     Tab.document := inbox; Tab.refuses := None |}.

Definition notebook : Tab.t :=
  {| Tab.sessionId := Some 9; Tab.url := Some "http://notes.example/";
     Tab.document := notes; Tab.refuses := None |}.

(** An internal page of the browser. *)
Definition settings : Tab.t :=
  {| Tab.sessionId := Some 8; Tab.url := Some "chrome://settings/";
     Tab.document := plain; Tab.refuses := Some "Cannot access a chrome:// URL" |}.

(** The tab of [mail] once it has gone to a local file. *)
Definition navigated : Tab.t :=
  {| Tab.sessionId := Some 7; Tab.url := Some "file:///home/user/report.html";
     Tab.document := plain; Tab.refuses := None |}.

(** A page with no icon link, whose image is named by a meta tag, with an
    address relative to the site. *)
Definition catalogue : DOM.Document :=
  {| DOM.title := "Shop";
     DOM.links := [];
     DOM.metas := [ {| DOM.itemprop := "image"; DOM.content := "/logo.png" |} ];
     DOM.origin := "https://shop.example";
     DOM.resolve := fun address =>
       if String.prefix "/" address then "https://shop.example" +:+ address else address;
     DOM.faviconComplete := false |}.

Definition shop : Tab.t :=
  {| Tab.sessionId := Some 31; Tab.url := Some "https://shop.example/";
     Tab.document := catalogue; Tab.refuses := None |}.

Definition open (ts : list Tab.t) : Browser :=
  {| storage := None; tabs := ts; mappingsFile := NetworkError; entropy := [] |}.

Definition inboxDetails : TabDetails :=
  {| title := "Inbox (3)"; faviconHref := Some "https://mail.example/mail.png";
     faviconRel := "Shortcut Icon" |}.

Definition bank : Tab.t :=
  {| Tab.sessionId := Some 12; Tab.url := Some "https://bank.example/";
     Tab.document := plain; Tab.refuses := None |}.

(** A store whose only entry has a key that begins with a number. *)
Definition tampered : Browser :=
  {| storage := Some {[ "12abc" := inboxDetails ]};
     tabs := [mail; bank]; mappingsFile := NetworkError; entropy := [] |}.

(** A store with the entry of a tab that is closed by now. *)
Definition closed : Browser :=
  {| storage := Some {[ "7" := inboxDetails ]};
     tabs := [settings]; mappingsFile := NetworkError; entropy := [] |}.

(** A store with one entry under a key that is no number, one under the
    key of [mail]. *)
Definition mixed : Browser :=
  {| storage := Some (<[ "tab-7" := inboxDetails ]> {[ "7" := inboxDetails ]});
     tabs := [mail]; mappingsFile := NetworkError; entropy := [] |}.

End Sample.

(** Sessions to try sequences on. *)
Module Scenario.

Definition start (b : Browser) : Session :=
  {| browser := b; creator := []; listed := [] |}.

Definition standstill (ts : list Tab.t) : list Tab.t := ts.

(** [purgeAll] with the mail tab open; then the tab goes to a local
    file. *)
Definition purged : Session :=
  afterApply standstill "purgeAll" (start (Sample.open [Sample.mail])).

Definition navigated : Session :=
  {| browser := {| storage := storage (browser purged); tabs := [Sample.navigated];
                   mappingsFile := NetworkError; entropy := [] |};
     creator := creator purged; listed := listed purged |}.

(** [professional] with the mail tab open and a mapping file that cannot
    be fetched. *)
Definition unmapped : Session :=
  afterApply standstill "professional" (start (Sample.open [Sample.mail])).

(** [purgeAll] with the mail tab open, which closes once its details are
    saved. *)
Definition vanished : Session :=
  afterApply (fun _ => []) "purgeAll" (start (Sample.open [Sample.mail])).

End Scenario.

(** ** Further readings of pages and runs *)

(** The link [getTabDetails] settles on: the first whose [rel] is [icon],
    else the first whose [rel] is [shortcut icon], else the first whose
    [rel] holds [icon]. *)
Definition preferredIcon (d : DOM.Document) : option DOM.LinkElement :=
  orElse (DOM.querySelector (DOM.relIs "icon") (DOM.links d))
    (orElse (DOM.querySelector (DOM.relIs "shortcut icon") (DOM.links d))
       (DOM.querySelector (DOM.relContains "icon") (DOM.links d))).

(** The links of a document the icon selector does not match. *)
Definition otherLinks (d : DOM.Document) : list DOM.LinkElement :=
  List.filter (fun l => negb (DOM.relContains "icon" l)) (DOM.links d).


(** The link [setSpecificDetails] installs, once its [href] reads
    [address]. *)
Definition profileLink (address : string) : DOM.LinkElement :=
  {| DOM.rel := "icon"; DOM.href := address; DOM.type := "image/x-icon" |}.

(** A profile of the mapping file. *)
Definition spreadsheet : Profile.t :=
  {| Profile.title := Some "Q3 budget - Sheets";
     Profile.favicon := Some "https://sheets.example/favicon.ico" |}.

(** What the loop of [purgeTabDetails] makes of a link. *)
Definition blanked (link : DOM.LinkElement) : DOM.LinkElement :=
  if DOM.relContains "icon" link
  then {| DOM.rel := "icon"; DOM.href := blankFavicon; DOM.type := DOM.type link |}
  else link.

(** A browser with a mapping file of one profile. *)
Definition office : Browser :=
  {| storage := None;
     tabs := [Sample.mail; Sample.settings];
     mappingsFile := Body (JObject {[ "sheets.example" := Some spreadsheet ]});
     entropy := [4%nat] |}.

(** A tab that is eligible but lets no script in. *)
Definition store : Tab.t :=
  {| Tab.sessionId := Some 21; Tab.url := Some "https://chromewebstore.google.com/";
     Tab.document := Sample.plain;
     Tab.refuses := Some "The extensions gallery cannot be scripted." |}.

(** The messages of the loops about one tab. *)
Definition saveFailed (tabId : Z) : string :=
  "Error saving state for tab " +:+ JS.toString tabId +:+ ":".

Definition tabNotFound (tabId : Z) : string :=
  "Tab " +:+ JS.toString tabId +:+ " not found or invalid during restore, skipping.".

Definition restoreFailed (tabId : Z) : string :=
  "Error restoring tab " +:+ JS.toString tabId +:+ ":".

(** A call that belongs to undo: the removal of the key, or a restore. *)
Definition undoes (c : Call) : bool :=
  match c with
  | StorageRemove | ExecuteScript _ (RestoreTabDetails _) => true
  | _ => false
  end.

(** A call that belongs to the disguise: the write of the snapshot, a
    read of a tab, or one of the two disguises. *)
Definition disguisesOrSaves (c : Call) : bool :=
  match c with
  | StorageSet _ | Fetch | TabsQuery => true
  | ExecuteScript _ func => negb (isWrite func) || isDisguise func
  | _ => false
  end.

(** * Properties *)

(** ** Tab identifiers as property keys *)

Section Keys.

Lemma digitPrefix_string_of_uint d :
  JS.digitPrefix (NilEmpty.string_of_uint d) = NilEmpty.string_of_uint d.
Proof. induction d; simpl; congruence. Qed.

Lemma readInteger_digits negative d :
  d ≠ Decimal.Nil ->
  JS.readInteger negative (NilEmpty.string_of_uint d) =
    Some (if negative then - JS.nearestDouble (Z.of_uint d)
          else JS.nearestDouble (Z.of_uint d)).
Proof.
  intros Hd. unfold JS.readInteger.
  assert (Hu := NilEmpty.usu d).
  assert (Hp := digitPrefix_string_of_uint d).
  destruct d as [|d|d|d|d|d|d|d|d|d|d]; try congruence;
    try (cbn [NilEmpty.string_of_uint] in *; rewrite Hp, Hu; reflexivity).
  destruct d; cbn [NilEmpty.string_of_uint] in *; rewrite Hp, Hu; reflexivity.
Qed.

Lemma parseInt_digits d :
  d ≠ Decimal.Nil ->
  JS.parseInt (NilEmpty.string_of_uint d) = Some (JS.nearestDouble (Z.of_uint d)).
Proof.
  intros Hd. rewrite <- (readInteger_digits false d Hd).
  unfold JS.parseInt. destruct d; try congruence; reflexivity.
Qed.

Lemma nilZero_nonnil d :
  d ≠ Decimal.Nil -> NilZero.string_of_uint d = NilEmpty.string_of_uint d.
Proof. destruct d; [congruence | reflexivity ..]. Qed.

(** Below 2^53 every integer is a double. *)
Lemma nearestDouble_safe v : (v < 2 ^ 53)%Z -> JS.nearestDouble v = v.
Proof.
  intros H. unfold JS.nearestDouble.
  destruct (Z.ltb_spec v (2 ^ 53)) as [_|H']; [done | exfalso; apply (Z.lt_irrefl v); eauto using Z.lt_le_trans].
Qed.

Lemma toString_safe n : (Z.abs n < 2 ^ 53)%Z -> JS.toString n = JS.decimal n.
Proof.
  intros H. unfold JS.toString. rewrite (nearestDouble_safe _ H).
  destruct (Z.ltb_spec (Z.abs n) (2 ^ 53)) as [_|H']; [done | exfalso; apply (Z.lt_irrefl (Z.abs n)); eauto using Z.lt_le_trans].
Qed.

Lemma parseInt_decimal z :
  JS.parseInt (JS.decimal z) = Some (Z.sgn z * JS.nearestDouble (Z.abs z))%Z.
Proof.
  unfold JS.decimal.
  destruct z as [|p|p]; [reflexivity| |]; cbn [Z.to_int NilZero.string_of_int Z.sgn Z.abs].
  - rewrite nilZero_nonnil by apply DecimalPos.Unsigned.to_uint_nonnil.
    rewrite parseInt_digits by apply DecimalPos.Unsigned.to_uint_nonnil.
    change (Z.of_uint (Pos.to_uint p)) with (Z.of_int (Z.to_int (Z.pos p))).
    rewrite DecimalZ.of_to. f_equal. by rewrite Z.mul_1_l.
  - rewrite nilZero_nonnil by apply DecimalPos.Unsigned.to_uint_nonnil.
    change (JS.parseInt (String "-" ?r)) with (JS.readInteger true r).
    rewrite (readInteger_digits true) by apply DecimalPos.Unsigned.to_uint_nonnil.
    change (Z.of_uint (Pos.to_uint p)) with (Z.of_int (Z.to_int (Z.pos p))).
    rewrite DecimalZ.of_to. f_equal.
Qed.

(** The key [obj[tabId] = v] files a tab under reads back as the tab's
    identifier, as long as the identifier is below 2^53. *)
Lemma parseInt_toString z : (Z.abs z < 2 ^ 53)%Z -> JS.parseInt (JS.toString z) = Some z.
Proof.
  intros H. rewrite (toString_safe _ H), parseInt_decimal, (nearestDouble_safe _ H).
  f_equal. rewrite Z.mul_comm. apply Z.abs_sgn.
Qed.

Lemma toString_inj i j :
  (Z.abs i < 2 ^ 53)%Z -> (Z.abs j < 2 ^ 53)%Z -> JS.toString i = JS.toString j -> i = j.
Proof.
  intros Hi Hj H. apply (f_equal JS.parseInt) in H.
  rewrite !parseInt_toString in H by done. congruence.
Qed.

(** The identifiers of tabs are 32-bit integers. *)
Lemma int32_safe n : (Z.abs (Tab.int32 n) < 2 ^ 53)%Z.
Proof.
  unfold Tab.int32.
  assert (H := Z.mod_pos_bound (n + 2 ^ 31) (2 ^ 32) eq_refl).
  apply Z.abs_lt. split.
  - apply Z.lt_le_trans with (- 2 ^ 31)%Z; [done|].
    apply Z.le_add_le_sub_r. rewrite Z.add_opp_diag_l. apply H.
  - apply Z.lt_trans with (2 ^ 31)%Z; [|done].
    apply Z.lt_sub_lt_add_r. apply H.
Qed.

Lemma id_safe tab i : Tab.id tab = Some i -> (Z.abs i < 2 ^ 53)%Z.
Proof.
  unfold Tab.id. destruct (Tab.sessionId tab); [|done].
  intros [= <-]. apply int32_safe.
Qed.

End Keys.

Example toString_examples :
  JS.toString 7 = "7" /\ JS.toString 0 = "0" /\ JS.toString (-42) = "-42".
Proof. repeat split. Qed.

Example parseInt_examples :
  JS.parseInt "12" = Some 12 /\ JS.parseInt "  -7px" = Some (-7) /\
  JS.parseInt "0x1F" = Some 31 /\ JS.parseInt "+08" = Some 8 /\
  JS.parseInt "" = None /\ JS.parseInt "tab-7" = None /\ JS.parseInt "0x" = None /\
  JS.parseInt "-" = None.
Proof. repeat split. Qed.

(** White space of more than one byte is passed over as well: the
    no-break space U+00A0, the byte order mark U+FEFF, the line separator
    U+2028; the zero-width space U+200B is no white space. *)
Example parseInt_white_space :
  JS.parseInt (String (ascii_of_nat 194) (String (ascii_of_nat 160) "7")) = Some 7 /\
  JS.parseInt (String (ascii_of_nat 239) (String (ascii_of_nat 187)
                 (String (ascii_of_nat 191) " 12"))) = Some 12 /\
  JS.parseInt (String (ascii_of_nat 226) (String (ascii_of_nat 128)
                 (String (ascii_of_nat 168) "-3"))) = Some (-3) /\
  JS.parseInt (zeroWidthSpace +:+ "7") = None.
Proof. repeat split. Qed.

Example eligible_examples :
  eligibleId Sample.mail = Some 7 /\ eligibleId Sample.settings = None /\
  eligibleId Sample.navigated = None /\
  eligibleId {| Tab.sessionId := Some 0; Tab.url := Some "https://a.example/";
                Tab.document := Sample.plain; Tab.refuses := None |} = None /\
  eligibleId {| Tab.sessionId := None; Tab.url := Some "https://a.example/";
                Tab.document := Sample.plain; Tab.refuses := None |} = None.
Proof. repeat split. Qed.

Example getTabDetails_examples :
  getTabDetails Sample.inbox = Sample.inboxDetails /\
  getTabDetails Sample.plain =
    {| title := "Settings"; faviconHref := None; faviconRel := "icon" |}.
Proof. split; reflexivity. Qed.

(** ** Runs of asynchronous functions *)

Section Runs.

Lemma result_mk {A} (a : A) b cs : result (a, b, cs) = a.
Proof. reflexivity. Qed.

Lemma state_mk {A} (a : A) b cs : state (a, b, cs) = b.
Proof. reflexivity. Qed.

Lemma calls_mk {A} (a : A) b cs : calls (a, b, cs) = cs.
Proof. reflexivity. Qed.

Lemma run_bind {A B} (m : Async A) (f : A -> Async B) b :
  (m ≫= f) b =
    (result (f (result (m b)) (state (m b))),
     state (f (result (m b)) (state (m b))),
     (calls (m b) ++ calls (f (result (m b)) (state (m b))))%list).
Proof.
  unfold mbind, Async_bind, result, state, calls.
  destruct (m b) as [[a b1] t1]; simpl.
  destruct (f a b1) as [[r b2] t2]; reflexivity.
Qed.

Lemma forOf_cons {A S} (x : A) rest (body : S -> A -> Async S) s b :
  forOf (x :: rest) body s b =
    (result (forOf rest body (result (body s x b)) (state (body s x b))),
     state (forOf rest body (result (body s x b)) (state (body s x b))),
     (calls (body s x b) ++
      calls (forOf rest body (result (body s x b)) (state (body s x b))))%list).
Proof. cbn [forOf]. apply run_bind. Qed.

(** What every round of a loop keeps, the loop keeps; what every call of
    a round is, every call of the loop is. *)
Lemma forOf_invariant {A S} (P : Browser -> Prop) (Q : Call -> Prop)
    (xs : list A) (body : S -> A -> Async S) :
  (forall s x b, x ∈ xs -> P b ->
     P (state (body s x b)) /\ Forall Q (calls (body s x b))) ->
  forall s b, P b ->
    P (state (forOf xs body s b)) /\ Forall Q (calls (forOf xs body s b)).
Proof.
  induction xs as [|x rest IH]; intros Hbody s b HP.
  - split; [exact HP | constructor].
  - rewrite forOf_cons, state_mk, calls_mk.
    destruct (Hbody s x b) as [HP1 HQ1]; [left | exact HP |].
    destruct (IH (fun s x b Hx => Hbody s x b (list_elem_of_further _ _ _ Hx))
                (result (body s x b)) (state (body s x b)) HP1) as [HP2 HQ2].
    split; [exact HP2 | apply Forall_app; split; assumption].
Qed.

Lemma Exists_eq {A} (x : A) l : Exists (eq x) l -> x ∈ l.
Proof. intros (y & Hin & <-)%Exists_exists. exact Hin. Qed.

(** A call every run of the round for [x] makes is made by the loop. *)
Lemma forOf_makes {A S} (R : Call -> Prop)
    (xs : list A) (body : S -> A -> Async S) x :
  x ∈ xs ->
  (forall s b, Exists R (calls (body s x b))) ->
  forall s b, Exists R (calls (forOf xs body s b)).
Proof.
  intros Hx Hbody. induction xs as [|y rest IH]; intros s b.
  - inversion Hx.
  - rewrite forOf_cons, calls_mk.
    apply Exists_app. apply elem_of_cons in Hx as [->|Hx].
    + left. apply Hbody.
    + right. apply IH, Hx.
Qed.

End Runs.

(** ** The injection service *)

Section Injection.

Lemma setDocument_same tab : Tab.setDocument (Tab.document tab) tab = tab.
Proof. destruct tab; reflexivity. Qed.

Lemma setTabs_same b : setTabs (tabs b) b = b.
Proof. destruct b; reflexivity. Qed.

Lemma withDocument_same i ts tab :
  tabWith i ts = Some tab -> withDocument i (Tab.document tab) ts = ts.
Proof.
  unfold tabWith. induction ts as [|t rest IH]; cbn [List.find withDocument]; [done|].
  destruct (targets i t).
  - intros [= ->]. by rewrite setDocument_same.
  - intros H. by rewrite IH.
Qed.

(** How a call to the service settles, and what it leaves. *)
Lemma inject_spec i func ts :
  inject i func ts =
    match tabWith i ts with
    | None => (Rejected ("No tab with id: " +:+ JS.toString i), ts)
    | Some tab =>
        match Tab.refuses tab with
        | Some message => (Rejected message, ts)
        | None =>
            (Fulfilled (runScript func (Tab.document tab)).2,
             withDocument i (runScript func (Tab.document tab)).1 ts)
        end
    end.
Proof.
  unfold tabWith. induction ts as [|t rest IH]; cbn [List.find inject withDocument]; [done|].
  destruct (targets i t) eqn:Ht.
  - destruct (Tab.refuses t); [done|].
    destruct (runScript func (Tab.document t)); reflexivity.
  - rewrite IH. destruct (List.find (targets i) rest) as [tab|]; [|done].
    destruct (Tab.refuses tab); [done|]. reflexivity.
Qed.

Lemma targets_setDocument j d tab : targets j (Tab.setDocument d tab) = targets j tab.
Proof. reflexivity. Qed.

Lemma targets_eq i j tab : targets i tab = true -> targets j tab = true -> i = j.
Proof.
  unfold targets. destruct (Tab.id tab); [|done].
  intros ?%Z.eqb_eq ?%Z.eqb_eq. congruence.
Qed.

Lemma tabWith_withDocument_eq i d ts :
  tabWith i (withDocument i d ts) = Tab.setDocument d <$> tabWith i ts.
Proof.
  unfold tabWith. induction ts as [|t rest IH]; cbn [List.find withDocument]; [done|].
  destruct (targets i t) eqn:Ht; cbn [List.find].
  - by rewrite targets_setDocument, Ht.
  - by rewrite Ht.
Qed.

Lemma tabWith_withDocument_ne i j d ts :
  i ≠ j -> tabWith j (withDocument i d ts) = tabWith j ts.
Proof.
  intros Hij. unfold tabWith.
  induction ts as [|t rest IH]; cbn [List.find withDocument]; [done|].
  destruct (targets i t) eqn:Ht; cbn [List.find].
  - rewrite targets_setDocument. destruct (targets j t) eqn:Hj; [|done].
    destruct Hij. eapply targets_eq; eassumption.
  - by rewrite IH.
Qed.

Lemma outline_withDocument i d ts :
  outline <$> withDocument i d ts = outline <$> ts.
Proof.
  induction ts as [|t rest IH]; cbn [withDocument]; [done|].
  destruct (targets i t); cbn [fmap list_fmap]; [done|].
  f_equal. exact IH.
Qed.

Lemma tabWith_elem i ts tab : tabWith i ts = Some tab -> tab ∈ ts /\ Tab.id tab = Some i.
Proof.
  unfold tabWith. intros H. apply find_some in H as [Hin Ht].
  split; [by apply list_elem_of_In|].
  unfold targets in Ht. destruct (Tab.id tab); [|done].
  apply Z.eqb_eq in Ht. congruence.
Qed.

Lemma eligibleId_id tab i : eligibleId tab = Some i -> Tab.id tab = Some i.
Proof.
  unfold eligibleId. destruct (Tab.id tab); [|done].
  destruct (Tab.url tab); [|done]. case_match; congruence.
Qed.


End Injection.

(** ** The save phase *)

Section SavePhase.

Lemma inject_get i ts :
  inject i GetTabDetails ts =
    (match tabWith i ts with
     | None => Rejected ("No tab with id: " +:+ JS.toString i)
     | Some tab =>
         match Tab.refuses tab with
         | Some message => Rejected message
         | None => Fulfilled (Some (getTabDetails (Tab.document tab)))
         end
     end, ts).
Proof.
  rewrite inject_spec. destruct (tabWith i ts) as [tab|] eqn:Ht; [|done].
  destruct (Tab.refuses tab); [done|]. cbn [runScript fst snd].
  by rewrite (withDocument_same _ _ _ Ht).
Qed.

Lemma executeScript_get i b :
  executeScript i GetTabDetails b =
    (match tabWith i (tabs b) with
     | None => Rejected ("No tab with id: " +:+ JS.toString i)
     | Some tab =>
         match Tab.refuses tab with
         | Some message => Rejected message
         | None => Fulfilled (Some (getTabDetails (Tab.document tab)))
         end
     end, b, [ExecuteScript i GetTabDetails]).
Proof. unfold executeScript. by rewrite inject_get, setTabs_same. Qed.

Lemma saveTab_run acc tab b :
  result (saveTab acc tab b) = capture (tabs b) acc tab /\
  state (saveTab acc tab b) = b /\
  Forall (fun c => readOnly c /\ toEligible [tab] c) (calls (saveTab acc tab b)).
Proof.
  unfold saveTab, capture, detailsOf.
  destruct (eligibleId tab) as [i|] eqn:He; [|repeat split; constructor].
  assert (Hto : forall func, toEligible [tab] (ExecuteScript i func)).
  { intros func j f [= <- _]. exists tab. split; [left | done]. }
  rewrite run_bind, !executeScript_get, !result_mk, !state_mk, !calls_mk.
  destruct (tabWith i (tabs b)) as [t|]; cbn [mbind option_bind];
    [destruct (Tab.refuses t)|]; cbn;
    (split; [done|split; [done|]]); repeat constructor; try done; apply Hto.
Qed.

Lemma toEligible_weaken ts ts' c :
  (forall tab, tab ∈ ts -> tab ∈ ts') -> toEligible ts c -> toEligible ts' c.
Proof.
  intros Hsub H j func Hc. destruct (H j func Hc) as (tab & Hin & He). eauto.
Qed.

Lemma saveLoop_run xs acc b :
  result (forOf xs saveTab acc b) = foldl (capture (tabs b)) acc xs /\
  state (forOf xs saveTab acc b) = b /\
  Forall (fun c => readOnly c /\ toEligible xs c) (calls (forOf xs saveTab acc b)).
Proof.
  revert acc. induction xs as [|x rest IH]; intros acc.
  - repeat split. constructor.
  - rewrite forOf_cons, result_mk, state_mk, calls_mk.
    destruct (saveTab_run acc x b) as (-> & -> & Hc).
    destruct (IH (capture (tabs b) acc x)) as (-> & -> & Hcs).
    repeat split. apply Forall_app. split.
    + eapply Forall_impl; [exact Hc|]. intros c [? H]. split; [done|].
      eapply toEligible_weaken; [|exact H].
      intros t ->%list_elem_of_singleton. left.
    + eapply Forall_impl; [exact Hcs|]. intros c [? H]. split; [done|].
      eapply toEligible_weaken; [|exact H]. intros t Ht. by right.
Qed.

Lemma eligibleId_safe tab i : eligibleId tab = Some i -> (Z.abs i < 2 ^ 53)%Z.
Proof. intros H. eapply id_safe, eligibleId_id, H. Qed.

Lemma detailsOf_safe ts i d : detailsOf ts i = Some d -> (Z.abs i < 2 ^ 53)%Z.
Proof.
  unfold detailsOf. destruct (tabWith i ts) as [tab|] eqn:Ht; [|done].
  intros _. eapply id_safe, tabWith_elem, Ht.
Qed.

(** The entry of a tab that was read stays through the rest of the loop. *)
Lemma capture_keeps ts xs acc i d :
  detailsOf ts i = Some d ->
  acc !! JS.toString i = Some d ->
  foldl (capture ts) acc xs !! JS.toString i = Some d.
Proof.
  intros Hd. revert acc. induction xs as [|x rest IH]; intros acc Hacc; [done|].
  cbn [foldl]. apply IH. unfold capture.
  destruct (eligibleId x) as [j|]; [|done].
  destruct (detailsOf ts j) as [dj|] eqn:Hj; [|done].
  destruct (decide (j = i)) as [->|Hne].
  - rewrite lookup_insert_eq. congruence.
  - rewrite lookup_insert_ne; [done|]. intros Hk. apply Hne.
    eapply toString_inj, Hk; eapply detailsOf_safe; eassumption.
Qed.

Lemma capture_reads ts xs acc tab i d :
  tab ∈ xs -> eligibleId tab = Some i -> detailsOf ts i = Some d ->
  foldl (capture ts) acc xs !! JS.toString i = Some d.
Proof.
  intros Hin He Hd. revert acc. induction xs as [|x rest IH]; intros acc.
  - inversion Hin.
  - cbn [foldl]. apply elem_of_cons in Hin as [<-|Hin]; [|by apply IH].
    apply capture_keeps; [done|]. unfold capture. rewrite He, Hd.
    apply lookup_insert_eq.
Qed.

Lemma capture_only ts xs acc k d :
  foldl (capture ts) acc xs !! k = Some d ->
  acc !! k = Some d \/
  exists tab i, tab ∈ xs /\ eligibleId tab = Some i /\ k = JS.toString i /\
                detailsOf ts i = Some d.
Proof.
  revert acc. induction xs as [|x rest IH]; intros acc H; [by left|].
  cbn [foldl] in H. apply IH in H as [H|(tab & i & Hin & He & Hk & Hd)].
  - unfold capture in H. destruct (eligibleId x) as [j|] eqn:He; [|by left].
    destruct (detailsOf ts j) as [dj|] eqn:Hj; [|by left].
    destruct (decide (JS.toString j = k)) as [<-|Hne].
    + rewrite lookup_insert_eq in H. injection H as ->.
      right. exists x, j. repeat split; [left | done..].
    + rewrite lookup_insert_ne in H by done. by left.
  - right. exists tab, i. repeat split; [by right | done..].
Qed.

(** The snapshot the loop builds is the state of the tabs it ran on. *)
Lemma capture_originalState ts : originalState ts (foldl (capture ts) ∅ ts).
Proof.
  split.
  - intros k d H. apply capture_only in H as [H|H]; [|exact H].
    by rewrite lookup_empty in H.
  - intros tab i d. apply capture_reads.
Qed.

End SavePhase.

(** ** The two halves of [manageTabs] *)

Section ManageTabs.

(** With no saved state, the save phase stores the state of the open
    tabs; its only write is that one. *)
Lemma saveState_fresh b :
  noSavedState (storage b) = true ->
  saveState b =
    (tt, setStorage (Some (foldl (capture (tabs b)) ∅ (tabs b))) b,
     [StorageGet; Console Log "No existing saved state found. Saving current tab states...";
      TabsQuery] ++
     calls (forOf (tabs b) saveTab ∅ b) ++
     [StorageSet (foldl (capture (tabs b)) ∅ (tabs b));
      Console Log "Original tab details stored for undo."])%list.
Proof.
  intros H. destruct (saveLoop_run (tabs b) ∅ b) as (Hr & Hs & _).
  unfold saveState, mbind, Async_bind, storageGet, console, call, tabsQuery, storageSet.
  rewrite H. unfold result, state, calls in *.
  destruct (forOf (tabs b) saveTab ∅ b) as [[snap b'] cs]. cbn [fst snd] in *.
  subst. reflexivity.
Qed.

(** With a saved state, the save phase is skipped. *)
Lemma saveState_skipped b :
  noSavedState (storage b) = false ->
  saveState b =
    (tt, b, [StorageGet; Console Log "Existing saved state found. Skipping state save."]).
Proof.
  intros H. unfold saveState, mbind, Async_bind, storageGet, console, call.
  rewrite H. reflexivity.
Qed.

(** [manageTabs], cut at the end of the save phase. *)
Lemma manageTabs_split mode b :
  let b1 := state (saveState b) in
  let r := applyPhase mode (tabs b1) b1 in
  state (manageTabs mode b) = state r /\
  exists tail,
    calls (manageTabs mode b) =
      ([Console Log ("Executing manageTabs with mode: " +:+ mode)] ++ calls (saveState b) ++
       [TabsQuery] ++ calls r ++ tail)%list /\
    Forall (fun c => exists message, c = Console Log message) tail.
Proof.
  intros b1 r. subst b1 r. unfold manageTabs. rewrite !run_bind.
  change (state (console Log ("Executing manageTabs with mode: " +:+ mode) b)) with b.
  set (b1 := state (saveState b)).
  change (state (tabsQuery b1)) with b1. change (result (tabsQuery b1)) with (tabs b1).
  set (r := applyPhase mode (tabs b1) b1).
  rewrite !state_mk, !calls_mk.
  destruct (result r).
  - rewrite run_bind, state_mk, calls_mk.
    destruct (String.eqb mode "purgeAll"); (split; [reflexivity|]);
      eexists; (split; [reflexivity|]); repeat constructor; eauto.
  - split; [reflexivity|]. exists []. split; [reflexivity | constructor].
Qed.

End ManageTabs.

(** ** The apply phase *)

Section PageCalls.

Lemma keeps_refl b : keeps b b.
Proof. by repeat split. Qed.

Lemma executeScript_keeps i func b0 b :
  keeps b0 b -> keeps b0 (state (executeScript i func b)).
Proof.
  intros (Hs & Ho & Hm). unfold executeScript. rewrite inject_spec.
  destruct (tabWith i (tabs b)) as [t|]; [destruct (Tab.refuses t)|];
    rewrite state_mk; repeat split; try done; cbn [tabs setTabs].
  by rewrite outline_withDocument.
Qed.

Lemma executeScript_calls i func b :
  calls (executeScript i func b) = [ExecuteScript i func].
Proof. unfold executeScript. by destruct (inject i func (tabs b)). Qed.

Lemma randomIndex_keeps n b0 b : keeps b0 b -> keeps b0 (state (randomIndex n b)).
Proof. intros H. unfold randomIndex. by destruct (entropy b). Qed.

Lemma randomIndex_calls n b : calls (randomIndex n b) = [].
Proof. unfold randomIndex. by destruct (entropy b). Qed.

Lemma pageCall_inject tab i func :
  eligibleId tab = Some i -> isDisguise func = true ->
  pageCall [tab] (ExecuteScript i func).
Proof.
  intros He Hd. split; [done|]. split; [by intros j f [= _ <-]|].
  intros j f [= <- _]. exists tab. split; [left | done].
Qed.

Lemma pageCall_quiet ts c :
  isInjection c = false -> isStorageWrite c = false -> pageCall ts c.
Proof. intros Hi Hs. split; [done|]. split; intros j f ->; discriminate Hi. Qed.

Lemma pageCall_weaken ts ts' c :
  (forall tab, tab ∈ ts -> tab ∈ ts') -> pageCall ts c -> pageCall ts' c.
Proof.
  intros Hsub (? & ? & H). split; [done|]. split; [done|].
  by eapply toEligible_weaken.
Qed.

End PageCalls.

(** Goes through a list of calls of the apply phase. *)
Ltac page_calls :=
  repeat first
    [ apply Forall_nil_2
    | apply Forall_cons_2;
      [first [by apply pageCall_inject | by apply pageCall_quiet]|] ].

Section ApplyPhase.

Lemma purgeTab_run u tab b0 b :
  keeps b0 b ->
  keeps b0 (state (purgeTab u tab b)) /\
  Forall (pageCall [tab]) (calls (purgeTab u tab b)).
Proof.
  intros Hk. unfold purgeTab. destruct (eligibleId tab) as [i|] eqn:He.
  - rewrite run_bind, state_mk, calls_mk, executeScript_calls.
    pose proof (executeScript_keeps i PurgeTabDetails b0 b Hk) as Hk'.
    destruct (result (executeScript i PurgeTabDetails b)); (split; [exact Hk'|]);
      page_calls.
  - split; [exact Hk | constructor].
Qed.

Lemma purgeTab_disguises u tab i b :
  eligibleId tab = Some i -> Exists (disguises i) (calls (purgeTab u tab b)).
Proof.
  intros He. unfold purgeTab. rewrite He, run_bind, calls_mk, executeScript_calls.
  left. by exists PurgeTabDetails.
Qed.

Lemma applyRandom_run mappings ks u tab b0 b :
  keeps b0 b ->
  keeps b0 (state (applyRandom mappings ks u tab b)) /\
  Forall (pageCall [tab]) (calls (applyRandom mappings ks u tab b)).
Proof.
  intros Hk. unfold applyRandom. destruct (eligibleId tab) as [i|] eqn:He.
  - rewrite run_bind, state_mk, calls_mk, randomIndex_calls.
    pose proof (randomIndex_keeps (length ks) b0 b Hk) as Hk1.
    set (b1 := state (randomIndex (length ks) b)) in *.
    set (details := SetSpecificDetails _).
    rewrite run_bind, state_mk, calls_mk. cbn [state console call fst snd].
    rewrite run_bind, state_mk, calls_mk, executeScript_calls.
    pose proof (executeScript_keeps i details b0 b1 Hk1) as Hk2.
    destruct (result (executeScript i details b1)); (split; [exact Hk2|]);
      page_calls.
  - split; [exact Hk | constructor].
Qed.

Lemma applyRandom_disguises mappings ks u tab i b :
  eligibleId tab = Some i ->
  Exists (disguises i) (calls (applyRandom mappings ks u tab b)).
Proof.
  intros He. unfold applyRandom.
  rewrite He, run_bind, calls_mk, randomIndex_calls, run_bind, calls_mk.
  rewrite run_bind, calls_mk, executeScript_calls.
  right. left. eexists. split; reflexivity.
Qed.

(** A loop of page writes keeps the store and sends scripts to eligible
    tabs only. *)
Lemma pageLoop_run (body : unit -> Tab.t -> Async unit) ts b :
  (forall u tab b0 b, keeps b0 b ->
     keeps b0 (state (body u tab b)) /\ Forall (pageCall [tab]) (calls (body u tab b))) ->
  keeps b (state (forOf ts body tt b)) /\
  Forall (pageCall ts) (calls (forOf ts body tt b)).
Proof.
  intros Hbody.
  apply (forOf_invariant (keeps b) (pageCall ts)); [|apply keeps_refl].
  intros u tab b' Hin Hk. destruct (Hbody u tab b b' Hk) as [Hk' Hc].
  split; [exact Hk'|]. eapply Forall_impl; [exact Hc|].
  intros c. apply pageCall_weaken. by intros t ->%list_elem_of_singleton.
Qed.

End ApplyPhase.

(** ** The dispatch on the mode *)

Section Dispatch.

Lemma keys_empty {V} (o : gmap string V) : length (keys o) = 0%nat <-> o = ∅.
Proof.
  unfold keys. rewrite length_fmap. rewrite <- map_to_list_empty_iff.
  destruct (map_to_list o); [done|]. split; intros H; discriminate H.
Qed.

(** The loader does not fail: it hands over the object of the file, or
    the empty object; the latter exactly when the mapping is empty. *)
Lemma loadDomainMappings_run b :
  state (loadDomainMappings b) = b /\
  Forall (fun c => isInjection c = false /\ isStorageWrite c = false)
    (calls (loadDomainMappings b)) /\
  (emptyMapping (mappingsFile b) <-> result (loadDomainMappings b) = ∅).
Proof.
  unfold loadDomainMappings. rewrite run_bind.
  change (state (fetchMappings b)) with b.
  change (result (fetchMappings b)) with (mappingsFile b).
  change (calls (fetchMappings b)) with [Fetch].
  destruct (mappingsFile b) as [| | |[| | |mappings]]; cbn;
    (split; [done|]); (split; [repeat constructor|]); done.
Qed.

Lemma applyPhase_other mode ts b :
  mode ≠ "purgeAll" -> mode ≠ "professional" -> applyPhase mode ts b = (true, b, []).
Proof.
  intros H1 H2. unfold applyPhase.
  apply String.eqb_neq in H1, H2. by rewrite H1, H2.
Qed.

(** [professional] with an empty mapping: the function returns from
    inside the branch, before the loop. *)
Lemma applyPhase_empty ts b :
  emptyMapping (mappingsFile b) ->
  result (applyPhase "professional" ts b) = false /\
  state (applyPhase "professional" ts b) = b /\
  Forall (fun c => isInjection c = false /\ isStorageWrite c = false)
    (calls (applyPhase "professional" ts b)) /\
  Exists (fun c => exists message, c = Console Error message)
    (calls (applyPhase "professional" ts b)).
Proof.
  intros He. unfold applyPhase. cbn [String.eqb Ascii.eqb Bool.eqb].
  rewrite run_bind, result_mk, state_mk, calls_mk. cbn [state console call fst snd].
  rewrite run_bind, result_mk, state_mk, calls_mk.
  destruct (loadDomainMappings_run b) as (-> & Hc & Hr).
  apply Hr in He. rewrite He.
  replace (length (keys (∅ : gmap string (option Profile.t)))) with 0%nat
    by (symmetry; by apply keys_empty).
  cbn [Nat.eqb]. rewrite run_bind, result_mk, state_mk, calls_mk.
  split; [done|]. split; [done|]. split.
  - apply Forall_app. split; [repeat constructor|].
    apply Forall_app. split; [exact Hc | repeat constructor].
  - apply Exists_app. right. apply Exists_app. right. left. eauto.
Qed.

(** Whatever the mode, the dispatch leaves the store alone and sends
    scripts to eligible tabs only. *)
Lemma applyPhase_run mode ts b :
  keeps b (state (applyPhase mode ts b)) /\
  Forall (pageCall ts) (calls (applyPhase mode ts b)).
Proof.
  unfold applyPhase. destruct (String.eqb mode "purgeAll").
  { rewrite run_bind, state_mk, calls_mk. cbn [state console call fst snd].
    rewrite run_bind, state_mk, calls_mk.
    destruct (pageLoop_run purgeTab ts b purgeTab_run) as [Hk Hc].
    rewrite run_bind, state_mk, calls_mk. split; [exact Hk|].
    apply Forall_app. split; [page_calls|].
    apply Forall_app. split; [exact Hc|].
    page_calls. }
  destruct (String.eqb mode "professional"); [|split; [apply keeps_refl | constructor]].
  rewrite run_bind, state_mk, calls_mk. cbn [state console call fst snd].
  rewrite run_bind, state_mk, calls_mk.
  destruct (loadDomainMappings_run b) as (-> & Hl & _).
  assert (Hload : Forall (pageCall ts) (calls (loadDomainMappings b))).
  { eapply Forall_impl; [exact Hl|]. intros c [Hi ?]. by apply pageCall_quiet. }
  set (mappings := result (loadDomainMappings b)).
  destruct (Nat.eqb (length (keys mappings)) 0).
  { rewrite run_bind, state_mk, calls_mk. split; [apply keeps_refl|].
    apply Forall_app. split; [page_calls|].
    apply Forall_app. split; [exact Hload|].
    page_calls. }
  rewrite run_bind, state_mk, calls_mk. cbn [state console call fst snd].
  rewrite run_bind, state_mk, calls_mk.
  destruct (pageLoop_run (applyRandom mappings (keys mappings)) ts b
              (applyRandom_run mappings (keys mappings))) as [Hk Hc].
  rewrite run_bind, state_mk, calls_mk. split; [exact Hk|].
  apply Forall_app. split; [page_calls|].
  apply Forall_app. split; [exact Hload|].
  apply Forall_app. split; [page_calls|].
  apply Forall_app. split; [exact Hc|].
  page_calls.
Qed.

(** In a mode that gets to its loop, every eligible tab is sent a
    disguise. *)
Lemma applyPhase_disguises mode ts b tab i :
  disguising mode b -> tab ∈ ts -> eligibleId tab = Some i ->
  Exists (disguises i) (calls (applyPhase mode ts b)).
Proof.
  intros [->|[-> Hne]] Hin He; unfold applyPhase; cbn [String.eqb Ascii.eqb Bool.eqb].
  - rewrite run_bind, calls_mk. cbn [state console call fst snd].
    rewrite run_bind, calls_mk.
    apply Exists_app. right. apply Exists_app. left.
    apply (forOf_makes (disguises i) ts purgeTab tab Hin).
    intros u b'. by apply purgeTab_disguises.
  - rewrite run_bind, calls_mk. cbn [state console call fst snd].
    rewrite run_bind, calls_mk.
    destruct (loadDomainMappings_run b) as (-> & _ & Hr).
    set (mappings := result (loadDomainMappings b)) in *.
    destruct (Nat.eqb (length (keys mappings)) 0) eqn:Hlen.
    { apply Nat.eqb_eq, keys_empty in Hlen. destruct Hne. by apply Hr. }
    rewrite run_bind, calls_mk. cbn [state console call fst snd].
    rewrite run_bind, calls_mk.
    apply Exists_app. right. apply Exists_app. right.
    apply Exists_app. right. apply Exists_app. left.
    apply (forOf_makes (disguises i) ts _ tab Hin).
    intros u b'. by apply applyRandom_disguises.
Qed.

End Dispatch.

(** ** [manageTabs] as a whole *)

Section Engine.

Lemma snapshotWrites_app cs1 cs2 :
  snapshotWrites (cs1 ++ cs2) = (snapshotWrites cs1 + snapshotWrites cs2)%nat.
Proof. unfold snapshotWrites. by rewrite List.filter_app, length_app. Qed.

Lemma snapshotWrites_none cs :
  Forall (fun c => isStorageWrite c = false) cs -> snapshotWrites cs = 0%nat.
Proof.
  unfold snapshotWrites. induction 1 as [|c cs Hc _ IH]; [done|].
  cbn [List.filter]. destruct c; try discriminate Hc; exact IH.
Qed.

Lemma saveState_tabs b :
  tabs (state (saveState b)) = tabs b /\
  mappingsFile (state (saveState b)) = mappingsFile b.
Proof.
  destruct (noSavedState (storage b)) eqn:H.
  - by rewrite (saveState_fresh b H).
  - by rewrite (saveState_skipped b H).
Qed.

Lemma saveState_calls b :
  Forall (fun c => isPageWrite c = false /\ toEligible (tabs b) c) (calls (saveState b)).
Proof.
  destruct (noSavedState (storage b)) eqn:H.
  - rewrite (saveState_fresh b H), calls_mk.
    destruct (saveLoop_run (tabs b) ∅ b) as (_ & _ & Hc).
    apply Forall_app. split; [repeat constructor; intros ?? [=]|].
    apply Forall_app. split; [|repeat constructor; intros ?? [=]].
    eapply Forall_impl; [exact Hc|]. by intros c [[? ?] ?].
  - rewrite (saveState_skipped b H), calls_mk. repeat constructor; intros ?? [=].
Qed.

(** The calls of the apply phase of an invocation. *)
Lemma manageTabs_phases mode b :
  let b1 := state (saveState b) in
  keeps b1 (state (manageTabs mode b)) /\
  exists tail,
    calls (manageTabs mode b) =
      ([Console Log ("Executing manageTabs with mode: " +:+ mode)] ++ calls (saveState b) ++
       [TabsQuery] ++ calls (applyPhase mode (tabs b) b1) ++ tail)%list /\
    Forall (pageCall (tabs b)) (calls (applyPhase mode (tabs b) b1)) /\
    Forall (fun c => exists message, c = Console Log message) tail.
Proof.
  intros b1. destruct (manageTabs_split mode b) as (Hs & tail & Hc & Ht).
  fold b1 in Hs, Hc. destruct (saveState_tabs b) as [Htabs _]. fold b1 in Htabs.
  rewrite Htabs in Hs, Hc. rewrite Hs.
  destruct (applyPhase_run mode (tabs b) b1) as [Hk Hp].
  split; [exact Hk|]. exists tail. by repeat split.
Qed.

(** Whatever the mode, an invocation sends scripts to eligible tabs
    only, and leaves the outline of the tabs as it is. *)
Lemma manageTabs_eligible mode b :
  outline <$> tabs (state (manageTabs mode b)) = outline <$> tabs b /\
  mappingsFile (state (manageTabs mode b)) = mappingsFile b /\
  Forall (toEligible (tabs b)) (calls (manageTabs mode b)).
Proof.
  destruct (manageTabs_phases mode b) as ((_ & Ho & Hm) & tail & -> & Hp & Ht).
  destruct (saveState_tabs b) as [Htabs Hmap]. rewrite Htabs in Ho. rewrite Hmap in Hm.
  split; [exact Ho|]. split; [exact Hm|].
  apply Forall_app. split; [repeat constructor; intros ?? [=]|].
  apply Forall_app. split.
  { eapply Forall_impl; [apply saveState_calls|]. by intros c [_ ?]. }
  apply Forall_app. split; [repeat constructor; intros ?? [=]|].
  apply Forall_app. split.
  - eapply Forall_impl; [exact Hp|]. by intros c (_ & _ & ?).
  - eapply Forall_impl; [exact Ht|]. intros c [m ->] ?? [=].
Qed.

(** The first invocation of a cycle stores the state of the tabs, once. *)
Lemma manageTabs_fresh mode b :
  noSavedState (storage b) = true ->
  storage (state (manageTabs mode b)) = Some (foldl (capture (tabs b)) ∅ (tabs b)) /\
  snapshotWrites (calls (manageTabs mode b)) = 1%nat /\
  StorageSet (foldl (capture (tabs b)) ∅ (tabs b)) ∈ calls (manageTabs mode b).
Proof.
  intros H. destruct (manageTabs_phases mode b) as ((Hs & _) & tail & -> & Hp & Ht).
  rewrite Hs. rewrite (saveState_fresh b H) in Hp |- *. rewrite state_mk, calls_mk.
  split; [done|].
  destruct (saveLoop_run (tabs b) ∅ b) as (_ & _ & Hc).
  split.
  - rewrite !snapshotWrites_app.
    rewrite (snapshotWrites_none (calls (forOf (tabs b) saveTab ∅ b))).
    2:{ eapply Forall_impl; [exact Hc|]. by intros c [[_ ?] _]. }
    rewrite (snapshotWrites_none (calls (applyPhase _ _ _))).
    2:{ eapply Forall_impl; [exact Hp|]. by intros c [? _]. }
    rewrite (snapshotWrites_none tail).
    2:{ eapply Forall_impl; [exact Ht|]. by intros c [m ->]. }
    reflexivity.
  - apply elem_of_app. right. apply elem_of_app. left.
    apply elem_of_app. right. apply elem_of_app. right. left.
Qed.

(** A later invocation of the cycle skips the save phase: it reads no
    tab and does not write to the store. *)
Lemma manageTabs_again mode b :
  noSavedState (storage b) = false ->
  storage (state (manageTabs mode b)) = storage b /\
  Forall (fun c => isStorageWrite c = false /\
                   forall i, c ≠ ExecuteScript i GetTabDetails)
    (calls (manageTabs mode b)).
Proof.
  intros H. destruct (manageTabs_phases mode b) as ((Hs & _) & tail & -> & Hp & Ht).
  rewrite Hs. rewrite (saveState_skipped b H) in Hp |- *. rewrite state_mk, calls_mk.
  split; [done|].
  apply Forall_app. split; [by repeat constructor|].
  apply Forall_app. split; [by repeat constructor|].
  apply Forall_app. split; [by repeat constructor|].
  apply Forall_app. split.
  - eapply Forall_impl; [exact Hp|]. intros c (? & Hd & _). split; [done|].
    intros i ->. by specialize (Hd _ _ eq_refl).
  - eapply Forall_impl; [exact Ht|]. by intros c [m ->].
Qed.

End Engine.

(** ** [undoChanges] *)

Section Undo.

(** With nothing saved, [undoChanges] reads the store and returns. *)
Lemma undoChanges_nothing b :
  noSavedState (storage b) = true ->
  undoChanges b =
    (tt, b, [Console Log "Executing undoChanges"; StorageGet;
             Console Log "No original tab details found to restore."]).
Proof.
  intros H. unfold undoChanges, mbind, Async_bind, storageGet, console, call.
  rewrite H. reflexivity.
Qed.

(** With a saved state, it runs the loop over the entries, then removes
    the key. *)
Lemma undoChanges_saved b snapshot :
  storage b = Some snapshot ->
  noSavedState (storage b) = false ->
  undoChanges b =
    (tt, setStorage None (state (forOf (map_to_list snapshot) restoreTab tt b)),
     [Console Log "Executing undoChanges"; StorageGet] ++
     calls (forOf (map_to_list snapshot) restoreTab tt b) ++
     [StorageRemove; Console Log "Tab details restoration attempted and storage cleared."])%list.
Proof.
  intros Hs H. unfold undoChanges, mbind, Async_bind, storageGet, console, call, storageRemove.
  rewrite H, Hs. change (default ∅ (Some snapshot)) with snapshot.
  unfold state, calls.
  destruct (forOf (map_to_list snapshot) restoreTab tt b) as [[[] b'] cs]. reflexivity.
Qed.

Lemma noSavedState_false saved :
  noSavedState saved = false -> exists snapshot, saved = Some snapshot /\ snapshot ≠ ∅.
Proof.
  destruct saved as [snapshot|]; [|done]. cbn [noSavedState].
  intros H. exists snapshot. split; [done|]. intros He.
  apply keys_empty in He. rewrite He in H. done.
Qed.

Lemma restoreTab_run u entry b0 b :
  keeps b0 b ->
  keeps b0 (state (restoreTab u entry b)) /\
  Forall (restoreCall [entry]) (calls (restoreTab u entry b)).
Proof.
  intros Hk. destruct entry as [k d]. unfold restoreTab.
  assert (Hquiet : forall l m, restoreCall [(k, d)] (Console l m)).
  { intros l m. split; [done|]. intros ?? [=]. }
  destruct (JS.parseInt k) as [j|] eqn:Hp.
  - rewrite run_bind, state_mk, calls_mk. cbn [state console call fst snd].
    rewrite run_bind, state_mk, calls_mk, executeScript_calls.
    pose proof (executeScript_keeps j (RestoreTabDetails d) b0 b Hk) as Hk'.
    assert (Hinj : restoreCall [(k, d)] (ExecuteScript j (RestoreTabDetails d))).
    { split; [done|]. intros ?? [= <- <-]. exists k, d. split; [left | done]. }
    destruct (result (executeScript j (RestoreTabDetails d) b)) as [?|message];
      [|destruct (JS.includes message "No tab with id" || JS.includes message "Invalid tab ID")];
      (split; [exact Hk'|]);
      repeat first [apply Forall_nil_2 | apply Forall_cons_2; [first [apply Hquiet | exact Hinj]|]].
  - split; [exact Hk|]. apply Forall_cons_2; [apply Hquiet | apply Forall_nil_2].
Qed.

Lemma restoreCall_weaken es es' c :
  (forall e, e ∈ es -> e ∈ es') -> restoreCall es c -> restoreCall es' c.
Proof.
  intros Hsub [? H]. split; [done|]. intros j func Hc.
  destruct (H j func Hc) as (k & d & Hin & Hrest). exists k, d. split; [auto | done].
Qed.

Lemma restoreLoop_run entries b :
  keeps b (state (forOf entries restoreTab tt b)) /\
  Forall (restoreCall entries) (calls (forOf entries restoreTab tt b)).
Proof.
  apply (forOf_invariant (keeps b) (restoreCall entries)); [|apply keeps_refl].
  intros u e b' Hin Hk. destruct (restoreTab_run u e b b' Hk) as [Hk' Hc].
  split; [exact Hk'|]. eapply Forall_impl; [exact Hc|].
  intros c. apply restoreCall_weaken. by intros ? ->%list_elem_of_singleton.
Qed.

(** An entry whose key reads as [j] has its restore sent to tab [j]. *)
Lemma restoreLoop_sends entries k d j b :
  (k, d) ∈ entries -> JS.parseInt k = Some j ->
  ExecuteScript j (RestoreTabDetails d) ∈ calls (forOf entries restoreTab tt b).
Proof.
  intros Hin Hp. apply Exists_eq.
  apply (forOf_makes _ entries restoreTab (k, d) Hin). intros u b'.
  unfold restoreTab. rewrite Hp, run_bind, calls_mk. cbn [state console call fst snd].
  rewrite run_bind, calls_mk, executeScript_calls. right. by left.
Qed.

(** An entry whose key does not read as a number is reported. *)
Lemma restoreLoop_warns entries k d b :
  (k, d) ∈ entries -> JS.parseInt k = None ->
  Console Warn (invalidTabId k) ∈ calls (forOf entries restoreTab tt b).
Proof.
  intros Hin Hp. apply Exists_eq.
  apply (forOf_makes _ entries restoreTab (k, d) Hin). intros u b'.
  unfold restoreTab. rewrite Hp. by left.
Qed.

Lemma injections_app cs1 cs2 :
  injections (cs1 ++ cs2) = (injections cs1 + injections cs2)%nat.
Proof. unfold injections. by rewrite List.filter_app, length_app. Qed.

Lemma restoreTab_injections u entry b :
  injections (calls (restoreTab u entry b)) = if readable entry then 1%nat else 0%nat.
Proof.
  destruct entry as [k d]. unfold restoreTab, readable. cbn [fst].
  destruct (JS.parseInt k) as [j|]; [|done].
  rewrite run_bind, calls_mk. cbn [state console call fst snd].
  rewrite run_bind, calls_mk, executeScript_calls.
  destruct (result (executeScript j (RestoreTabDetails d) b)) as [?|message];
    [|destruct (JS.includes message "No tab with id" || JS.includes message "Invalid tab ID")];
    reflexivity.
Qed.

(** One script is injected for each entry whose key reads as a number,
    none for the others. *)
Lemma restoreLoop_injections entries b :
  injections (calls (forOf entries restoreTab tt b)) =
    length (List.filter readable entries).
Proof.
  revert b. induction entries as [|e rest IH]; intros b; [done|].
  rewrite forOf_cons, calls_mk, injections_app, restoreTab_injections.
  destruct (result (restoreTab tt e b)). rewrite IH. cbn [List.filter].
  by destruct (readable e).
Qed.

End Undo.

(** ** The content scripts *)

Section ContentScripts.

Lemma filter_none {A} (f : A -> bool) l :
  List.filter f (List.filter (fun x => negb (f x)) l) = [].
Proof.
  induction l as [|x l IH]; [done|]. cbn [List.filter].
  destruct (f x) eqn:Hx; cbn [negb List.filter]; [done|]. by rewrite Hx.
Qed.

Lemma existsb_filter {A} (f : A -> bool) l :
  existsb f l = false <-> List.filter f l = [].
Proof.
  induction l as [|x l IH]; [done|]. cbn [existsb List.filter].
  destruct (f x); cbn [orb]; [|exact IH]. split; discriminate.
Qed.

Lemma map_unselected {A} (f : A -> bool) (g : A -> A) l :
  List.filter f l = [] -> List.map (fun x => if f x then g x else x) l = l.
Proof.
  induction l as [|x l IH]; [done|]. cbn [List.filter List.map].
  destruct (f x); [discriminate|]. intros H. by rewrite IH.
Qed.

(** The icon links of a document after a link was appended to it. *)
Lemma iconLinks_appendChild l d :
  iconLinks (DOM.appendChild l d) =
    (iconLinks d ++ if DOM.relContains "icon" l then [l] else [])%list.
Proof.
  unfold iconLinks, DOM.querySelectorAll, DOM.appendChild. cbn [DOM.links DOM.setLinks].
  rewrite List.filter_app. cbn [List.filter]. by destruct (DOM.relContains "icon" l).
Qed.

Lemma iconLinks_removeAll d : iconLinks (DOM.removeAll (DOM.relContains "icon") d) = [].
Proof. unfold iconLinks, DOM.querySelectorAll, DOM.removeAll. apply filter_none. Qed.

Lemma relIs_contains v l :
  JS.includes v "icon" = true -> DOM.relIs v l = true -> DOM.relContains "icon" l = true.
Proof.
  unfold DOM.relIs, DOM.relContains. intros Hv Hl.
  apply String.eqb_eq in Hl. by rewrite Hl.
Qed.

(** The relation [getTabDetails] reports is one the icon selector
    matches; in particular it is not empty. *)
Lemma getTabDetails_rel d :
  JS.includes (JS.lower (faviconRel (getTabDetails d))) "icon" = true.
Proof.
  unfold getTabDetails. set (ls := DOM.links d).
  destruct (DOM.querySelector (DOM.relIs "icon") ls) as [l|] eqn:H1; cbn.
  { apply find_some in H1 as [_ H1]. by apply (relIs_contains "icon"). }
  destruct (DOM.querySelector (DOM.relIs "shortcut icon") ls) as [l|] eqn:H2; cbn.
  { apply find_some in H2 as [_ H2]. by apply (relIs_contains "shortcut icon"). }
  destruct (DOM.querySelector (DOM.relContains "icon") ls) as [l|] eqn:H3; cbn.
  { by apply find_some in H3 as [_ H3]. }
  destruct (DOM.faviconComplete d); [done|].
  by destruct (DOM.querySelector (DOM.itempropIs "image") (DOM.metas d)).
Qed.

Lemma getTabDetails_title d : title (getTabDetails d) = DOM.title d.
Proof.
  unfold getTabDetails.
  destruct (orElse _ _); cbn; [done|].
  destruct (DOM.faviconComplete d); [done|].
  by destruct (DOM.querySelector (DOM.itempropIs "image") (DOM.metas d)).
Qed.

Lemma includes_truthy s sub : JS.includes s sub = true -> JS.truthy sub = true -> JS.truthy s = true.
Proof. destruct s; [|done]. by destruct sub. Qed.

Lemma lower_truthy s : JS.truthy (JS.lower s) = JS.truthy s.
Proof. by destruct s. Qed.

Lemma restoreTabDetails_title details d :
  DOM.title (restoreTabDetails details d) = title details.
Proof.
  unfold restoreTabDetails.
  destruct (negb (falsy (faviconHref details))); reflexivity.
Qed.

(** The writers leave the page's way of resolving addresses alone. *)
Lemma restoreTabDetails_resolve details d :
  DOM.resolve (restoreTabDetails details d) = DOM.resolve d.
Proof.
  unfold restoreTabDetails.
  destruct (negb (falsy (faviconHref details))); reflexivity.
Qed.

(** With a favicon saved under a relation the icon selector matches, the
    restore leaves one icon link: the saved one. *)
Lemma restoreTabDetails_icons details d F :
  faviconHref details = Some F -> F ≠ "" ->
  JS.includes (JS.lower (faviconRel details)) "icon" = true ->
  iconLinks (restoreTabDetails details d) =
    [ {| DOM.rel := faviconRel details; DOM.href := DOM.resolve d F; DOM.type := "" |} ].
Proof.
  intros HF Hne HR. unfold restoreTabDetails. rewrite HF. cbn [falsy default].
  assert (JS.truthy F = true) as -> by by destruct F.
  assert (JS.truthy (faviconRel details) = true) as ->.
  { rewrite <- lower_truthy. by eapply includes_truthy. }
  cbn [negb]. rewrite iconLinks_appendChild, iconLinks_removeAll.
  unfold DOM.relContains. cbn [DOM.rel]. by rewrite HR.
Qed.


End ContentScripts.

(** ** What undo does to one tab *)

Section RestoreOneTab.

Lemma tabWith_outline i ts ts' tab :
  outline <$> ts' = outline <$> ts -> tabWith i ts = Some tab ->
  exists tab', tabWith i ts' = Some tab' /\ outline tab' = outline tab.
Proof.
  unfold tabWith. revert ts'. induction ts as [|t rest IH]; intros [|t' rest'] Ho; try done.
  assert (Ht : outline t' = outline t) by (cbn in Ho; congruence).
  assert (Hrest : outline <$> rest' = outline <$> rest) by (cbn in Ho; congruence).
  cbn [List.find].
  assert (targets i t' = targets i t) as ->.
  { unfold targets. unfold outline in Ht. by replace (Tab.id t') with (Tab.id t) by congruence. }
  destruct (targets i t).
  - intros [= <-]. eauto.
  - by apply IH.
Qed.

Lemma restoreTab_state u k d b :
  state (restoreTab u (k, d) b) =
    match JS.parseInt k with
    | None => b
    | Some j => state (executeScript j (RestoreTabDetails d) b)
    end.
Proof.
  unfold restoreTab. destruct (JS.parseInt k) as [j|]; [|done].
  rewrite run_bind, state_mk. cbn [state console call fst snd].
  rewrite run_bind, state_mk.
  destruct (result (executeScript j (RestoreTabDetails d) b)) as [?|message]; [done|].
  by destruct (JS.includes message "No tab with id" || JS.includes message "Invalid tab ID").
Qed.

Lemma executeScript_tabs j func b :
  tabs (state (executeScript j func b)) = (inject j func (tabs b)).2.
Proof. unfold executeScript. by destruct (inject j func (tabs b)). Qed.

Variable i : Z.
Variable details : TabDetails.
Variable F : string.
Hypothesis saved : faviconHref details = Some F.
Hypothesis nonEmpty : F ≠ "".
Hypothesis iconRel : JS.includes (JS.lower (faviconRel details)) "icon" = true.

Lemma restoreTabDetails_shows d : shows details (restoreTabDetails details d).
Proof.
  split; [apply restoreTabDetails_title|].
  rewrite (restoreTabDetails_icons details d F saved nonEmpty iconRel).
  by rewrite saved, restoreTabDetails_resolve.
Qed.

(** Through the loop of [undoChanges], the tab under [i] stays within
    reach, and shows the saved details from the round of its entry on. *)
Lemma restoreLoop_tab entries :
  (forall k d, (k, d) ∈ entries -> JS.parseInt k = Some i -> d = details) ->
  forall b tab,
    tabWith i (tabs b) = Some tab -> Tab.refuses tab = None ->
    exists tab',
      tabWith i (tabs (state (forOf entries restoreTab tt b))) = Some tab' /\
      Tab.refuses tab' = None /\
      (shows details (Tab.document tab) \/
       (exists k d, (k, d) ∈ entries /\ JS.parseInt k = Some i) ->
       shows details (Tab.document tab')).
Proof.
  induction entries as [|[k d] rest IH]; intros Hsame b tab Ht Hr.
  { exists tab. split; [done|]. split; [done|]. intros [Hsh|(k0 & d0 & Hin & _)]; [done|].
    inversion Hin. }
  rewrite forOf_cons, state_mk, restoreTab_state.
  destruct (result (restoreTab tt (k, d) b)).
  assert (Hrest : forall k d, (k, d) ∈ rest -> JS.parseInt k = Some i -> d = details).
  { intros k' d' Hin. apply Hsame. by right. }
  destruct (JS.parseInt k) as [j|] eqn:Hp.
  - destruct (decide (j = i)) as [->|Hne].
    + assert (d = details) as -> by (apply (Hsame k); [left | done]).
      set (b1 := state (executeScript i (RestoreTabDetails details) b)).
      assert (Ht1 : tabWith i (tabs b1) =
                      Some (Tab.setDocument (restoreTabDetails details (Tab.document tab)) tab)).
      { subst b1. rewrite executeScript_tabs, inject_spec, Ht, Hr. cbn [snd runScript fst].
        rewrite tabWith_withDocument_eq, Ht. reflexivity. }
      destruct (IH Hrest b1 _ Ht1 Hr) as (tab' & Ht' & Hr' & Hshows).
      exists tab'. split; [done|]. split; [done|]. intros _. apply Hshows. left.
      apply restoreTabDetails_shows.
    + set (b1 := state (executeScript j (RestoreTabDetails d) b)).
      assert (Ht1 : tabWith i (tabs b1) = Some tab).
      { subst b1. rewrite executeScript_tabs, inject_spec.
        destruct (tabWith j (tabs b)) as [tj|]; [|done].
        destruct (Tab.refuses tj); [done|]. cbn [snd].
        by rewrite tabWith_withDocument_ne. }
      destruct (IH Hrest b1 _ Ht1 Hr) as (tab' & Ht' & Hr' & Hshows).
      exists tab'. split; [done|]. split; [done|].
      intros [Hsh|(k' & d' & Hin & Hp')]; apply Hshows; [by left|].
      right. exists k', d'. split; [|done].
      apply elem_of_cons in Hin as [[= -> ->]|Hin]; [congruence | done].
  - destruct (IH Hrest b _ Ht Hr) as (tab' & Ht' & Hr' & Hshows).
    exists tab'. split; [done|]. split; [done|].
    intros [Hsh|(k' & d' & Hin & Hp')]; apply Hshows; [by left|].
    right. exists k', d'. split; [|done].
    apply elem_of_cons in Hin as [[= -> ->]|Hin]; [congruence | done].
Qed.

End RestoreOneTab.

(** * The content scripts: blank-write *)

(** C9. After [purgeTabDetails] has run on a page, the title is the
    zero-width space; every link the icon selector matches has the
    transparent GIF as its [href] and [icon] as its [rel]; and a page that
    had no icon link has exactly one, the one the function created (a page
    that had some keeps as many, and gets no new link). *)
Theorem purge_blanks_page (d : DOM.Document) :
  DOM.title (purgeTabDetails d) = zeroWidthSpace /\
  Forall (fun l => DOM.href l = blankFavicon /\ DOM.rel l = "icon")
    (iconLinks (purgeTabDetails d)) /\
  (iconLinks d = [] ->
     iconLinks (purgeTabDetails d) = [blankLink] /\
     DOM.links (purgeTabDetails d) = (DOM.links d ++ [blankLink])%list) /\
  (iconLinks d ≠ [] ->
     length (iconLinks (purgeTabDetails d)) = length (iconLinks d) /\
     length (DOM.links (purgeTabDetails d)) = length (DOM.links d)).
Proof.
  unfold purgeTabDetails. cbn [DOM.links DOM.setTitle].
  set (icon := DOM.relContains "icon").
  set (blank := fun link : DOM.LinkElement =>
                  if icon link
                  then {| DOM.rel := "icon"; DOM.href := blankFavicon; DOM.type := DOM.type link |}
                  else link).
  assert (Hblank : forall ls,
            Forall (fun l => DOM.href l = blankFavicon /\ DOM.rel l = "icon")
              (List.filter icon (List.map blank ls)) /\
            length (List.filter icon (List.map blank ls)) = length (List.filter icon ls)).
  { assert (Hicon : forall l, icon (blank l) = icon l).
    { intros l. unfold blank. destruct (icon l) eqn:Hl; [reflexivity | exact Hl]. }
    assert (Hturned : forall l, icon l = true ->
              DOM.href (blank l) = blankFavicon /\ DOM.rel (blank l) = "icon").
    { intros l Hl. unfold blank. by rewrite Hl. }
    induction ls as [|l ls [IH1 IH2]]; [by split|]. cbn [List.map List.filter].
    rewrite Hicon. destruct (icon l) eqn:Hl; [|by split].
    split; [|cbn [List.length]; f_equal; exact IH2].
    apply Forall_cons_2; [by apply Hturned | exact IH1]. }
  destruct (existsb icon (DOM.links d)) eqn:He; cbn [negb].
  - split; [done|]. split; [apply Hblank|]. split.
    + intros Hnone. unfold iconLinks, DOM.querySelectorAll in Hnone.
      apply existsb_filter in Hnone. fold icon in Hnone. congruence.
    + intros _. split; [apply Hblank|]. cbn [DOM.links DOM.setLinks].
      apply length_map.
  - apply existsb_filter in He. split; [done|].
    assert (Hsame : List.map blank (DOM.links d) = DOM.links d).
    { apply (map_unselected icon
               (fun l => {| DOM.rel := "icon"; DOM.href := blankFavicon; DOM.type := DOM.type l |})).
      exact He. }
    assert (Hone : iconLinks
                     (DOM.appendChild blankLink
                        (DOM.setLinks (List.map blank (DOM.links d))
                           (DOM.setTitle zeroWidthSpace d))) = [blankLink]).
    { rewrite iconLinks_appendChild. unfold iconLinks, DOM.querySelectorAll.
      cbn [DOM.links DOM.setLinks]. rewrite Hsame. fold icon. by rewrite He. }
    split; [|split].
    + fold blankLink. rewrite Hone. by repeat constructor.
    + intros _. fold blankLink. split; [exact Hone|].
      cbn [DOM.appendChild DOM.links DOM.setLinks]. by rewrite Hsame.
    + intros Hsome. by destruct Hsome.
Qed.

(** * Undo *)

(** C7. With no snapshot persisted (the key is not there, or holds an
    empty object), [undoChanges] does nothing: it leaves the browser, store
    included, as it was, injects no script and makes no call that writes
    to the store. *)
Theorem undo_without_snapshot (b : Browser) :
  storage b = None \/ storage b = Some ∅ ->
  state (undoChanges b) = b /\
  injections (calls (undoChanges b)) = 0%nat /\
  Forall (fun c => isStorageWrite c = false) (calls (undoChanges b)).
Proof.
  intros H. rewrite undoChanges_nothing.
  - split; [done|]. split; [done|]. by repeat constructor.
  - by destruct H as [-> | ->].
Qed.

Lemma undo_without_snapshot_witness :
  state (undoChanges (Sample.open [Sample.mail])) = Sample.open [Sample.mail] /\
  injections (calls (undoChanges (Sample.open [Sample.mail]))) = 0%nat /\
  Forall (fun c => isStorageWrite c = false) (calls (undoChanges (Sample.open [Sample.mail]))).
Proof. apply undo_without_snapshot. left. reflexivity. Defined.

(** C6. With a snapshot that is not empty, [undoChanges] ends by removing
    the key, whatever became of the restores it sent: the store holds no
    snapshot afterwards, the removal is the last call to the store, after
    the whole loop, and the run never writes the snapshot back. This holds
    for every state of the tabs, so also when no restore can succeed. *)
Theorem undo_clears_snapshot (b : Browser) (snapshot : Snapshot) :
  storage b = Some snapshot -> snapshot ≠ ∅ ->
  storage (state (undoChanges b)) = None /\
  (exists before,
     calls (undoChanges b) =
       (before ++ [StorageRemove;
                   Console Log "Tab details restoration attempted and storage cleared."])%list /\
     Forall (fun c => isStorageWrite c = false) before /\
     injections before = length (List.filter readable (map_to_list snapshot))).
Proof.
  intros Hs Hne. rewrite (undoChanges_saved b snapshot Hs).
  2:{ rewrite Hs. cbn [noSavedState]. apply Nat.eqb_neq. by rewrite keys_empty. }
  split; [done|]. rewrite calls_mk.
  exists ([Console Log "Executing undoChanges"; StorageGet] ++
          calls (forOf (map_to_list snapshot) restoreTab tt b))%list.
  split; [by rewrite <- app_assoc|]. split.
  - apply Forall_app. split; [by repeat constructor|].
    destruct (restoreLoop_run (map_to_list snapshot) b) as [_ Hc].
    eapply Forall_impl; [exact Hc|]. by intros c [? _].
  - rewrite injections_app. apply restoreLoop_injections.
Qed.

Lemma undo_clears_snapshot_witness :
  storage (state (undoChanges Sample.mixed)) = None /\
  (exists before,
     calls (undoChanges Sample.mixed) =
       (before ++ [StorageRemove;
                   Console Log "Tab details restoration attempted and storage cleared."])%list /\
     Forall (fun c => isStorageWrite c = false) before /\
     injections before =
       length (List.filter readable
                 (map_to_list (<[ "tab-7" := Sample.inboxDetails ]>
                                 ({[ "7" := Sample.inboxDetails ]} : Snapshot))))).
Proof.
  apply (undo_clears_snapshot Sample.mixed); [reflexivity|].
  apply insert_non_empty.
Defined.

(** When no restore succeeds, the key is removed all the same. *)
Example undo_clears_when_restore_fails :
  calls (undoChanges Sample.closed) =
    [ Console Log "Executing undoChanges"; StorageGet;
      Console Log "details";
      ExecuteScript 7 (RestoreTabDetails Sample.inboxDetails);
      Console Warn "Tab 7 not found or invalid during restore, skipping.";
      StorageRemove;
      Console Log "Tab details restoration attempted and storage cleared." ] /\
  storage (state (undoChanges Sample.closed)) = None /\
  tabs (state (undoChanges Sample.closed)) = tabs Sample.closed.
Proof. repeat split; vm_compute; reflexivity. Qed.

(** C8, as the code has it. An entry is skipped when [parseInt] reads no
    number at all from its key: then a warning that names the key is
    logged, the loop goes on, every entry whose key does read as a number
    has its restore sent to the tab of that number, and no other script is
    injected. (A key that only begins with a number is read as that
    number, and its entry is restored.) *)
Theorem unreadable_keys_skipped (b : Browser) (snapshot : Snapshot)
    (k : string) (d : TabDetails) :
  storage b = Some snapshot ->
  snapshot !! k = Some d ->
  JS.parseInt k = None ->
  Console Warn (invalidTabId k) ∈ calls (undoChanges b) /\
  (forall k' d' j, snapshot !! k' = Some d' -> JS.parseInt k' = Some j ->
     ExecuteScript j (RestoreTabDetails d') ∈ calls (undoChanges b)) /\
  (forall j func, ExecuteScript j func ∈ calls (undoChanges b) ->
     exists k' d', snapshot !! k' = Some d' /\ JS.parseInt k' = Some j /\
                   func = RestoreTabDetails d') /\
  injections (calls (undoChanges b)) = length (List.filter readable (map_to_list snapshot)) /\
  storage (state (undoChanges b)) = None.
Proof.
  intros Hs Hk Hp. rewrite (undoChanges_saved b snapshot Hs).
  2:{ rewrite Hs. cbn [noSavedState]. apply Nat.eqb_neq. rewrite keys_empty.
      intros ->. by rewrite lookup_empty in Hk. }
  rewrite calls_mk, state_mk. repeat split.
  - apply elem_of_app. right. apply elem_of_app. left.
    apply (restoreLoop_warns _ k d); [by apply elem_of_map_to_list | done].
  - intros k' d' j Hk' Hp'. apply elem_of_app. right. apply elem_of_app. left.
    apply (restoreLoop_sends _ k' d' j); [by apply elem_of_map_to_list | done].
  - intros j func Hin.
    destruct (restoreLoop_run (map_to_list snapshot) b) as [_ Hc].
    rewrite Forall_forall in Hc.
    apply elem_of_app in Hin as [Hin|Hin].
    { apply elem_of_cons in Hin as [[=]|Hin].
      apply list_elem_of_singleton in Hin. discriminate Hin. }
    apply elem_of_app in Hin as [Hin|Hin].
    + destruct (Hc _ Hin) as [_ H]. destruct (H j func eq_refl) as (k' & d' & Hk' & Hrest).
      exists k', d'. split; [by apply elem_of_map_to_list | done].
    + apply elem_of_cons in Hin as [[=]|Hin].
      apply list_elem_of_singleton in Hin. discriminate Hin.
  - rewrite !injections_app, restoreLoop_injections.
    set (n := length (List.filter readable (map_to_list snapshot))).
    cbn. lia.
Qed.

Lemma unreadable_keys_skipped_witness :
  Console Warn (invalidTabId "tab-7") ∈ calls (undoChanges Sample.mixed) /\
  (forall k' d' j,
     (<[ "tab-7" := Sample.inboxDetails ]> ({[ "7" := Sample.inboxDetails ]} : Snapshot)) !! k'
       = Some d' ->
     JS.parseInt k' = Some j ->
     ExecuteScript j (RestoreTabDetails d') ∈ calls (undoChanges Sample.mixed)) /\
  (forall j func, ExecuteScript j func ∈ calls (undoChanges Sample.mixed) ->
     exists k' d',
       (<[ "tab-7" := Sample.inboxDetails ]> ({[ "7" := Sample.inboxDetails ]} : Snapshot)) !! k'
         = Some d' /\
       JS.parseInt k' = Some j /\ func = RestoreTabDetails d') /\
  injections (calls (undoChanges Sample.mixed)) =
    length (List.filter readable
              (map_to_list (<[ "tab-7" := Sample.inboxDetails ]>
                              ({[ "7" := Sample.inboxDetails ]} : Snapshot)))) /\
  storage (state (undoChanges Sample.mixed)) = None.
Proof.
  apply (unreadable_keys_skipped Sample.mixed _ "tab-7" Sample.inboxDetails);
    [reflexivity | vm_compute; reflexivity | reflexivity].
Defined.

(** C8, as the claim states it, fails: the key ["12abc"] is no number, yet
    [undoChanges] does not skip its entry; it logs no warning and sends the
    restore to tab 12, whose page takes the saved title. *)
Lemma key_with_numeric_prefix_is_restored :
  JS.parseInt "12abc" = Some 12 /\
  calls (undoChanges Sample.tampered) =
    [ Console Log "Executing undoChanges"; StorageGet;
      Console Log "details";
      ExecuteScript 12 (RestoreTabDetails Sample.inboxDetails);
      StorageRemove;
      Console Log "Tab details restoration attempted and storage cleared." ] /\
  ((fun tab => DOM.title (Tab.document tab)) <$>
     tabWith 12 (tabs (state (undoChanges Sample.tampered)))) = Some "Inbox (3)".
Proof. repeat split; vm_compute; reflexivity. Qed.

(** * Disguise *)

(** C5. When [manageTabs('professional')] finds the mapping empty (the file
    cannot be fetched, is not JSON, is not a plain object, or has no key),
    the apply phase is given up: no write is sent to any tab and every
    page is as it was; the function returns, having logged an error (the
    model has no other way out of a function than its return); and the
    snapshot the save phase has just stored stays in the store, as the
    state of the tabs. With a snapshot already there, the store is as it
    was. *)
Theorem professional_without_mappings (b : Browser) :
  emptyMapping (mappingsFile b) ->
  tabs (state (manageTabs "professional" b)) = tabs b /\
  Forall (fun c => isPageWrite c = false) (calls (manageTabs "professional" b)) /\
  Exists (fun c => exists message, c = Console Error message)
    (calls (manageTabs "professional" b)) /\
  (noSavedState (storage b) = true ->
     exists snapshot,
       storage (state (manageTabs "professional" b)) = Some snapshot /\
       StorageSet snapshot ∈ calls (manageTabs "professional" b) /\
       originalState (tabs b) snapshot) /\
  (noSavedState (storage b) = false ->
     storage (state (manageTabs "professional" b)) = storage b).
Proof.
  intros He. set (b1 := state (saveState b)).
  destruct (saveState_tabs b) as [Htabs Hmap]. fold b1 in Htabs, Hmap.
  assert (He1 : emptyMapping (mappingsFile b1)) by by rewrite Hmap.
  destruct (applyPhase_empty (tabs b) b1 He1) as (Hres & Hst & Hquiet & Herr).
  (* the run, cut after the dispatch *)
  assert (Hrun : manageTabs "professional" b =
                   (tt, b1,
                    [Console Log "Executing manageTabs with mode: professional"] ++
                    calls (saveState b) ++ [TabsQuery] ++
                    calls (applyPhase "professional" (tabs b) b1))%list).
  { unfold manageTabs. rewrite !run_bind.
    change (state (console Log ("Executing manageTabs with mode: " +:+ "professional") b))
      with b.
    fold b1. change (state (tabsQuery b1)) with b1.
    change (result (tabsQuery b1)) with (tabs b1). rewrite Htabs, Hres, Hst.
    rewrite !result_mk, !state_mk, !calls_mk. cbn [mret Async_ret calls snd].
    by rewrite app_nil_r. }
  rewrite Hrun, state_mk, calls_mk. subst b1.
  split; [exact Htabs|]. split; [|split; [|split]].
  - apply Forall_app. split; [by repeat constructor|].
    apply Forall_app. split.
    { eapply Forall_impl; [apply saveState_calls|]. by intros c [? _]. }
    apply Forall_app. split; [by repeat constructor|].
    eapply Forall_impl; [exact Hquiet|]. intros c [Hi _]. by destruct c.
  - apply Exists_app. right. apply Exists_app. right. apply Exists_app. by right.
  - intros Hn. rewrite (saveState_fresh b Hn), state_mk, calls_mk.
    exists (foldl (capture (tabs b)) ∅ (tabs b)). split; [done|]. split.
    + apply elem_of_app. right. apply elem_of_app. left.
      apply elem_of_app. right. apply elem_of_app. right. left.
    + apply capture_originalState.
  - intros Hn. by rewrite (saveState_skipped b Hn), state_mk.
Qed.

Lemma professional_without_mappings_witness :
  emptyMapping (mappingsFile (Sample.open [Sample.mail; Sample.settings])) /\
  tabs (state (manageTabs "professional" (Sample.open [Sample.mail; Sample.settings]))) =
    [Sample.mail; Sample.settings] /\
  exists snapshot,
    storage (state (manageTabs "professional" (Sample.open [Sample.mail; Sample.settings])))
      = Some snapshot /\
    originalState [Sample.mail; Sample.settings] snapshot.
Proof.
  assert (He : emptyMapping (mappingsFile (Sample.open [Sample.mail; Sample.settings])))
    by (simpl; exact I).
  destruct (professional_without_mappings _ He) as (Ht & _ & _ & Hfresh & _).
  split; [exact He|]. split; [exact Ht|].
  destruct (Hfresh eq_refl) as (snapshot & Hs & _ & Ho). by exists snapshot.
Defined.

Lemma saveLoop_reads xs acc b tab i :
  tab ∈ xs -> eligibleId tab = Some i ->
  ExecuteScript i GetTabDetails ∈ calls (forOf xs saveTab acc b).
Proof.
  intros Hin He. apply Exists_eq.
  apply (forOf_makes _ xs saveTab tab Hin). intros acc' b'.
  unfold saveTab. rewrite He, run_bind, calls_mk, executeScript_calls. by left.
Qed.

(** C10. With a mode that is neither ['purgeAll'] nor ['professional'],
    [manageTabs] still runs the save phase in full: with no saved state it
    reads every eligible tab and stores the state of the tabs. It sends no
    write to any tab, so every page, title and favicon included, is as it
    was; only the store may differ. *)
Theorem other_mode_saves_only (mode : string) (b : Browser) :
  mode ≠ "purgeAll" -> mode ≠ "professional" ->
  tabs (state (manageTabs mode b)) = tabs b /\
  Forall (fun c => isPageWrite c = false) (calls (manageTabs mode b)) /\
  (noSavedState (storage b) = true ->
     (forall tab i, tab ∈ tabs b -> eligibleId tab = Some i ->
        ExecuteScript i GetTabDetails ∈ calls (manageTabs mode b)) /\
     exists snapshot,
       storage (state (manageTabs mode b)) = Some snapshot /\
       StorageSet snapshot ∈ calls (manageTabs mode b) /\
       originalState (tabs b) snapshot) /\
  (noSavedState (storage b) = false ->
     storage (state (manageTabs mode b)) = storage b).
Proof.
  intros H1 H2. destruct (manageTabs_split mode b) as (Hs & tail & Hc & Ht).
  destruct (saveState_tabs b) as [Htabs _].
  rewrite applyPhase_other in Hs, Hc by done. rewrite state_mk in Hs.
  rewrite calls_mk in Hc. rewrite Hs, Hc. clear Hs Hc.
  split; [exact Htabs|]. split; [|split].
  - apply Forall_app. split; [by repeat constructor|].
    apply Forall_app. split.
    { eapply Forall_impl; [apply saveState_calls|]. by intros c [? _]. }
    apply Forall_app. split; [by repeat constructor|].
    eapply Forall_impl; [exact Ht|]. by intros c [m ->].
  - intros Hn. rewrite (saveState_fresh b Hn), state_mk, calls_mk. split.
    + intros tab i Hin He. apply elem_of_app. right. apply elem_of_app. left.
      apply elem_of_app. right. apply elem_of_app. left.
      by apply (saveLoop_reads _ _ _ tab).
    + exists (foldl (capture (tabs b)) ∅ (tabs b)). split; [done|]. split.
      * apply elem_of_app. right. apply elem_of_app. left.
        apply elem_of_app. right. apply elem_of_app. right. left.
      * apply capture_originalState.
  - intros Hn. by rewrite (saveState_skipped b Hn), state_mk.
Qed.

Lemma other_mode_saves_only_witness :
  "shuffle" ≠ "purgeAll" /\ "shuffle" ≠ "professional" /\
  tabs (state (manageTabs "shuffle" (Sample.open [Sample.mail; Sample.settings]))) =
    [Sample.mail; Sample.settings] /\
  exists snapshot,
    storage (state (manageTabs "shuffle" (Sample.open [Sample.mail; Sample.settings])))
      = Some snapshot /\
    originalState [Sample.mail; Sample.settings] snapshot.
Proof.
  assert (H1 : "shuffle" ≠ "purgeAll") by discriminate.
  assert (H2 : "shuffle" ≠ "professional") by discriminate.
  destruct (other_mode_saves_only "shuffle"
              (Sample.open [Sample.mail; Sample.settings]) H1 H2) as (Ht & _ & Hfresh & _).
  split; [exact H1|]. split; [exact H2|]. split; [exact Ht|].
  destruct (Hfresh eq_refl) as (_ & snapshot & Hs & _ & Ho). by exists snapshot.
Defined.

(** C1, as the code has it. Starting with no snapshot persisted, when the
    first of two invocations of [manageTabs] (any modes) captures at least
    one tab, the two together write the snapshot once; the second skips the
    save phase (it reads no tab and makes no write to the store), even if
    tabs have opened, closed or changed in between; and the store then
    still holds the state of the tabs as they were before the first. *)
Theorem second_disguise_keeps_snapshot (mode1 mode2 : string) (b b' : Browser) :
  noSavedState (storage b) = true ->
  noSavedState (storage (state (manageTabs mode1 b))) = false ->
  storage b' = storage (state (manageTabs mode1 b)) ->
  snapshotWrites (calls (manageTabs mode1 b) ++ calls (manageTabs mode2 b')) = 1%nat /\
  Forall (fun c => isStorageWrite c = false /\ forall i, c ≠ ExecuteScript i GetTabDetails)
    (calls (manageTabs mode2 b')) /\
  exists snapshot,
    storage (state (manageTabs mode1 b)) = Some snapshot /\
    storage (state (manageTabs mode2 b')) = Some snapshot /\
    originalState (tabs b) snapshot.
Proof.
  intros Hfresh Hsaved Hb'.
  destruct (manageTabs_fresh mode1 b Hfresh) as (Hs1 & Hw1 & _).
  rewrite <- Hb' in Hsaved.
  destruct (manageTabs_again mode2 b' Hsaved) as (Hs2 & Hc2).
  split; [|split; [exact Hc2|]].
  - rewrite snapshotWrites_app, Hw1, (snapshotWrites_none (calls (manageTabs mode2 b'))).
    + reflexivity.
    + eapply Forall_impl; [exact Hc2|]. by intros c [? _].
  - exists (foldl (capture (tabs b)) ∅ (tabs b)).
    split; [exact Hs1|]. split; [by rewrite Hs2, Hb'|]. apply capture_originalState.
Qed.

Lemma second_disguise_keeps_snapshot_witness :
  snapshotWrites
    (calls (manageTabs "purgeAll" (Sample.open [Sample.mail; Sample.settings])) ++
     calls (manageTabs "professional"
              (state (manageTabs "purgeAll" (Sample.open [Sample.mail; Sample.settings])))))
    = 1%nat /\
  storage (state (manageTabs "professional"
                    (state (manageTabs "purgeAll" (Sample.open [Sample.mail; Sample.settings])))))
    = Some {[ "7" := Sample.inboxDetails ]}.
Proof.
  destruct (second_disguise_keeps_snapshot "purgeAll" "professional"
              (Sample.open [Sample.mail; Sample.settings])
              (state (manageTabs "purgeAll" (Sample.open [Sample.mail; Sample.settings]))))
    as (Hw & _ & snapshot & Hs1 & Hs2 & _);
    [reflexivity | vm_compute; reflexivity | reflexivity |].
  split; [exact Hw|]. rewrite Hs2, <- Hs1. vm_compute. reflexivity.
Defined.

(** C1, as the claim states it, fails. With only an internal page open,
    the first invocation stores an empty object, which counts as no
    snapshot: the second invocation runs the save phase again, and the two
    write the snapshot twice. *)
Lemma empty_snapshot_is_saved_again :
  noSavedState (storage (Sample.open [Sample.settings])) = true /\
  snapshotWrites
    (calls (manageTabs "purgeAll" (Sample.open [Sample.settings])) ++
     calls (manageTabs "purgeAll"
              (state (manageTabs "purgeAll" (Sample.open [Sample.settings]))))) = 2%nat /\
  snapshotWrites
    (calls (manageTabs "purgeAll"
              (state (manageTabs "purgeAll" (Sample.open [Sample.settings]))))) = 1%nat.
Proof. repeat split; vm_compute; reflexivity. Qed.

(** * Round trip *)

(** The entries of a snapshot the save phase built: their keys are the
    identifiers of eligible tabs, as [String] writes them. *)
Lemma captured_keys ts k d :
  (k, d) ∈ map_to_list (foldl (capture ts) ∅ ts) ->
  exists tab j, tab ∈ ts /\ eligibleId tab = Some j /\ k = JS.toString j /\
                detailsOf ts j = Some d.
Proof.
  intros Hin. apply elem_of_map_to_list in Hin.
  apply capture_only in Hin as [Hin|Hin]; [|exact Hin].
  by rewrite lookup_empty in Hin.
Qed.

(** C2, as the code has it. Take an eligible tab that lets scripts in, in
    a browser with no snapshot persisted, in which [getTabDetails] reads
    the title [T], the favicon address [F], not empty, and the relation
    [R]. After [manageTabs] (any mode) followed by [undoChanges], the page
    of the tab has the title [T] and exactly one icon link, with [rel] [R]
    and an [href] that reads as the page resolves [F]: [F] itself when [F]
    is an absolute address, as one read from a link element or the default
    favicon path is. *)
Theorem disguise_then_undo_restores (mode : string) (b : Browser) (tab : Tab.t)
    (i : Z) (T F R : string) :
  tabWith i (tabs b) = Some tab ->
  eligibleId tab = Some i ->
  Tab.refuses tab = None ->
  noSavedState (storage b) = true ->
  getTabDetails (Tab.document tab) = {| title := T; faviconHref := Some F; faviconRel := R |} ->
  F ≠ "" ->
  exists tab',
    tabWith i (tabs (state (undoChanges (state (manageTabs mode b))))) = Some tab' /\
    DOM.title (Tab.document tab') = T /\
    iconLinks (Tab.document tab') =
      [ {| DOM.rel := R; DOM.href := DOM.resolve (Tab.document tab') F; DOM.type := "" |} ].
Proof.
  intros Ht He Hr Hfresh Hread HF.
  set (details := {| title := T; faviconHref := Some F; faviconRel := R |}) in *.
  assert (Hd : detailsOf (tabs b) i = Some details).
  { unfold detailsOf. rewrite Ht. cbn [mbind option_bind]. by rewrite Hr, Hread. }
  assert (Hrel : JS.includes (JS.lower (faviconRel details)) "icon" = true).
  { rewrite <- Hread. apply getTabDetails_rel. }
  destruct (manageTabs_fresh mode b Hfresh) as (Hs & _ & _).
  destruct (manageTabs_eligible mode b) as (Ho & _ & _).
  set (b1 := state (manageTabs mode b)) in *.
  set (snapshot := foldl (capture (tabs b)) ∅ (tabs b)) in *.
  assert (Hentry : snapshot !! JS.toString i = Some details).
  { apply (capture_reads _ _ _ tab); [by apply (tabWith_elem i) | done..]. }
  destruct (tabWith_outline i (tabs b) (tabs b1) tab Ho Ht) as (tab1 & Ht1 & Ho1).
  assert (Hr1 : Tab.refuses tab1 = None).
  { unfold outline in Ho1. replace (Tab.refuses tab1) with (Tab.refuses tab) by congruence.
    exact Hr. }
  rewrite (undoChanges_saved b1 snapshot Hs).
  2:{ rewrite Hs. cbn [noSavedState]. apply Nat.eqb_neq. rewrite keys_empty.
      intros Hempty. by rewrite Hempty, lookup_empty in Hentry. }
  rewrite state_mk. cbn [tabs setStorage].
  destruct (restoreLoop_tab i details F eq_refl HF Hrel (map_to_list snapshot))
    with (b := b1) (tab := tab1) as (tab' & Ht' & _ & Hshows); [|done..|].
  { intros k d Hin Hp. apply captured_keys in Hin as (tab0 & j & _ & Hj0 & -> & Hj).
    rewrite parseInt_toString in Hp by (eapply eligibleId_safe, Hj0).
    injection Hp as ->. congruence. }
  exists tab'. split; [exact Ht'|].
  destruct Hshows as [Htitle Hicons]; [|done].
  right. exists (JS.toString i), details.
  split; [by apply elem_of_map_to_list | eapply parseInt_toString, eligibleId_safe, He].
Qed.

Lemma disguise_then_undo_restores_witness :
  ExecuteScript 7 PurgeTabDetails ∈
    calls (manageTabs "purgeAll" (Sample.open [Sample.mail; Sample.settings])) /\
  exists tab',
    tabWith 7 (tabs (state (undoChanges (state (manageTabs "purgeAll"
                 (Sample.open [Sample.mail; Sample.settings])))))) = Some tab' /\
    DOM.title (Tab.document tab') = "Inbox (3)" /\
    iconLinks (Tab.document tab') =
      [ {| DOM.rel := "Shortcut Icon";
           DOM.href := DOM.resolve (Tab.document tab') "https://mail.example/mail.png";
           DOM.type := "" |} ].
Proof.
  split; [vm_compute; repeat (first [left | right]) |].
  apply (disguise_then_undo_restores "purgeAll"
           (Sample.open [Sample.mail; Sample.settings]) Sample.mail);
    [reflexivity | reflexivity | reflexivity | reflexivity | reflexivity | discriminate].
Defined.

(** C2, as the claim states it, fails for a favicon address that is not
    null but empty: the page of [Sample.notebook] has an icon link with no
    [href], so [getTabDetails] reads the empty string; after purge and
    undo, its one icon link is the blank icon, not a link with that
    address. *)
Lemma empty_favicon_is_not_restored :
  getTabDetails (Tab.document Sample.notebook) =
    {| title := "Notes"; faviconHref := Some ""; faviconRel := "icon" |} /\
  ((fun tab => iconLinks (Tab.document tab)) <$>
     tabWith 9 (tabs (state (undoChanges (state (manageTabs "purgeAll"
                  (Sample.open [Sample.notebook]))))))) = Some [blankLink] /\
  DOM.href blankLink ≠ "".
Proof. repeat split; try (vm_compute; reflexivity). discriminate. Qed.

(** An address read from a meta tag may be relative: the link the restore
    installs then reads as the page resolves it. *)
Example relative_favicon_comes_back_resolved :
  getTabDetails (Tab.document Sample.shop) =
    {| title := "Shop"; faviconHref := Some "/logo.png"; faviconRel := "icon" |} /\
  ((fun tab => iconLinks (Tab.document tab)) <$>
     tabWith 31 (tabs (state (undoChanges (state (manageTabs "purgeAll"
                   (Sample.open [Sample.shop]))))))) =
    Some [ {| DOM.rel := "icon"; DOM.href := "https://shop.example/logo.png";
              DOM.type := "" |} ].
Proof. split; vm_compute; reflexivity. Qed.

(** * Eligibility *)

Section Eligibility.

Lemma startsWith_http u : JS.startsWith u "http:" = true -> scheme u = Some "http".
Proof.
  unfold JS.startsWith. rewrite String.prefix_correct.
  destruct u as [|c1 [|c2 [|c3 [|c4 [|c5 u]]]]]; try discriminate.
  cbn [String.length String.substring].
  intros [= -> -> -> -> ->]. reflexivity.
Qed.

Lemma startsWith_https u : JS.startsWith u "https:" = true -> scheme u = Some "https".
Proof.
  unfold JS.startsWith. rewrite String.prefix_correct.
  destruct u as [|c1 [|c2 [|c3 [|c4 [|c5 [|c6 u]]]]]]; try discriminate.
  cbn [String.length String.substring].
  intros [= -> -> -> -> -> ->]. reflexivity.
Qed.

(** The test of the loops lets a tab through only if the scheme of its
    address is [http] or [https]. *)
Lemma eligible_http tab i : eligibleId tab = Some i -> httpScheme tab = true.
Proof.
  unfold eligibleId, httpScheme, schemeOf.
  destruct (Tab.id tab) as [j|]; [|done]. destruct (Tab.url tab) as [u|]; [|done].
  cbn [mbind option_bind].
  destruct (JS.truthyNum j && JS.truthy u) ; [|done]. cbn [andb].
  destruct (JS.startsWith u "http:") eqn:H1.
  { by rewrite (startsWith_http u H1). }
  destruct (JS.startsWith u "https:") eqn:H2; [|done].
  by rewrite (startsWith_https u H2).
Qed.

End Eligibility.

(** C3, as the code has it. A tab whose address has a scheme other than
    [http] and [https] (or no address) fails the test of the loops, so
    [manageTabs], whatever the mode, injects nothing into it, neither the
    read of the save phase nor a write of the apply phase, and the snapshot
    the save phase stores, the state of the tabs as they are, has no entry
    for it. [undoChanges] has no such test: it sends a restore for every
    entry it can read. So the tab is left out of the restore whenever the
    store holds a snapshot that was taken with the tab as it is, whatever
    ran in between and whatever the browser has become by then. *)
Theorem non_http_tab_left_alone (mode : string) (b : Browser) (tab : Tab.t) (i : Z) :
  tab ∈ tabs b ->
  Tab.id tab = Some i ->
  httpScheme tab = false ->
  (forall other, other ∈ tabs b -> Tab.id other = Some i -> other = tab) ->
  eligible tab = false /\
  (forall func, ExecuteScript i func ∉ calls (manageTabs mode b)) /\
  (noSavedState (storage b) = true ->
     exists snapshot,
       storage (state (manageTabs mode b)) = Some snapshot /\
       originalState (tabs b) snapshot) /\
  (forall snapshot, originalState (tabs b) snapshot ->
     snapshot !! JS.toString i = None /\
     forall later func,
       storage later = Some snapshot -> ExecuteScript i func ∉ calls (undoChanges later)).
Proof.
  intros Hin Hid Hscheme Huniq.
  assert (Hnone : forall t, t ∈ tabs b -> eligibleId t = Some i -> False).
  { intros t Ht He. pose proof (eligibleId_id t i He) as Hti.
    rewrite (Huniq t Ht Hti) in He. apply eligible_http in He. congruence. }
  split; [|split; [|split]].
  - unfold eligible. destruct (eligibleId tab) as [j|] eqn:He; [|done].
    pose proof (eligibleId_id tab j He) as Hj. exfalso. apply (Hnone tab Hin). congruence.
  - intros func Hc. destruct (manageTabs_eligible mode b) as (_ & _ & Hall).
    rewrite Forall_forall in Hall.
    destruct (Hall _ Hc i func eq_refl) as (t & Ht & He). eauto.
  - intros Hfresh. destruct (manageTabs_fresh mode b Hfresh) as (Hs & _ & _).
    eexists. split; [exact Hs | apply capture_originalState].
  - intros snapshot [Hkeys _].
    assert (Hentries : forall k d, snapshot !! k = Some d -> JS.parseInt k = Some i -> False).
    { intros k d Hk Hp. destruct (Hkeys k d Hk) as (t & j & Ht & He & -> & _).
      rewrite parseInt_toString in Hp by (eapply eligibleId_safe, He).
      injection Hp as ->. eauto. }
    split.
    + destruct (snapshot !! JS.toString i) as [d|] eqn:Hl; [|done].
      exfalso. apply (Hentries (JS.toString i) d Hl).
      eapply parseInt_toString, id_safe, Hid.
    + intros later func Hs Hc.
      destruct (noSavedState (storage later)) eqn:Hn.
      { rewrite (undoChanges_nothing later Hn), calls_mk in Hc.
        repeat (apply elem_of_cons in Hc as [[=]|Hc]). inversion Hc. }
      rewrite (undoChanges_saved later _ Hs Hn), calls_mk in Hc.
      destruct (restoreLoop_run (map_to_list snapshot) later) as [_ Hall].
      rewrite Forall_forall in Hall.
      apply elem_of_app in Hc as [Hc|Hc].
      { repeat (apply elem_of_cons in Hc as [[=]|Hc]). inversion Hc. }
      apply elem_of_app in Hc as [Hc|Hc].
      * destruct (Hall _ Hc) as [_ H]. destruct (H i func eq_refl) as (k & d & Hk & Hp & _).
        apply elem_of_map_to_list in Hk. eauto.
      * repeat (apply elem_of_cons in Hc as [[=]|Hc]). inversion Hc.
Qed.

Lemma non_http_tab_left_alone_witness :
  httpScheme Sample.settings = false /\
  eligible Sample.settings = false /\
  (forall func, ExecuteScript 8 func ∉ calls (manageTabs "purgeAll" office)) /\
  (forall func,
     ExecuteScript 8 func ∉
       calls (undoChanges (state (manageTabs "professional"
                (state (manageTabs "purgeAll" office)))))).
Proof.
  assert (Hscheme : httpScheme Sample.settings = false) by reflexivity.
  destruct (non_http_tab_left_alone "purgeAll" office Sample.settings 8)
    as (He & Hm & Hs & Hu); [| reflexivity | exact Hscheme | |].
  - right. left.
  - intros other Hin Hid. simpl in Hin.
    apply elem_of_cons in Hin as [->|Hin]; [discriminate Hid|].
    by apply list_elem_of_singleton in Hin.
  - split; [exact Hscheme|]. split; [exact He|]. split; [exact Hm|].
    destruct (Hs eq_refl) as (snapshot & Hstore & Hstate).
    intros func. apply (proj2 (Hu snapshot Hstate)).
    rewrite <- Hstore. vm_compute. reflexivity.
Defined.

(** C3, as the claim states it, fails for the restore. The mail tab is
    disguised; then it goes to a [file:] address; [undoChanges] sends the
    restore to it all the same, and its page takes the saved title. *)
Lemma navigated_tab_is_restored :
  reachable anyMode Scenario.navigated /\
  tabs (browser Scenario.navigated) = [Sample.navigated] /\
  schemeOf Sample.navigated = Some "file" /\
  httpScheme Sample.navigated = false /\
  List.filter isInjection (calls (undoChanges (browser Scenario.navigated))) =
    [ExecuteScript 7 (RestoreTabDetails Sample.inboxDetails)] /\
  ((fun tab => DOM.title (Tab.document tab)) <$>
     tabWith 7 (tabs (state (undoChanges (browser Scenario.navigated))))) = Some "Inbox (3)".
Proof.
  split.
  { apply (reach_browser anyMode Scenario.purged).
    apply (reach_apply anyMode); [|exact I].
    by apply reach_start. }
  repeat split; vm_compute; reflexivity.
Qed.

(** * The snapshot and the disguise *)

Section Invariant.

(** Reading the 32 bits of a tab identifier gives the identifier. *)
Lemma int32_int32 n : Tab.int32 (Tab.int32 n) = Tab.int32 n.
Proof.
  unfold Tab.int32.
  assert (H := Z.mod_pos_bound (n + 2 ^ 31) (2 ^ 32) eq_refl).
  rewrite Z.sub_add. by rewrite Z.mod_mod.
Qed.

Lemma id_int32 tab i : Tab.id tab = Some i -> Tab.int32 i = i.
Proof.
  unfold Tab.id. destruct (Tab.sessionId tab); [|done].
  intros [= <-]. apply int32_int32.
Qed.

(** A browser that stands still is one of the ways the browser goes. *)
Lemma manageTabsAmid_standstill mode b :
  manageTabsAmid (fun ts => ts) mode b = manageTabs mode b.
Proof.
  unfold manageTabsAmid, manageTabs, elapse, mbind, Async_bind, console, call, tabsQuery.
  destruct (saveState b) as [[u b1] cs]. rewrite setTabs_same.
  destruct (applyPhase mode (tabs b1) b1) as [[continue b2] cs2].
  destruct continue; [destruct (String.eqb mode "purgeAll")|]; reflexivity.
Qed.

(** [manageTabsAmid], cut at the end of the save phase. *)
Lemma manageTabsAmid_phases change mode b :
  let b1 := state (saveState b) in
  let ts := change (tabs b) in
  let r := applyPhase mode ts (setTabs ts b1) in
  storage (state (manageTabsAmid change mode b)) = storage b1 /\
  exists tail,
    calls (manageTabsAmid change mode b) =
      ([Console Log ("Executing manageTabs with mode: " +:+ mode)] ++ calls (saveState b) ++
       [TabsQuery] ++ calls r ++ tail)%list /\
    Forall (pageCall ts) (calls r) /\
    Forall (fun c => exists message, c = Console Log message) tail.
Proof.
  intros b1 ts r. subst r ts. destruct (saveState_tabs b) as [Htabs _]. fold b1 in Htabs.
  rewrite <- Htabs. unfold manageTabsAmid. rewrite !run_bind.
  change (state (console Log ("Executing manageTabs with mode: " +:+ mode) b)) with b.
  fold b1. change (state (elapse change b1)) with (setTabs (change (tabs b1)) b1).
  set (b2 := setTabs (change (tabs b1)) b1).
  change (state (tabsQuery b2)) with b2.
  change (result (tabsQuery b2)) with (change (tabs b1)).
  destruct (applyPhase_run mode (change (tabs b1)) b2) as [(Hs & _) Hp].
  set (r := applyPhase mode (change (tabs b1)) b2) in *.
  rewrite !state_mk, !calls_mk.
  change (calls (elapse change b1)) with (@nil Call). rewrite app_nil_l.
  destruct (result r).
  - rewrite run_bind, state_mk, calls_mk.
    destruct (String.eqb mode "purgeAll"); (split; [exact Hs|]);
      eexists; (split; [reflexivity|]); (split; [exact Hp|]); repeat constructor; eauto.
  - split; [exact Hs|]. exists []. split; [reflexivity|]. split; [exact Hp | constructor].
Qed.

(** An invocation that finds no snapshot writes one: the state of the
    tabs it starts with. *)
Lemma manageTabsAmid_fresh change mode b :
  noSavedState (storage b) = true ->
  storage (state (manageTabsAmid change mode b)) =
    Some (foldl (capture (tabs b)) ∅ (tabs b)) /\
  existsb isStorageSet (calls (manageTabsAmid change mode b)) = true.
Proof.
  intros H. destruct (manageTabsAmid_phases change mode b) as (-> & tail & -> & _).
  rewrite (saveState_fresh b H), state_mk, calls_mk. split; [done|].
  apply existsb_exists. exists (StorageSet (foldl (capture (tabs b)) ∅ (tabs b))).
  split; [|reflexivity]. apply list_elem_of_In.
  apply elem_of_app. right. apply elem_of_app. left.
  apply elem_of_app. right. apply elem_of_app. right. left.
Qed.

(** An invocation that finds a snapshot leaves it. *)
Lemma manageTabsAmid_again change mode b :
  noSavedState (storage b) = false ->
  storage (state (manageTabsAmid change mode b)) = storage b /\
  existsb isStorageSet (calls (manageTabsAmid change mode b)) = false.
Proof.
  intros H. destruct (manageTabsAmid_phases change mode b) as (-> & tail & -> & Hp & Ht).
  rewrite (saveState_skipped b H) in Hp |- *. rewrite state_mk in Hp.
  rewrite !state_mk, calls_mk. split; [done|].
  apply not_true_iff_false. intros (c & Hc & Hset)%existsb_exists.
  apply list_elem_of_In in Hc.
  rewrite Forall_forall in Hp, Ht.
  apply elem_of_app in Hc as [Hc|Hc].
  { apply list_elem_of_singleton in Hc as ->. discriminate Hset. }
  apply elem_of_app in Hc as [Hc|Hc].
  { repeat (apply elem_of_cons in Hc as [->|Hc]); try discriminate Hset. inversion Hc. }
  apply elem_of_app in Hc as [Hc|Hc].
  { apply list_elem_of_singleton in Hc as ->. discriminate Hset. }
  apply elem_of_app in Hc as [Hc|Hc].
  - destruct (Hp c Hc) as [Hw _]. by destruct c.
  - destruct (Ht c Hc) as [message ->]. discriminate Hset.
Qed.

(** An invocation that gets to its loop sends a disguise to every eligible
    tab its apply phase lists. *)
Lemma manageTabsAmid_disguises change mode b tab i :
  disguising mode b -> tab ∈ change (tabs b) -> eligibleId tab = Some i ->
  exists func,
    isDisguise func = true /\ ExecuteScript i func ∈ calls (manageTabsAmid change mode b).
Proof.
  intros Hd Hin He.
  destruct (manageTabsAmid_phases change mode b) as (_ & tail & -> & _).
  assert (Hd' : disguising mode (setTabs (change (tabs b)) (state (saveState b)))).
  { destruct (saveState_tabs b) as [_ Hm]. unfold disguising in *.
    cbn [mappingsFile setTabs]. by rewrite Hm. }
  pose proof (applyPhase_disguises mode (change (tabs b)) _ tab i Hd' Hin He) as Hex.
  apply Exists_exists in Hex as (c & Hc & func & -> & Hfunc).
  exists func. split; [exact Hfunc|].
  apply elem_of_app. right. apply elem_of_app. right.
  apply elem_of_app. right. apply elem_of_app. by left.
Qed.

End Invariant.

(** C4, as the code has it. Over every sequence of [undoChanges], of
    changes of the browser (tabs opening, closing, navigating, also while
    [manageTabs] awaits between its two phases) and of [manageTabs]
    invocations of which those that write a snapshot get to their apply
    loop ([purgeAll], or [professional] with a mapping that is not empty),
    every tab the persisted snapshot records was sent a disguise by the
    invocation that created the snapshot, unless the tab had closed, or
    left [http] and [https], by the time the apply phase of that
    invocation listed the tabs. (An invocation of [professional] with an
    empty mapping creates the snapshot and sends no disguise.) *)
Theorem snapshot_disguised_invariant (s : Session) :
  reachable disguisingIfSaving s -> snapshotDisguised s.
Proof.
  induction 1 as [b Hb | change mode s Hreach IH Hallowed | s Hreach IH | s ts f e Hreach IH].
  - intros snapshot k Hs. cbn [browser] in Hs. congruence.
  - unfold snapshotDisguised, afterApply. cbn [browser creator listed].
    destruct (noSavedState (storage (browser s))) eqn:Hn.
    + destruct (manageTabsAmid_fresh change mode (browser s) Hn) as (-> & ->).
      intros snapshot k [= <-] [d Hk].
      apply capture_only in Hk as [Hk|(tab & i & Hin & He & -> & _)].
      { by rewrite lookup_empty in Hk. }
      exists i. split; [eapply id_int32, eligibleId_id, He|]. split; [done|].
      destruct (decide (Exists (fun t => eligibleId t = Some i) (change (tabs (browser s)))))
        as [Hex|Hnone].
      * left. apply Exists_exists in Hex as (t & Ht & Het).
        exact (manageTabsAmid_disguises change mode (browser s) t i (Hallowed Hn) Ht Het).
      * right. intros t Ht Het. apply Hnone, Exists_exists. eauto.
    + destruct (manageTabsAmid_again change mode (browser s) Hn) as (-> & ->).
      exact IH.
  - intros snapshot k Hs Hk. unfold afterUndo in *. cbn [browser creator listed] in *.
    destruct (noSavedState (storage (browser s))) eqn:Hn.
    + rewrite (undoChanges_nothing _ Hn), state_mk in Hs. by apply (IH snapshot k).
    + destruct (noSavedState_false _ Hn) as (saved & Hsaved & _).
      rewrite (undoChanges_saved _ saved Hsaved Hn), state_mk in Hs. discriminate Hs.
  - intros snapshot k Hs Hk. cbn [browser creator listed storage] in *.
    by apply (IH snapshot k).
Qed.

Lemma snapshot_disguised_invariant_witness :
  reachable disguisingIfSaving
    (afterApply Scenario.standstill "professional" Scenario.purged) /\
  snapshotDisguised (afterApply Scenario.standstill "professional" Scenario.purged).
Proof.
  assert (Hr : reachable disguisingIfSaving
                 (afterApply Scenario.standstill "professional" Scenario.purged)).
  { apply reach_apply; [|discriminate].
    apply reach_apply; [by apply reach_start | by left]. }
  split; [exact Hr|]. exact (snapshot_disguised_invariant _ Hr).
Defined.

(** C4, as the claim states it, fails. [professional] with a mapping file
    that cannot be fetched, on a browser with the mail tab open: the state
    reached has a snapshot that records the tab, the tab is still there
    when the apply phase lists the tabs, and the invocation that created
    the snapshot sent no write to any tab. *)
Lemma snapshot_without_disguise :
  reachable anyMode Scenario.unmapped /\
  storage (browser Scenario.unmapped) = Some {[ "7" := Sample.inboxDetails ]} /\
  noSavedState (storage (browser Scenario.unmapped)) = false /\
  listed Scenario.unmapped = [Sample.mail] /\
  List.filter isPageWrite (creator Scenario.unmapped) = [] /\
  ~ snapshotDisguised Scenario.unmapped.
Proof.
  assert (Hs : storage (browser Scenario.unmapped) = Some {[ "7" := Sample.inboxDetails ]})
    by (vm_compute; reflexivity).
  assert (Hw : List.filter isPageWrite (creator Scenario.unmapped) = [])
    by (vm_compute; reflexivity).
  assert (Hl : listed Scenario.unmapped = [Sample.mail]) by (vm_compute; reflexivity).
  split; [|split; [exact Hs|split; [by vm_compute|split; [exact Hl|split; [exact Hw|]]]]].
  { apply (reach_apply anyMode); [by apply reach_start | exact I]. }
  intros Hinv.
  destruct (Hinv _ "7" Hs) as (i & Hid & Hi & [(func & Hfunc & Hin)|Hgone]).
  { eexists. apply lookup_singleton_eq. }
  - assert (Hin' : ExecuteScript i func ∈ List.filter isPageWrite (creator Scenario.unmapped)).
    { apply list_elem_of_In, filter_In. split; [by apply list_elem_of_In|].
      cbn [isPageWrite]. by destruct func. }
    rewrite Hw in Hin'. inversion Hin'.
  - assert (Hsafe : (Z.abs i < 2 ^ 53)%Z) by (rewrite <- Hid; apply int32_safe).
    apply (f_equal JS.parseInt) in Hi. rewrite (parseInt_toString i Hsafe) in Hi.
    injection Hi as <-.
    rewrite Hl in Hgone. apply (Hgone Sample.mail); [left | reflexivity].
Qed.

(** A tab that closes between the two phases is in the snapshot and was
    sent no disguise: the exemption of C4 is needed. *)
Example closed_in_between_is_not_disguised :
  reachable disguisingIfSaving Scenario.vanished /\
  storage (browser Scenario.vanished) = Some {[ "7" := Sample.inboxDetails ]} /\
  listed Scenario.vanished = [] /\
  List.filter isPageWrite (creator Scenario.vanished) = [].
Proof.
  split; [apply reach_apply; [by apply reach_start | by left]|].
  repeat split; vm_compute; reflexivity.
Qed.


(** * More on the content scripts *)

Section Links.

Lemma document_eq (d d' : DOM.Document) :
  DOM.title d = DOM.title d' -> DOM.links d = DOM.links d' ->
  DOM.metas d = DOM.metas d' -> DOM.origin d = DOM.origin d' ->
  DOM.resolve d = DOM.resolve d' ->
  DOM.faviconComplete d = DOM.faviconComplete d' -> d = d'.
Proof. destruct d, d'; cbn. by intros -> -> -> -> -> ->. Qed.

Lemma relIs_icon l : DOM.relIs "icon" l = true -> DOM.relContains "icon" l = true.
Proof. by apply (relIs_contains "icon"). Qed.

Lemma relIs_shortcut l :
  DOM.relIs "shortcut icon" l = true -> DOM.relContains "icon" l = true.
Proof. by apply (relIs_contains "shortcut icon"). Qed.

Lemma find_filter_nil {A} (f g : A -> bool) l :
  (forall x, f x = true -> g x = true) -> List.filter g l = [] -> List.find f l = None.
Proof.
  intros Hfg. induction l as [|x l IH]; [done|]. cbn [List.filter List.find].
  destruct (g x) eqn:Hg; [discriminate|]. intros H.
  destruct (f x) eqn:Hf; [|by apply IH]. rewrite (Hfg x Hf) in Hg. discriminate.
Qed.

Lemma find_filter {A} (f : A -> bool) l : List.find f l = head (List.filter f l).
Proof.
  induction l as [|x l IH]; [done|]. cbn [List.filter List.find]. by destruct (f x).
Qed.

(** The link the script settles on is one of the icon links of the page,
    and there is one as soon as the page has an icon link. *)
Lemma preferredIcon_spec d :
  match preferredIcon d with
  | Some l => l ∈ iconLinks d
  | None => iconLinks d = []
  end.
Proof.
  unfold preferredIcon, iconLinks, DOM.querySelector, DOM.querySelectorAll.
  set (ls := DOM.links d).
  assert (Hin : forall f l, (forall x, f x = true -> DOM.relContains "icon" x = true) ->
            List.find f ls = Some l -> l ∈ List.filter (DOM.relContains "icon") ls).
  { intros f l Hf Hl. apply find_some in Hl as [Hl1 Hl2].
    apply list_elem_of_In, filter_In. split; [done | by apply Hf]. }
  destruct (List.find (DOM.relIs "icon") ls) as [l|] eqn:H1; cbn.
  { by apply (Hin _ _ relIs_icon). }
  destruct (List.find (DOM.relIs "shortcut icon") ls) as [l|] eqn:H2; cbn.
  { by apply (Hin _ _ relIs_shortcut). }
  destruct (List.find (DOM.relContains "icon") ls) as [l|] eqn:H3; cbn.
  { by apply (Hin (DOM.relContains "icon")). }
  rewrite find_filter in H3. by destruct (List.filter _ ls).
Qed.

Lemma getTabDetails_unfold d :
  getTabDetails d =
    match preferredIcon d with
    | Some l => {| title := DOM.title d; faviconHref := Some (DOM.href l);
                   faviconRel := DOM.rel l |}
    | None =>
        if DOM.faviconComplete d then
          {| title := DOM.title d; faviconHref := Some (DOM.origin d +:+ "/favicon.ico");
             faviconRel := "icon" |}
        else
          match DOM.querySelector (DOM.itempropIs "image") (DOM.metas d) with
          | Some metaIcon =>
              {| title := DOM.title d; faviconHref := Some (DOM.content metaIcon);
                 faviconRel := "icon" |}
          | None => {| title := DOM.title d; faviconHref := None; faviconRel := "icon" |}
          end
    end.
Proof.
  unfold getTabDetails. fold (preferredIcon d).
  destruct (preferredIcon d); cbn; [done|].
  destruct (DOM.faviconComplete d); [done|].
  by destruct (DOM.querySelector (DOM.itempropIs "image") (DOM.metas d)).
Qed.

End Links.

(** X1. When the page has an icon link, [getTabDetails] reports the
    address and relation of one of the page's icon links; and if some link
    has [icon] as its whole relation, the link reported is such a link,
    whatever other icon links stand before it. *)
Theorem captured_icon_is_of_the_page (d : DOM.Document) :
  iconLinks d ≠ [] ->
  exists l, l ∈ iconLinks d /\
    getTabDetails d =
      {| title := DOM.title d; faviconHref := Some (DOM.href l); faviconRel := DOM.rel l |} /\
    ((exists l', l' ∈ DOM.links d /\ DOM.relIs "icon" l' = true) -> DOM.relIs "icon" l = true).
Proof.
  intros Hsome. rewrite getTabDetails_unfold.
  pose proof (preferredIcon_spec d) as Hspec.
  destruct (preferredIcon d) as [l|] eqn:Hp; [|done].
  exists l. split; [exact Hspec|]. split; [done|].
  intros (l' & Hin & Hl'). unfold preferredIcon, DOM.querySelector in Hp.
  destruct (List.find (DOM.relIs "icon") (DOM.links d)) as [l0|] eqn:Hf.
  - cbn in Hp. injection Hp as <-. by apply find_some in Hf as [_ Hf].
  - apply list_elem_of_In in Hin. pose proof (find_none _ _ Hf _ Hin). congruence.
Qed.

Lemma captured_icon_is_of_the_page_witness :
  exists l, l ∈ iconLinks Sample.inbox /\
    getTabDetails Sample.inbox =
      {| title := DOM.title Sample.inbox; faviconHref := Some (DOM.href l);
         faviconRel := DOM.rel l |} /\
    ((exists l', l' ∈ DOM.links Sample.inbox /\ DOM.relIs "icon" l' = true) ->
     DOM.relIs "icon" l = true).
Proof. apply captured_icon_is_of_the_page. vm_compute. discriminate. Defined.

(** X2. [getTabDetails] reports no favicon exactly when the page has no
    icon link, the probe of the default favicon path is not complete, and
    no [meta] element carries an image; the title it reports is always the
    title of the page. *)
Theorem no_favicon_captured_iff (d : DOM.Document) :
  title (getTabDetails d) = DOM.title d /\
  (faviconHref (getTabDetails d) = None <->
   iconLinks d = [] /\ DOM.faviconComplete d = false /\
   DOM.querySelector (DOM.itempropIs "image") (DOM.metas d) = None).
Proof.
  rewrite getTabDetails_unfold. pose proof (preferredIcon_spec d) as Hspec.
  destruct (preferredIcon d) as [l|].
  { split; [done|]. cbn. split; [done|]. intros (Hnil & _). rewrite Hnil in Hspec.
    inversion Hspec. }
  destruct (DOM.faviconComplete d).
  { split; [done|]. cbn. split; [done | by intros (_ & ? & _)]. }
  destruct (DOM.querySelector (DOM.itempropIs "image") (DOM.metas d)).
  { split; [done|]. cbn. split; [done | by intros (_ & _ & ?)]. }
  split; [done|]. cbn. by split.
Qed.

Section Writers.

Lemma relContains_blank t :
  DOM.relContains "icon" {| DOM.rel := "icon"; DOM.href := blankFavicon; DOM.type := t |} = true.
Proof. reflexivity. Qed.

Lemma blanked_icon l : DOM.relContains "icon" (blanked l) = DOM.relContains "icon" l.
Proof. unfold blanked. destruct (DOM.relContains "icon" l) eqn:Hl; [reflexivity | exact Hl]. Qed.

Lemma blanked_twice l : blanked (blanked l) = blanked l.
Proof.
  unfold blanked at 1. rewrite blanked_icon. unfold blanked.
  by destruct (DOM.relContains "icon" l).
Qed.

Lemma purgeTabDetails_links d :
  DOM.links (purgeTabDetails d) =
    (List.map blanked (DOM.links d) ++
     if existsb (DOM.relContains "icon") (DOM.links d) then [] else [blankLink])%list.
Proof.
  unfold purgeTabDetails. cbn [DOM.links DOM.setTitle].
  destruct (existsb (DOM.relContains "icon") (DOM.links d)); cbn [negb].
  - cbn [DOM.links DOM.setLinks]. by rewrite app_nil_r.
  - reflexivity.
Qed.

Lemma purgeTabDetails_resolve d : DOM.resolve (purgeTabDetails d) = DOM.resolve d.
Proof.
  unfold purgeTabDetails. cbn [DOM.links DOM.setTitle].
  by destruct (existsb (DOM.relContains "icon") (DOM.links d)).
Qed.

Lemma purgeTabDetails_rest d :
  DOM.title (purgeTabDetails d) = zeroWidthSpace /\
  DOM.metas (purgeTabDetails d) = DOM.metas d /\
  DOM.origin (purgeTabDetails d) = DOM.origin d /\
  DOM.faviconComplete (purgeTabDetails d) = DOM.faviconComplete d.
Proof.
  unfold purgeTabDetails. cbn [DOM.links DOM.setTitle].
  by destruct (existsb (DOM.relContains "icon") (DOM.links d)).
Qed.

Lemma existsb_blanked ls :
  existsb (DOM.relContains "icon") (List.map blanked ls) =
    existsb (DOM.relContains "icon") ls.
Proof.
  induction ls as [|l ls IH]; [done|]. cbn [List.map existsb].
  by rewrite blanked_icon, IH.
Qed.

Lemma others_blanked ls :
  List.filter (fun l => negb (DOM.relContains "icon" l)) (List.map blanked ls) =
    List.filter (fun l => negb (DOM.relContains "icon" l)) ls.
Proof.
  induction ls as [|l ls IH]; [done|]. cbn [List.map List.filter].
  rewrite blanked_icon, IH. unfold blanked.
  by destruct (DOM.relContains "icon" l).
Qed.

Lemma filter_twice {A} (f : A -> bool) l :
  List.filter f (List.filter f l) = List.filter f l.
Proof.
  induction l as [|x l IH]; [done|]. cbn [List.filter].
  destruct (f x) eqn:Hx; [|exact IH]. cbn [List.filter]. by rewrite Hx, IH.
Qed.

(** What the restore makes of a page depends on the page only through the
    links the icon selector does not match, and what no script writes. *)
Lemma restoreTabDetails_ext details d d' :
  otherLinks d = otherLinks d' -> DOM.metas d = DOM.metas d' ->
  DOM.origin d = DOM.origin d' -> DOM.resolve d = DOM.resolve d' ->
  DOM.faviconComplete d = DOM.faviconComplete d' ->
  restoreTabDetails details d = restoreTabDetails details d'.
Proof.
  intros Hl Hm Ho Hr Hf. unfold restoreTabDetails.
  assert (Hrem : DOM.removeAll (DOM.relContains "icon") (DOM.setTitle (title details) d) =
                 DOM.removeAll (DOM.relContains "icon") (DOM.setTitle (title details) d')).
  { unfold DOM.removeAll, DOM.setLinks, DOM.setTitle. cbn.
    unfold otherLinks in Hl. by rewrite Hl, Hm, Ho, Hr, Hf. }
  by rewrite Hrem.
Qed.

Lemma otherLinks_purge d : otherLinks (purgeTabDetails d) = otherLinks d.
Proof.
  unfold otherLinks. rewrite purgeTabDetails_links, List.filter_app, others_blanked.
  destruct (existsb (DOM.relContains "icon") (DOM.links d)); cbn; by rewrite app_nil_r.
Qed.

Lemma setSpecificDetails_valid details d t f :
  Profile.title details = Some t -> Profile.favicon details = Some f ->
  t ≠ "" -> f ≠ "" ->
  setSpecificDetails (Some details) d =
    DOM.appendChild (profileLink (DOM.resolve d (DOM.resolve d f)))
      (DOM.removeAll (DOM.relContains "icon") (DOM.setTitle t d)).
Proof.
  intros Ht Hf Hnt Hnf. unfold setSpecificDetails. rewrite Ht, Hf. cbn [falsy default].
  assert (JS.truthy t = true) as -> by by destruct t.
  assert (JS.truthy f = true) as -> by by destruct f.
  reflexivity.
Qed.

Lemma setSpecificDetails_resolve details d :
  DOM.resolve (setSpecificDetails details d) = DOM.resolve d.
Proof.
  unfold setSpecificDetails. destruct details as [details|]; [|done].
  by destruct (falsy (Profile.title details) || falsy (Profile.favicon details)).
Qed.

Lemma otherLinks_setSpecific details d :
  otherLinks (setSpecificDetails details d) = otherLinks d /\
  DOM.metas (setSpecificDetails details d) = DOM.metas d /\
  DOM.origin (setSpecificDetails details d) = DOM.origin d /\
  DOM.faviconComplete (setSpecificDetails details d) = DOM.faviconComplete d.
Proof.
  unfold setSpecificDetails. destruct details as [details|]; [|done].
  destruct (falsy (Profile.title details) || falsy (Profile.favicon details)); [done|].
  split; [|done]. unfold otherLinks, DOM.appendChild, DOM.removeAll.
  cbn [DOM.links DOM.setLinks DOM.setTitle].
  rewrite List.filter_app, filter_twice. cbn. by rewrite app_nil_r.
Qed.

End Writers.

Lemma purgeTabDetails_again d : purgeTabDetails (purgeTabDetails d) = purgeTabDetails d.
Proof.
  destruct (purgeTabDetails_rest d) as (Ht & Hm & Ho & Hf).
  destruct (purgeTabDetails_rest (purgeTabDetails d)) as (Ht' & Hm' & Ho' & Hf').
  apply document_eq; try congruence; [|apply purgeTabDetails_resolve].
  rewrite (purgeTabDetails_links (purgeTabDetails d)), (purgeTabDetails_links d).
  rewrite List.map_app, List.map_map, existsb_app, existsb_blanked.
  rewrite (List.map_ext _ blanked blanked_twice).
  destruct (existsb (DOM.relContains "icon") (DOM.links d)); cbn; by rewrite ?app_nil_r.
Qed.

(** X3. Purging a page that is purged already changes nothing: the
    blank-write can be repeated, it never stacks up links; and a purged
    page always has an icon link. *)
Theorem purge_twice_is_purge_once (d : DOM.Document) :
  purgeTabDetails (purgeTabDetails d) = purgeTabDetails d /\
  iconLinks (purgeTabDetails d) ≠ [].
Proof.
  split; [apply purgeTabDetails_again|].
  unfold iconLinks, DOM.querySelectorAll. rewrite purgeTabDetails_links, List.filter_app.
  destruct (existsb (DOM.relContains "icon") (DOM.links d)) eqn:He.
  - rewrite app_nil_r. intros Hnil. apply existsb_filter in Hnil.
    rewrite existsb_blanked in Hnil. congruence.
  - cbn. intros Hnil. by apply app_eq_nil in Hnil as [_ ?].
Qed.

(** X4. The blank-write touches the title and the icon links only: the
    links the icon selector does not match stay, in their order, and an
    icon link keeps its [type]. *)
Theorem purge_keeps_other_links (d : DOM.Document) :
  otherLinks (purgeTabDetails d) = otherLinks d /\
  DOM.metas (purgeTabDetails d) = DOM.metas d /\
  (DOM.type <$> iconLinks (purgeTabDetails d)) =
    ((DOM.type <$> iconLinks d) ++ if existsb (DOM.relContains "icon") (DOM.links d)
                                   then [] else [""])%list.
Proof.
  split; [apply otherLinks_purge|]. split; [apply purgeTabDetails_rest|].
  unfold iconLinks, DOM.querySelectorAll. rewrite purgeTabDetails_links, List.filter_app.
  rewrite fmap_app. f_equal.
  - induction (DOM.links d) as [|l ls IH]; [done|]. cbn [List.map List.filter].
    rewrite blanked_icon. destruct (DOM.relContains "icon" l) eqn:Hl; [|exact IH].
    cbn [fmap list_fmap]. f_equal; [|exact IH]. unfold blanked. by rewrite Hl.
  - by destruct (existsb (DOM.relContains "icon") (DOM.links d)).
Qed.

(** X5. [setSpecificDetails] with a profile whose title and favicon are
    both there and not empty leaves exactly one icon link, the profile's,
    with [rel] [icon], [type] [image/x-icon] and an [href] that reads as
    the page resolves the favicon (the cache bust writes the resolved
    address back), and keeps the other links; the title reads as the
    profile's when that holds no white space to strip or to collapse.
    With no profile, or one that lacks a title or a favicon (or has an
    empty one), the page is left as it is. *)
Theorem setSpecificDetails_all_or_nothing (details : option Profile.t) (d : DOM.Document) :
  (forall t f,
     details = Some {| Profile.title := Some t; Profile.favicon := Some f |} ->
     t ≠ "" -> f ≠ "" ->
     (DOM.stripAndCollapse t = t -> DOM.title (setSpecificDetails details d) = t) /\
     iconLinks (setSpecificDetails details d) =
       [profileLink (DOM.resolve d (DOM.resolve d f))] /\
     otherLinks (setSpecificDetails details d) = otherLinks d) /\
  ((forall profile, details = Some profile ->
      falsy (Profile.title profile) = true \/ falsy (Profile.favicon profile) = true) ->
   setSpecificDetails details d = d).
Proof.
  split.
  - intros t f -> Ht Hf.
    rewrite (setSpecificDetails_valid _ d t f) by done.
    split; [done|]. split.
    + by rewrite iconLinks_appendChild, iconLinks_removeAll.
    + unfold otherLinks, DOM.appendChild, DOM.removeAll.
      cbn [DOM.links DOM.setLinks DOM.setTitle].
      rewrite List.filter_app, filter_twice. cbn. by rewrite app_nil_r.
  - intros Hlacks. destruct details as [profile|]; [|done].
    unfold setSpecificDetails.
    by destruct (Hlacks profile eq_refl) as [-> | ->]; rewrite ?orb_true_r.
Qed.

Lemma setSpecificDetails_all_or_nothing_witness :
  DOM.title (setSpecificDetails (Some spreadsheet) Sample.inbox) = "Q3 budget - Sheets" /\
  iconLinks (setSpecificDetails (Some spreadsheet) Sample.inbox) =
    [profileLink "https://sheets.example/favicon.ico"] /\
  setSpecificDetails (Some {| Profile.title := Some "Budget"; Profile.favicon := None |})
    Sample.inbox = Sample.inbox.
Proof.
  destruct (setSpecificDetails_all_or_nothing (Some spreadsheet) Sample.inbox) as [Hset _].
  destruct (Hset _ _ eq_refl) as (Htitle & Hicons & _); [discriminate..|].
  split; [exact (Htitle eq_refl)|]. split; [exact Hicons|].
  apply (setSpecificDetails_all_or_nothing
           (Some {| Profile.title := Some "Budget"; Profile.favicon := None |}) Sample.inbox).
  intros profile [= <-]. by right.
Defined.

(** X6. The restore wipes a disguise out: restoring saved details on a
    page that was purged, or given a profile, yields the very page that
    restoring them on the page as it was before the disguise yields. *)
Theorem restore_erases_disguise (details : TabDetails) (profile : option Profile.t)
    (d : DOM.Document) :
  restoreTabDetails details (purgeTabDetails d) = restoreTabDetails details d /\
  restoreTabDetails details (setSpecificDetails profile d) = restoreTabDetails details d.
Proof.
  split.
  - destruct (purgeTabDetails_rest d) as (_ & Hm & Ho & Hf).
    by apply restoreTabDetails_ext;
      [apply otherLinks_purge | | | apply purgeTabDetails_resolve |].
  - destruct (otherLinks_setSpecific profile d) as (Hl & Hm & Ho & Hf).
    by apply restoreTabDetails_ext; [| | | apply setSpecificDetails_resolve |].
Qed.



(** * More on the engine *)

(** X9. The key a tab's details are saved under reads back, in the loop of
    undo, as the identifier of that tab, for every identifier below 2^53 in
    absolute value, where the integers are Numbers and [String] writes all
    their digits; two such identifiers never share a key. The identifiers
    of the browser's tabs, of 32 bits, are of this kind. *)
Theorem tab_key_reads_back (i j : Z) :
  (Z.abs i < 2 ^ 53)%Z -> (Z.abs j < 2 ^ 53)%Z ->
  JS.parseInt (JS.toString i) = Some i /\
  JS.isNaN (JS.parseInt (JS.toString i)) = false /\
  (JS.toString i = JS.toString j -> i = j) /\
  (forall tab, Tab.id tab = Some i -> JS.parseInt (JS.toString i) = Some i).
Proof.
  intros Hi Hj.
  split; [by apply parseInt_toString|]. split; [by rewrite parseInt_toString|].
  split; [by apply toString_inj|]. intros tab Hid. eapply parseInt_toString, id_safe, Hid.
Qed.

Lemma tab_key_reads_back_witness :
  JS.parseInt (JS.toString 7) = Some 7 /\
  JS.isNaN (JS.parseInt (JS.toString 7)) = false /\
  (JS.toString 7 = JS.toString 9 -> 7 = 9).
Proof.
  destruct (tab_key_reads_back 7 9) as (Hread & Hnan & Hinj & _); [reflexivity..|].
  by repeat split.
Defined.

(** From 2^53 on the keys are those of the nearest doubles, and from 10^21
    on [String] takes to exponent notation, which [parseInt] reads up to
    the point or the letter. *)
Example large_identifiers :
  JS.toString (2 ^ 53 + 1) = "9007199254740992" /\
  JS.parseInt "9007199254740993" = Some 9007199254740992 /\
  JS.toString (10 ^ 21) = "1e+21" /\ JS.parseInt (JS.toString (10 ^ 21)) = Some 1 /\
  JS.toString (2 ^ 69) = "590295810358705700000" /\
  JS.toString (- 2 ^ 70) = "-1.1805916207174113e+21".
Proof. vm_compute. by repeat split. Qed.

Section Schemes.

Lemma prefix_cons a s1 b s2 :
  String.prefix (String a s1) (String b s2) =
    if ascii_dec a b then String.prefix s1 s2 else false.
Proof. reflexivity. Qed.

(** An address with the scheme [s] begins with [s] and a colon. *)
Lemma scheme_prefix u s : scheme u = Some s -> String.prefix (s +:+ ":") u = true.
Proof.
  revert s. induction u as [|c u IH]; intros s; [done|]. cbn [scheme].
  destruct (Ascii.eqb_spec c ":") as [->|Hc].
  - intros [= <-]. change ("" +:+ ":") with ":". rewrite prefix_cons.
    destruct (ascii_dec ":" ":"); [by destruct u | done].
  - destruct (scheme u) as [s'|]; [|done]. intros [= <-].
    change (String c s' +:+ ":") with (String c (s' +:+ ":")).
    rewrite prefix_cons. destruct (ascii_dec c c); [by apply IH | done].
Qed.

Lemma scheme_truthy u s : scheme u = Some s -> JS.truthy u = true.
Proof. by destruct u. Qed.

End Schemes.

(** X10. The test of the loops of [manageTabs] lets a tab through exactly
    when the tab has an identifier other than 0 and an address whose scheme
    is [http] or [https], in lower case; the identifier it then uses is the
    tab's own. *)
Theorem eligible_iff (tab : Tab.t) (i : Z) :
  eligibleId tab = Some i <->
  Tab.id tab = Some i /\ i ≠ 0 /\
  (schemeOf tab = Some "http" \/ schemeOf tab = Some "https").
Proof.
  split.
  - intros He. pose proof (eligibleId_id tab i He) as Hid.
    pose proof (eligible_http tab i He) as Hh.
    split; [exact Hid|]. split.
    + intros ->. unfold eligibleId in He. rewrite Hid in He.
      destruct (Tab.url tab); cbn in He; discriminate He.
    + unfold httpScheme in Hh. destruct (schemeOf tab) as [s|]; [|done].
      apply orb_true_iff in Hh as [Hs|Hs]; apply String.eqb_eq in Hs; subst; eauto.
  - intros (Hid & Hi & Hs). unfold eligibleId, schemeOf in *. rewrite Hid.
    destruct (Tab.url tab) as [u|]; [|by destruct Hs].
    cbn [mbind option_bind] in Hs.
    assert (JS.truthyNum i = true) as ->.
    { unfold JS.truthyNum. apply negb_true_iff. by apply Z.eqb_neq. }
    assert (JS.truthy u = true) as -> by (destruct Hs as [Hs|Hs]; by apply scheme_truthy in Hs).
    unfold JS.startsWith.
    destruct Hs as [Hs|Hs]; apply scheme_prefix in Hs.
    + change ("http" +:+ ":") with "http:" in Hs. by rewrite Hs.
    + change ("https" +:+ ":") with "https:" in Hs. rewrite Hs. by rewrite orb_true_r.
Qed.

(** X11. After [undoChanges], whatever the state it ran in, no snapshot is
    held; so the next [manageTabs], in any mode and after any change of the
    tabs, runs its save phase: it writes the snapshot once, as the state of
    the tabs open then. *)
Theorem disguise_after_undo_captures_afresh (mode : string) (b b' : Browser) :
  storage b' = storage (state (undoChanges b)) ->
  noSavedState (storage (state (undoChanges b))) = true /\
  snapshotWrites (calls (manageTabs mode b')) = 1%nat /\
  exists snapshot,
    storage (state (manageTabs mode b')) = Some snapshot /\
    originalState (tabs b') snapshot.
Proof.
  intros Hb'.
  assert (Hn : noSavedState (storage (state (undoChanges b))) = true).
  { destruct (noSavedState (storage b)) eqn:Hb.
    - by rewrite (undoChanges_nothing b Hb), state_mk.
    - destruct (noSavedState_false _ Hb) as (saved & Hsaved & _).
      by rewrite (undoChanges_saved b saved Hsaved Hb), state_mk. }
  split; [exact Hn|]. rewrite <- Hb' in Hn.
  destruct (manageTabs_fresh mode b' Hn) as (Hs & Hw & _).
  split; [exact Hw|]. eexists. split; [exact Hs | apply capture_originalState].
Qed.

Lemma disguise_after_undo_captures_afresh_witness :
  snapshotWrites
    (calls (manageTabs "purgeAll" (state (undoChanges Sample.mixed)))) = 1%nat.
Proof.
  destruct (disguise_after_undo_captures_afresh "purgeAll" Sample.mixed
              (state (undoChanges Sample.mixed)) eq_refl) as (_ & Hw & _).
  exact Hw.
Defined.

Section Loops.

(** A call the round for [x] makes in every state that satisfies [P],
    when every round keeps [P], is made by the loop. *)
Lemma forOf_makes_when {A S} (P : Browser -> Prop) (R : Call -> Prop)
    (xs : list A) (body : S -> A -> Async S) x :
  x ∈ xs ->
  (forall s y b, P b -> P (state (body s y b))) ->
  (forall s b, P b -> Exists R (calls (body s x b))) ->
  forall s b, P b -> Exists R (calls (forOf xs body s b)).
Proof.
  intros Hx Hkeep Hbody. induction xs as [|y rest IH]; intros s b HP.
  - inversion Hx.
  - rewrite forOf_cons, calls_mk. apply Exists_app.
    apply elem_of_cons in Hx as [->|Hx].
    + left. by apply Hbody.
    + right. apply IH; [exact Hx | by apply Hkeep].
Qed.

Lemma executeScript_other j i func b :
  j ≠ i -> tabWith i (tabs (state (executeScript j func b))) = tabWith i (tabs b).
Proof.
  intros Hne. rewrite executeScript_tabs, inject_spec.
  destruct (tabWith j (tabs b)) as [t|]; [|done].
  destruct (Tab.refuses t); [done|]. cbn [snd]. by apply tabWith_withDocument_ne.
Qed.

(** A script injected in a tab that lets scripts in runs on its document. *)
Lemma executeScript_same i func b tab :
  tabWith i (tabs b) = Some tab -> Tab.refuses tab = None ->
  tabWith i (tabs (state (executeScript i func b))) =
    Some (Tab.setDocument (runScript func (Tab.document tab)).1 tab).
Proof.
  intros Ht Hr. rewrite executeScript_tabs, inject_spec, Ht, Hr. cbn [snd].
  by rewrite tabWith_withDocument_eq, Ht.
Qed.

Lemma purgeTab_state u x b :
  state (purgeTab u x b) =
    match eligibleId x with
    | Some j => state (executeScript j PurgeTabDetails b)
    | None => b
    end.
Proof.
  unfold purgeTab. destruct (eligibleId x) as [j|]; [|done].
  rewrite run_bind, state_mk.
  by destruct (result (executeScript j PurgeTabDetails b)).
Qed.

Lemma randomIndex_tabs n b : tabs (state (randomIndex n b)) = tabs b.
Proof. unfold randomIndex. by destruct (entropy b). Qed.

Lemma applyRandom_state mappings ks u x b :
  exists details b',
    tabs b' = tabs b /\
    state (applyRandom mappings ks u x b) =
      match eligibleId x with
      | Some j => state (executeScript j (SetSpecificDetails details) b')
      | None => b
      end.
Proof.
  unfold applyRandom. destruct (eligibleId x) as [j|]; [|by exists None, b].
  rewrite run_bind, state_mk.
  set (b1 := state (randomIndex (length ks) b)).
  exists (ks !! result (randomIndex (length ks) b) ≫= fun k => mjoin (mappings !! k)), b1.
  split; [apply randomIndex_tabs|].
  rewrite run_bind, state_mk. cbn [state console call fst snd].
  rewrite run_bind, state_mk.
  by destruct (result (executeScript j _ b1)).
Qed.

(** The exact run of the two branches of the dispatch that get to their
    loop. *)
Lemma applyPhase_purgeAll ts b :
  applyPhase "purgeAll" ts b =
    (true, state (forOf ts purgeTab tt b),
     [Console Log "Mode: purgeAll - Purging all eligible tabs."] ++
     calls (forOf ts purgeTab tt b) ++
     [Console Log "Initial purge complete for purgeAll mode."])%list.
Proof.
  unfold applyPhase. cbn [String.eqb Ascii.eqb Bool.eqb].
  unfold mbind, Async_bind, console, call, mret, Async_ret, state, calls.
  destruct (forOf ts purgeTab tt b) as [[[] b'] cs]. cbn. by rewrite ?app_nil_r.
Qed.

Lemma applyPhase_professional ts b mappings :
  mappingsFile b = Body (JObject mappings) -> mappings ≠ ∅ ->
  applyPhase "professional" ts b =
    (true, state (forOf ts (applyRandom mappings (keys mappings)) tt b),
     [Console Log "Mode: professional - Applying random professional details."; Fetch;
      Console Log ("Loaded " +:+ JS.toString (Z.of_nat (length (keys mappings))) +:+
                   " mappings. Applying randomly.")] ++
     calls (forOf ts (applyRandom mappings (keys mappings)) tt b) ++
     [Console Log "Application of random details complete for professional mode."])%list.
Proof.
  intros Hfile Hne. unfold applyPhase. cbn [String.eqb Ascii.eqb Bool.eqb].
  unfold loadDomainMappings, fetchMappings.
  unfold mbind, Async_bind, console, call, mret, Async_ret, state, calls.
  rewrite Hfile.
  destruct (Nat.eqb (length (keys mappings)) 0) eqn:Hlen.
  { apply Nat.eqb_eq, keys_empty in Hlen. done. }
  destruct (forOf ts (applyRandom mappings (keys mappings)) tt b) as [[[] b'] cs].
  cbn. by rewrite ?app_nil_r.
Qed.

End Loops.

Section Frames.

Lemma withDocument_lookup j d ts n t :
  ts !! n = Some t -> Tab.id t ≠ Some j -> withDocument j d ts !! n = Some t.
Proof.
  revert n. induction ts as [|x rest IH]; intros n Hn Hid; [done|].
  cbn [withDocument]. destruct (targets j x) eqn:Hx.
  - destruct n as [|n]; [|done]. cbn in Hn. injection Hn as ->.
    unfold targets in Hx. destruct (Tab.id t) as [i|]; [|done].
    apply Z.eqb_eq in Hx. congruence.
  - destruct n as [|n]; [done|]. cbn. by apply IH.
Qed.

Lemma executeScript_lookup j func b n t :
  tabs b !! n = Some t -> Tab.id t ≠ Some j ->
  tabs (state (executeScript j func b)) !! n = Some t.
Proof.
  intros Hn Hid. rewrite executeScript_tabs, inject_spec.
  destruct (tabWith j (tabs b)) as [tj|]; [|done].
  destruct (Tab.refuses tj); [done|]. cbn [snd]. by apply withDocument_lookup.
Qed.

(** A loop keeps the tab at place [n] when each of its rounds does. *)
Lemma forOf_keeps_tab {A S} (xs : list A) (body : S -> A -> Async S) n t :
  (forall s x b, x ∈ xs -> tabs b !! n = Some t -> tabs (state (body s x b)) !! n = Some t) ->
  forall s b, tabs b !! n = Some t -> tabs (state (forOf xs body s b)) !! n = Some t.
Proof.
  intros Hbody s b Hn.
  apply (forOf_invariant (fun b => tabs b !! n = Some t) (fun _ => True) xs body); [|done].
  intros s' x b' Hx Hb'. split; [by apply Hbody|]. by apply Forall_true.
Qed.

Lemma saveState_same_tabs b : tabs (state (saveState b)) = tabs b.
Proof. apply saveState_tabs. Qed.

Lemma applyPhase_keeps_tab mode ts b n t :
  (forall x j, x ∈ ts -> eligibleId x = Some j -> Tab.id t ≠ Some j) ->
  tabs b !! n = Some t ->
  tabs (state (applyPhase mode ts b)) !! n = Some t.
Proof.
  intros Hnone Hn. unfold applyPhase.
  destruct (String.eqb mode "purgeAll").
  { rewrite run_bind, state_mk. cbn [state console call fst snd].
    rewrite run_bind, state_mk, run_bind, state_mk.
    apply forOf_keeps_tab; [|done]. intros u x b' Hx Hb'. rewrite purgeTab_state.
    destruct (eligibleId x) as [j|] eqn:He; [|done].
    apply executeScript_lookup; [done | by apply (Hnone x)]. }
  destruct (String.eqb mode "professional"); [|done].
  rewrite run_bind, state_mk. cbn [state console call fst snd].
  rewrite run_bind, state_mk.
  destruct (loadDomainMappings_run b) as (-> & _ & _).
  destruct (Nat.eqb _ 0).
  { by rewrite run_bind, state_mk. }
  rewrite run_bind, state_mk. cbn [state console call fst snd].
  rewrite run_bind, state_mk, run_bind, state_mk.
  apply forOf_keeps_tab; [|done]. intros u x b' Hx Hb'.
  destruct (applyRandom_state (result (loadDomainMappings b))
              (keys (result (loadDomainMappings b))) u x b') as (details & b2 & Htabs & ->).
  destruct (eligibleId x) as [j|] eqn:He; [|done].
  apply executeScript_lookup; [by rewrite Htabs | by apply (Hnone x)].
Qed.

End Frames.

(** X12. [manageTabs], in any mode, leaves a tab exactly as it was, page
    included, when the tab has no identifier, or an identifier that no
    eligible tab has: an internal page, a local file, is never touched. *)
Theorem manageTabs_leaves_other_tabs (mode : string) (b : Browser) (n : nat) (tab : Tab.t) :
  tabs b !! n = Some tab ->
  (forall other j, other ∈ tabs b -> eligibleId other = Some j -> Tab.id tab ≠ Some j) ->
  tabs (state (manageTabs mode b)) !! n = Some tab.
Proof.
  intros Hn Hnone. destruct (manageTabs_split mode b) as (-> & _).
  rewrite saveState_same_tabs. apply applyPhase_keeps_tab; [exact Hnone|].
  by rewrite saveState_same_tabs.
Qed.

Lemma manageTabs_leaves_other_tabs_witness :
  tabs (state (manageTabs "purgeAll" (Sample.open [Sample.mail; Sample.settings]))) !! 1%nat
    = Some Sample.settings.
Proof.
  apply manageTabs_leaves_other_tabs; [reflexivity|].
  intros other j Hin He. simpl in Hin.
  apply elem_of_cons in Hin as [->|Hin].
  - injection He as <-. discriminate.
  - apply list_elem_of_singleton in Hin as ->. discriminate He.
Defined.

(** X13. [undoChanges] leaves a tab exactly as it was, page included, when
    no key of the snapshot reads as the identifier of the tab. *)
Theorem undo_leaves_other_tabs (b : Browser) (n : nat) (tab : Tab.t) :
  tabs b !! n = Some tab ->
  (forall snapshot k d j, storage b = Some snapshot -> snapshot !! k = Some d ->
     JS.parseInt k = Some j -> Tab.id tab ≠ Some j) ->
  tabs (state (undoChanges b)) !! n = Some tab.
Proof.
  intros Hn Hnone. destruct (noSavedState (storage b)) eqn:Hs.
  { by rewrite (undoChanges_nothing b Hs), state_mk. }
  destruct (noSavedState_false _ Hs) as (snapshot & Hsnap & _).
  rewrite (undoChanges_saved b snapshot Hsnap Hs), state_mk. cbn [tabs setStorage].
  apply forOf_keeps_tab; [|done]. intros u [k d] b' Hx Hb'. rewrite restoreTab_state.
  destruct (JS.parseInt k) as [j|] eqn:Hp; [|done].
  apply executeScript_lookup; [done|].
  apply (Hnone snapshot k d j); [done | by apply elem_of_map_to_list | done].
Qed.

Lemma undo_leaves_other_tabs_witness :
  tabs (state (undoChanges Sample.closed)) !! 0%nat = Some Sample.settings.
Proof.
  apply undo_leaves_other_tabs; [reflexivity|].
  intros snapshot k d j [= <-] Hk Hp.
  apply lookup_singleton_Some in Hk as [<- _]. vm_compute in Hp.
  injection Hp as <-. discriminate.
Defined.

Section PurgeOneTab.

Variable i : Z.
Variable d0 : DOM.Document.

(** Through the loop of the [purgeAll] branch, the tab under [i] stays
    within reach, and its page is purged from the round of the first
    eligible tab with that identifier on. *)
Lemma purgeLoop_tab xs :
  forall b tab,
    tabWith i (tabs b) = Some tab -> Tab.refuses tab = None ->
    Tab.document tab = d0 \/ Tab.document tab = purgeTabDetails d0 ->
    exists tab',
      tabWith i (tabs (state (forOf xs purgeTab tt b))) = Some tab' /\
      outline tab' = outline tab /\
      (Tab.document tab' = d0 \/ Tab.document tab' = purgeTabDetails d0) /\
      (Tab.document tab = purgeTabDetails d0 \/
       (exists x, x ∈ xs /\ eligibleId x = Some i) ->
       Tab.document tab' = purgeTabDetails d0).
Proof.
  induction xs as [|x rest IH]; intros b tab Ht Hr Hd.
  { exists tab. split; [done|]. split; [done|]. split; [done|].
    intros [Hp|(x & Hx & _)]; [done | inversion Hx]. }
  rewrite forOf_cons, state_mk, purgeTab_state.
  destruct (result (purgeTab tt x b)).
  destruct (eligibleId x) as [j|] eqn:He.
  - destruct (decide (j = i)) as [->|Hne].
    + pose proof (executeScript_same i PurgeTabDetails b tab Ht Hr) as Ht1.
      cbn [runScript fst] in Ht1.
      set (tab1 := Tab.setDocument (purgeTabDetails (Tab.document tab)) tab) in *.
      assert (Hd1 : Tab.document tab1 = purgeTabDetails d0).
      { subst tab1. cbn. destruct Hd as [-> | ->]; [done|].
        apply purgeTabDetails_again. }
      destruct (IH _ tab1 Ht1 Hr (or_intror Hd1)) as (tab' & Ht' & Ho' & Hd' & Hp').
      exists tab'. split; [done|]. split; [done|]. split; [done|].
      intros _. apply Hp'. by left.
    + assert (Ht1 : tabWith i (tabs (state (executeScript j PurgeTabDetails b))) = Some tab)
        by by rewrite executeScript_other.
      destruct (IH _ tab Ht1 Hr Hd) as (tab' & Ht' & Ho' & Hd' & Hp').
      exists tab'. split; [done|]. split; [done|]. split; [done|].
      intros [Hp|(y & Hy & Hey)]; apply Hp'; [by left|]. right. exists y. split; [|done].
      apply elem_of_cons in Hy as [->|Hy]; [congruence | done].
  - destruct (IH _ tab Ht Hr Hd) as (tab' & Ht' & Ho' & Hd' & Hp').
    exists tab'. split; [done|]. split; [done|]. split; [done|].
    intros [Hp|(y & Hy & Hey)]; apply Hp'; [by left|]. right. exists y. split; [|done].
    apply elem_of_cons in Hy as [->|Hy]; [congruence | done].
Qed.

End PurgeOneTab.

(** X14. After [manageTabs('purgeAll')], every eligible tab that lets
    scripts in has the page [purgeTabDetails] makes of its page, whatever
    becomes of the injections in the other tabs, and whether or not a
    snapshot was there; its identifier and address are as they were. *)
Theorem purgeAll_purges_each_reachable_tab (b : Browser) (tab : Tab.t) (i : Z) :
  tabWith i (tabs b) = Some tab ->
  eligibleId tab = Some i ->
  Tab.refuses tab = None ->
  exists tab',
    tabWith i (tabs (state (manageTabs "purgeAll" b))) = Some tab' /\
    Tab.document tab' = purgeTabDetails (Tab.document tab) /\
    outline tab' = outline tab.
Proof.
  intros Ht He Hr. destruct (manageTabs_split "purgeAll" b) as (-> & _).
  rewrite saveState_same_tabs, applyPhase_purgeAll, state_mk.
  destruct (purgeLoop_tab i (Tab.document tab) (tabs b) (state (saveState b)) tab)
    as (tab' & Ht' & Ho' & _ & Hp'); [by rewrite saveState_same_tabs | done | by left |].
  exists tab'. split; [exact Ht'|]. split; [|exact Ho'].
  apply Hp'. right. exists tab. split; [by apply (tabWith_elem i) | done].
Qed.

Lemma purgeAll_purges_each_reachable_tab_witness :
  exists tab',
    tabWith 7 (tabs (state (manageTabs "purgeAll"
                 (Sample.open [Sample.settings; Sample.mail])))) = Some tab' /\
    Tab.document tab' = purgeTabDetails Sample.inbox /\
    outline tab' = outline Sample.mail.
Proof.
  apply (purgeAll_purges_each_reachable_tab
           (Sample.open [Sample.settings; Sample.mail]) Sample.mail 7);
    reflexivity.
Defined.

Section Professional.

Lemma randomIndex_bound n b : (0 < n)%nat -> (result (randomIndex n b) < n)%nat.
Proof.
  intros Hn. unfold randomIndex. destruct (entropy b) as [|x rest]; cbn; [done|].
  apply Nat.mod_upper_bound. lia.
Qed.

Lemma keys_lookup {V} (m : gmap string V) idx k :
  keys m !! idx = Some k -> exists v, m !! k = Some v.
Proof.
  intros Hk. apply list_elem_of_lookup_2 in Hk. unfold keys in Hk.
  apply list_elem_of_fmap in Hk as ([k' v] & -> & Hin).
  exists v. by apply elem_of_map_to_list.
Qed.

Variable mappings : gmap string (option Profile.t).
Hypothesis someMapping : mappings ≠ ∅.

Lemma applyRandom_calls u x b :
  exists k p,
    mappings !! k = Some p /\
    calls (applyRandom mappings (keys mappings) u x b) =
      match eligibleId x with
      | Some j =>
          [Console Log ("Tab " +:+ JS.toString j +:+ ": Applying random details for domain '" +:+
                        k +:+ "':");
           ExecuteScript j (SetSpecificDetails p)] ++
          match result (executeScript j (SetSpecificDetails p)
                          (state (randomIndex (length (keys mappings)) b))) with
          | Fulfilled _ => []
          | Rejected _ =>
              [Console Error ("Error applying random details to tab " +:+ JS.toString j +:+ ":")]
          end
      | None => []
      end%list.
Proof.
  assert (Hlen : (0 < length (keys mappings))%nat).
  { destruct (length (keys mappings)) eqn:Hl; [|lia].
    apply keys_empty in Hl. done. }
  destruct (lookup_lt_is_Some_2 (keys mappings) _ (randomIndex_bound _ b Hlen)) as [k Hk].
  destruct (keys_lookup mappings _ k Hk) as [p Hp].
  exists k, p. split; [done|]. unfold applyRandom.
  destruct (eligibleId x) as [j|]; [|done].
  rewrite run_bind, calls_mk, randomIndex_calls, Hk. cbn [mbind option_bind default app].
  rewrite Hp. cbn [mjoin option_join].
  rewrite run_bind, calls_mk. cbn [state console call fst snd calls].
  rewrite run_bind, calls_mk, executeScript_calls.
  by destruct (result (executeScript j _ _)).
Qed.

End Professional.

Section Counting.







End Counting.



(** X16. In [professional] mode with a mapping that is not empty, every
    write sent to a tab sets a profile that is a value of the mapping
    file, and every eligible tab is sent one. *)
Theorem professional_draws_from_mapping (b : Browser)
    (mappings : gmap string (option Profile.t)) :
  mappingsFile b = Body (JObject mappings) -> mappings ≠ ∅ ->
  (forall j func, ExecuteScript j func ∈ calls (manageTabs "professional" b) ->
     isWrite func = true ->
     exists k p, mappings !! k = Some p /\ func = SetSpecificDetails p) /\
  (forall tab i, tab ∈ tabs b -> eligibleId tab = Some i ->
     exists k p, mappings !! k = Some p /\
       ExecuteScript i (SetSpecificDetails p) ∈ calls (manageTabs "professional" b)).
Proof.
  intros Hfile Hne.
  destruct (manageTabs_phases "professional" b) as (_ & tail & -> & _ & Htail).
  destruct (saveState_tabs b) as [_ Hmap].
  rewrite (applyPhase_professional _ _ mappings) by (rewrite ?Hmap; done).
  rewrite calls_mk. set (b1 := state (saveState b)).
  set (loop := calls (forOf (tabs b) (applyRandom mappings (keys mappings)) tt b1)).
  assert (Hloop : Forall (fun c => forall j func, c = ExecuteScript j func ->
                           exists k p, mappings !! k = Some p /\ func = SetSpecificDetails p)
                    loop).
  { apply (forOf_invariant (fun _ => True) _ (tabs b)
             (applyRandom mappings (keys mappings))); [|done].
    intros u x b' _ _. split; [done|].
    destruct (applyRandom_calls mappings Hne u x b') as (k & p & Hp & ->).
    destruct (eligibleId x) as [j|]; [|constructor].
    apply Forall_app. split.
    - apply Forall_cons_2; [by intros ?? [=]|]. apply Forall_cons_2; [|constructor].
      intros j' func [= _ <-]. eauto.
    - destruct (result _); repeat constructor. by intros ?? [=]. }
  split.
  - intros j func Hin Hw. rewrite Forall_forall in Hloop.
    apply elem_of_app in Hin as [Hin|Hin].
    { apply list_elem_of_singleton in Hin. discriminate Hin. }
    apply elem_of_app in Hin as [Hin|Hin].
    { pose proof (saveState_calls b) as Hsave. rewrite Forall_forall in Hsave.
      destruct (Hsave _ Hin) as [Hnw _]. cbn in Hnw. congruence. }
    apply elem_of_app in Hin as [Hin|Hin].
    { apply list_elem_of_singleton in Hin. discriminate Hin. }
    apply elem_of_app in Hin as [Hin|Hin].
    + apply elem_of_app in Hin as [Hin|Hin].
      { repeat (apply elem_of_cons in Hin as [[=]|Hin]). inversion Hin. }
      apply elem_of_app in Hin as [Hin|Hin]; [by apply (Hloop _ Hin j)|].
      apply list_elem_of_singleton in Hin. discriminate Hin.
    + rewrite Forall_forall in Htail. destruct (Htail _ Hin) as [m Hm]. discriminate Hm.
  - intros tab i Hin He.
    assert (Hex : Exists (fun c => exists k p, mappings !! k = Some p /\
                            c = ExecuteScript i (SetSpecificDetails p)) loop).
    { apply (forOf_makes _ (tabs b) _ tab Hin). intros u b'.
      destruct (applyRandom_calls mappings Hne u tab b') as (k & p & Hp & ->).
      rewrite He. right. left. eauto. }
    apply Exists_exists in Hex as (c & Hc & k & p & Hp & ->).
    exists k, p. split; [done|].
    apply elem_of_app. right. apply elem_of_app. right. apply elem_of_app. right.
    apply elem_of_app. left. apply elem_of_app. right. apply elem_of_app. by left.
Qed.

Lemma professional_draws_from_mapping_witness :
  exists k p,
    ({[ "sheets.example" := Some spreadsheet ]} : gmap string (option Profile.t)) !! k = Some p /\
    ExecuteScript 7 (SetSpecificDetails p) ∈ calls (manageTabs "professional" office).
Proof.
  destruct (professional_draws_from_mapping office {[ "sheets.example" := Some spreadsheet ]})
    as [_ Hsent]; [reflexivity | apply insert_non_empty |].
  apply (Hsent Sample.mail 7); [left | reflexivity].
Defined.

Section SaveFailures.

(** In the save loop, the round of an eligible tab that lets no script in
    logs an error. *)
Lemma saveLoop_reports xs acc b tab i message :
  tab ∈ xs -> eligibleId tab = Some i ->
  tabWith i (tabs b) = Some tab -> Tab.refuses tab = Some message ->
  Console Error (saveFailed i) ∈ calls (forOf xs saveTab acc b).
Proof.
  intros Hin He Ht Hr. apply Exists_eq.
  apply (forOf_makes_when (fun b' => b' = b) _ xs saveTab tab Hin); [| |done].
  - intros s y b' ->. by destruct (saveTab_run s y b) as (_ & -> & _).
  - intros s b' ->. unfold saveTab.
    rewrite He, run_bind, calls_mk, executeScript_get, result_mk, state_mk, calls_mk, Ht, Hr.
    right. by left.
Qed.

End SaveFailures.

(** X17. An eligible tab that lets no script in is left out of the
    snapshot, and an error is logged for it; the save phase goes on, and
    the snapshot it stores is still the state of the tabs that could be
    read. *)
Theorem unreadable_tab_is_left_out (mode : string) (b : Browser) (tab : Tab.t)
    (i : Z) (message : string) :
  noSavedState (storage b) = true ->
  tabWith i (tabs b) = Some tab ->
  eligibleId tab = Some i ->
  Tab.refuses tab = Some message ->
  Console Error (saveFailed i) ∈ calls (manageTabs mode b) /\
  exists snapshot,
    storage (state (manageTabs mode b)) = Some snapshot /\
    snapshot !! JS.toString i = None /\
    originalState (tabs b) snapshot.
Proof.
  intros Hfresh Ht He Hr. split.
  - destruct (manageTabs_phases mode b) as (_ & tail & -> & _).
    rewrite (saveState_fresh b Hfresh), calls_mk.
    apply elem_of_app. right. apply elem_of_app. left.
    apply elem_of_app. right. apply elem_of_app. left.
    apply (saveLoop_reports _ _ _ tab i message); [by apply (tabWith_elem i) | done..].
  - destruct (manageTabs_fresh mode b Hfresh) as (Hs & _ & _).
    eexists. split; [exact Hs|]. split; [|apply capture_originalState].
    destruct (_ !! JS.toString i) as [d|] eqn:Hl; [|done].
    apply capture_only in Hl as [Hl|(t & j & _ & _ & Hk & Hd)].
    { by rewrite lookup_empty in Hl. }
    apply toString_inj in Hk as <-;
      [|eapply eligibleId_safe, He|eapply detailsOf_safe, Hd].
    unfold detailsOf in Hd. rewrite Ht in Hd.
    cbn [mbind option_bind] in Hd. by rewrite Hr in Hd.
Qed.

Lemma unreadable_tab_is_left_out_witness :
  Console Error (saveFailed 21) ∈
    calls (manageTabs "purgeAll" (Sample.open [store; Sample.mail])) /\
  exists snapshot,
    storage (state (manageTabs "purgeAll" (Sample.open [store; Sample.mail]))) = Some snapshot /\
    snapshot !! JS.toString 21 = None /\
    originalState [store; Sample.mail] snapshot.
Proof.
  apply (unreadable_tab_is_left_out "purgeAll" (Sample.open [store; Sample.mail]) store 21
           "The extensions gallery cannot be scripted."); reflexivity.
Defined.

Section RestoreFailures.

Lemma tabWith_outline_none i ts ts' :
  outline <$> ts' = outline <$> ts -> tabWith i ts = None -> tabWith i ts' = None.
Proof.
  intros Ho Hn. destruct (tabWith i ts') as [t'|] eqn:Ht'; [|done].
  destruct (tabWith_outline i ts' ts t' (eq_sym Ho) Ht') as (t & Ht & _). congruence.
Qed.

Lemma executeScript_result j func b :
  result (executeScript j func b) = (inject j func (tabs b)).1.
Proof. unfold executeScript. by destruct (inject j func (tabs b)). Qed.

Lemma restoreTab_calls u k d j b :
  JS.parseInt k = Some j ->
  calls (restoreTab u (k, d) b) =
    ([Console Log "details"; ExecuteScript j (RestoreTabDetails d)] ++
     match (inject j (RestoreTabDetails d) (tabs b)).1 with
     | Fulfilled _ => []
     | Rejected message =>
         if JS.includes message "No tab with id" || JS.includes message "Invalid tab ID"
         then [Console Warn (tabNotFound j)]
         else [Console Error (restoreFailed j)]
     end)%list.
Proof.
  intros Hp. unfold restoreTab. rewrite Hp, run_bind, calls_mk.
  cbn [state console call fst snd calls].
  rewrite run_bind, calls_mk, executeScript_calls, executeScript_result.
  destruct (inject j (RestoreTabDetails d) (tabs b)).1 as [?|message]; [done|].
  by destruct (JS.includes message "No tab with id" || JS.includes message "Invalid tab ID").
Qed.

Lemma restoreTab_keeps u entry b0 b : keeps b0 b -> keeps b0 (state (restoreTab u entry b)).
Proof. intros Hk. by destruct (restoreTab_run u entry b0 b Hk). Qed.

End RestoreFailures.

(** X18. In the loop of undo, a restore that cannot be sent is logged
    and passed over: as a warning when the tab is gone (the service's
    message names a missing or invalid tab), as an error when the tab is
    there but refuses the script for another reason. *)
Theorem failed_restore_is_logged (b : Browser) (snapshot : Snapshot) (k : string)
    (d : TabDetails) (j : Z) :
  storage b = Some snapshot ->
  snapshot !! k = Some d ->
  JS.parseInt k = Some j ->
  (tabWith j (tabs b) = None ->
     Console Warn (tabNotFound j) ∈ calls (undoChanges b)) /\
  (forall tab message,
     tabWith j (tabs b) = Some tab -> Tab.refuses tab = Some message ->
     Console (if JS.includes message "No tab with id" || JS.includes message "Invalid tab ID"
              then Warn else Error)
             (if JS.includes message "No tab with id" || JS.includes message "Invalid tab ID"
              then tabNotFound j else restoreFailed j)
       ∈ calls (undoChanges b)).
Proof.
  intros Hs Hk Hp. rewrite (undoChanges_saved b snapshot Hs).
  2:{ rewrite Hs. cbn [noSavedState]. apply Nat.eqb_neq. rewrite keys_empty.
      intros ->. by rewrite lookup_empty in Hk. }
  rewrite calls_mk. apply elem_of_map_to_list in Hk.
  split.
  - intros Hgone. apply elem_of_app. right. apply elem_of_app. left. apply Exists_eq.
    apply (forOf_makes_when (keeps b) _ _ restoreTab (k, d) Hk);
      [intros; by apply restoreTab_keeps | | apply keeps_refl].
    intros u b' (_ & Ho & _). rewrite (restoreTab_calls u k d j b' Hp), inject_spec.
    rewrite (tabWith_outline_none j (tabs b) (tabs b') Ho Hgone). cbn [fst].
    right. right. by left.
  - intros tab message Ht Hr. apply elem_of_app. right. apply elem_of_app. left.
    apply Exists_eq.
    apply (forOf_makes_when (keeps b) _ _ restoreTab (k, d) Hk);
      [intros; by apply restoreTab_keeps | | apply keeps_refl].
    intros u b' (_ & Ho & _). rewrite (restoreTab_calls u k d j b' Hp), inject_spec.
    destruct (tabWith_outline j (tabs b) (tabs b') tab Ho Ht) as (tab' & -> & Ho').
    assert (Tab.refuses tab' = Some message) as ->.
    { unfold outline in Ho'. congruence. }
    cbn [fst]. right. right.
    destruct (JS.includes message "No tab with id" || JS.includes message "Invalid tab ID");
      by left.
Qed.

Lemma failed_restore_is_logged_witness :
  Console Warn (tabNotFound 7) ∈ calls (undoChanges Sample.closed).
Proof.
  destruct (failed_restore_is_logged Sample.closed {[ "7" := Sample.inboxDetails ]}
              "7" Sample.inboxDetails 7) as [Hgone _];
    [reflexivity | apply lookup_singleton_eq | reflexivity |].
  apply Hgone. reflexivity.
Defined.

(** X19. Undo after a disguise that started the cycle sends a restore to
    exactly the tabs the save phase could read, each with the details read
    in it, and injects nothing else: a script goes to tab [j] if and only
    if an eligible tab had the identifier [j] and was read, and the script
    is the restore of what was read. *)
Theorem undo_restores_what_was_captured (mode : string) (b : Browser) (j : Z) (func : Script) :
  noSavedState (storage b) = true ->
  (ExecuteScript j func ∈ calls (undoChanges (state (manageTabs mode b))) <->
   exists tab d, tab ∈ tabs b /\ eligibleId tab = Some j /\
                 detailsOf (tabs b) j = Some d /\ func = RestoreTabDetails d).
Proof.
  intros Hfresh. destruct (manageTabs_fresh mode b Hfresh) as (Hs & _ & _).
  set (b1 := state (manageTabs mode b)) in *.
  set (snapshot := foldl (capture (tabs b)) ∅ (tabs b)) in *.
  destruct (noSavedState (storage b1)) eqn:Hn.
  - rewrite (undoChanges_nothing b1 Hn), calls_mk. split.
    + intros Hin. repeat (apply elem_of_cons in Hin as [[=]|Hin]). inversion Hin.
    + intros (tab & d & Hin & He & Hd & _). exfalso.
      pose proof (capture_reads (tabs b) (tabs b) ∅ tab j d Hin He Hd) as Hl.
      fold snapshot in Hl. rewrite Hs in Hn. cbn [noSavedState] in Hn.
      apply Nat.eqb_eq, keys_empty in Hn. by rewrite Hn, lookup_empty in Hl.
  - rewrite (undoChanges_saved b1 snapshot Hs Hn), calls_mk. split.
    + intros Hin. destruct (restoreLoop_run (map_to_list snapshot) b1) as [_ Hall].
      rewrite Forall_forall in Hall.
      apply elem_of_app in Hin as [Hin|Hin].
      { repeat (apply elem_of_cons in Hin as [[=]|Hin]). inversion Hin. }
      apply elem_of_app in Hin as [Hin|Hin].
      * destruct (Hall _ Hin) as [_ H]. destruct (H j func eq_refl) as (k & d & Hk & Hp & ->).
        apply captured_keys in Hk as (tab & j' & Htab & He & -> & Hd).
        rewrite parseInt_toString in Hp by (eapply eligibleId_safe, He).
        injection Hp as ->. by exists tab, d.
      * repeat (apply elem_of_cons in Hin as [[=]|Hin]). inversion Hin.
    + intros (tab & d & Hin & He & Hd & ->).
      apply elem_of_app. right. apply elem_of_app. left.
      apply (restoreLoop_sends _ (JS.toString j) d j);
        [|eapply parseInt_toString, eligibleId_safe, He].
      apply elem_of_map_to_list. by apply (capture_reads _ _ _ tab).
Qed.

Lemma undo_restores_what_was_captured_witness :
  ExecuteScript 7 (RestoreTabDetails Sample.inboxDetails) ∈
    calls (undoChanges (state (manageTabs "purgeAll"
             (Sample.open [Sample.mail; Sample.settings])))).
Proof.
  apply (undo_restores_what_was_captured "purgeAll"
           (Sample.open [Sample.mail; Sample.settings])); [reflexivity|].
  exists Sample.mail, Sample.inboxDetails.
  split; [left|]. split; [reflexivity|]. split; reflexivity.
Defined.

Section Parts.

Lemma readOnly_undoes c : readOnly c -> undoes c = false.
Proof. intros [Hp Hs]. destruct c as [| | | | |j []|]; done. Qed.

Lemma pageCall_undoes ts c : pageCall ts c -> undoes c = false.
Proof.
  intros (Hs & Hd & _). destruct c as [| | | | |j func|]; try done.
  specialize (Hd j func eq_refl). by destruct func.
Qed.

Lemma restoreLoop_shape entries b :
  Forall (fun c => disguisesOrSaves c = false) (calls (forOf entries restoreTab tt b)).
Proof.
  apply (forOf_invariant (fun _ => True) _ entries restoreTab); [|done].
  intros u [k d] b' _ _. split; [done|].
  destruct (JS.parseInt k) as [j|] eqn:Hp.
  - rewrite (restoreTab_calls u k d j b' Hp).
    apply Forall_app. split; [by repeat constructor|].
    destruct (inject j (RestoreTabDetails d) (tabs b')).1 as [?|message]; [constructor|].
    destruct (JS.includes message "No tab with id" || JS.includes message "Invalid tab ID");
      by repeat constructor.
  - unfold restoreTab. rewrite Hp. by repeat constructor.
Qed.

End Parts.

(** X20. Each of the two functions keeps to its part. [manageTabs], in any
    mode and state, never removes the snapshot key and never sends a
    restore; [undoChanges] never writes a snapshot, never reads or
    disguises a page, and never asks for the list of tabs or for the
    mapping file: all it knows of the tabs is the snapshot. *)
Theorem each_function_keeps_to_its_part (mode : string) (b : Browser) :
  Forall (fun c => undoes c = false) (calls (manageTabs mode b)) /\
  Forall (fun c => disguisesOrSaves c = false) (calls (undoChanges b)).
Proof.
  split.
  - destruct (manageTabs_phases mode b) as (_ & tail & -> & Hp & Htail).
    apply Forall_app. split; [by repeat constructor|].
    apply Forall_app. split.
    { destruct (noSavedState (storage b)) eqn:Hn.
      - rewrite (saveState_fresh b Hn), calls_mk.
        destruct (saveLoop_run (tabs b) ∅ b) as (_ & _ & Hc).
        apply Forall_app. split; [by repeat constructor|].
        apply Forall_app. split; [|by repeat constructor].
        eapply Forall_impl; [exact Hc|]. intros c [Hr _]. by apply readOnly_undoes.
      - rewrite (saveState_skipped b Hn), calls_mk. by repeat constructor. }
    apply Forall_app. split; [by repeat constructor|].
    apply Forall_app. split.
    + eapply Forall_impl; [exact Hp|]. intros c. apply pageCall_undoes.
    + eapply Forall_impl; [exact Htail|]. by intros c [m ->].
  - destruct (noSavedState (storage b)) eqn:Hn.
    + rewrite (undoChanges_nothing b Hn), calls_mk. by repeat constructor.
    + destruct (noSavedState_false _ Hn) as (snapshot & Hs & _).
      rewrite (undoChanges_saved b snapshot Hs Hn), calls_mk.
      apply Forall_app. split; [by repeat constructor|].
      apply Forall_app. split; [apply restoreLoop_shape | by repeat constructor].
Qed.

Section OneRound.

Lemma forOf_app {A S} (xs ys : list A) (body : S -> A -> Async S) s b :
  state (forOf (xs ++ ys) body s b) =
    state (forOf ys body (result (forOf xs body s b)) (state (forOf xs body s b))).
Proof.
  revert s b. induction xs as [|x xs IH]; intros s b; [done|].
  cbn [app]. rewrite !forOf_cons, !state_mk, !result_mk. apply IH.
Qed.

(** A loop keeps the tab under [i] when each of its rounds does. *)
Lemma forOf_keeps_tabWith {A S} (xs : list A) (body : S -> A -> Async S) i t :
  (forall s x b, x ∈ xs -> tabWith i (tabs b) = Some t ->
     tabWith i (tabs (state (body s x b))) = Some t) ->
  forall s b, tabWith i (tabs b) = Some t ->
    tabWith i (tabs (state (forOf xs body s b))) = Some t.
Proof.
  intros Hbody s b Ht.
  apply (forOf_invariant (fun b => tabWith i (tabs b) = Some t) (fun _ => True) xs body);
    [|done].
  intros s' x b' Hx Hb'. split; [by apply Hbody|]. by apply Forall_true.
Qed.

Lemma tabWith_middle i before tab after :
  (forall x, x ∈ before -> Tab.id x ≠ Some i) -> Tab.id tab = Some i ->
  tabWith i (before ++ tab :: after) = Some tab.
Proof.
  intros Hb Hid. unfold tabWith. induction before as [|x before IH]; cbn [app List.find].
  - unfold targets. by rewrite Hid, Z.eqb_refl.
  - assert (targets i x = false) as ->.
    { unfold targets. destruct (Tab.id x) as [j|] eqn:Hj; [|done].
      apply Z.eqb_neq. intros ->. by apply (Hb x); [left|]. }
    apply IH. intros y Hy. apply Hb. by right.
Qed.

Variable mappings : gmap string (option Profile.t).
Hypothesis someMapping : mappings ≠ ∅.

(** The state a round of the [professional] loop leaves: that of the
    injection of a profile of the mapping. *)
Lemma applyRandom_round u x b :
  exists k p b',
    mappings !! k = Some p /\ tabs b' = tabs b /\
    state (applyRandom mappings (keys mappings) u x b) =
      match eligibleId x with
      | Some j => state (executeScript j (SetSpecificDetails p) b')
      | None => b
      end.
Proof.
  assert (Hlen : (0 < length (keys mappings))%nat).
  { destruct (length (keys mappings)) eqn:Hl; [|lia].
    apply keys_empty in Hl. done. }
  destruct (lookup_lt_is_Some_2 (keys mappings) _ (randomIndex_bound _ b Hlen)) as [k Hk].
  destruct (keys_lookup mappings _ k Hk) as [p Hp].
  exists k, p, (state (randomIndex (length (keys mappings)) b)).
  split; [done|]. split; [apply randomIndex_tabs|]. unfold applyRandom.
  destruct (eligibleId x) as [j|]; [|done].
  rewrite run_bind, state_mk, Hk. cbn [mbind option_bind default].
  rewrite Hp. cbn [mjoin option_join].
  rewrite run_bind, state_mk. cbn [state console call fst snd].
  rewrite run_bind, state_mk. by destruct (result (executeScript j _ _)).
Qed.

Lemma applyLoop_keeps_tabWith xs i t :
  (forall x, x ∈ xs -> Tab.id x ≠ Some i) ->
  forall b, tabWith i (tabs b) = Some t ->
    tabWith i (tabs (state (forOf xs (applyRandom mappings (keys mappings)) tt b))) = Some t.
Proof.
  intros Hxs. apply forOf_keeps_tabWith. intros u x b' Hx Ht.
  destruct (applyRandom_round u x b') as (k & p & b2 & _ & Htabs & ->).
  destruct (eligibleId x) as [j|] eqn:He; [|done].
  rewrite executeScript_other; [by rewrite Htabs|].
  intros ->. apply (Hxs x Hx). by apply eligibleId_id.
Qed.

End OneRound.

(** X21. In [professional] mode with a mapping that is not empty, an
    eligible tab that lets scripts in, and whose identifier no other tab
    has, ends with the page [setSpecificDetails] makes of its page for a
    profile that is a value of the mapping: one draw, applied once. *)
Theorem professional_sets_one_profile (b : Browser)
    (mappings : gmap string (option Profile.t))
    (before after : list Tab.t) (tab : Tab.t) (i : Z) :
  mappingsFile b = Body (JObject mappings) -> mappings ≠ ∅ ->
  tabs b = (before ++ tab :: after)%list ->
  (forall x, x ∈ (before ++ after)%list -> Tab.id x ≠ Some i) ->
  eligibleId tab = Some i ->
  Tab.refuses tab = None ->
  exists k p tab',
    mappings !! k = Some p /\
    tabWith i (tabs (state (manageTabs "professional" b))) = Some tab' /\
    Tab.document tab' = setSpecificDetails p (Tab.document tab) /\
    outline tab' = outline tab.
Proof.
  intros Hfile Hne Htabs Hothers He Hr.
  pose proof (eligibleId_id tab i He) as Hid.
  destruct (manageTabs_split "professional" b) as (-> & _).
  destruct (saveState_tabs b) as [Hsame Hmap].
  rewrite (applyPhase_professional _ _ mappings) by (rewrite ?Hmap; done).
  rewrite state_mk, Hsame, Htabs, forOf_app. cbn [app].
  set (b1 := state (saveState b)) in *.
  assert (Ht1 : tabWith i (tabs b1) = Some tab).
  { rewrite Hsame, Htabs. apply tabWith_middle; [|done].
    intros x Hx. apply Hothers, elem_of_app. by left. }
  pose proof (applyLoop_keeps_tabWith mappings Hne before i tab
                (fun x Hx => Hothers x (proj2 (elem_of_app _ _ _) (or_introl Hx))) b1 Ht1) as Ht2.
  set (b2 := state (forOf before _ tt b1)) in *.
  destruct (result (forOf before (applyRandom mappings (keys mappings)) tt b1)).
  rewrite forOf_cons, state_mk.
  destruct (applyRandom_round mappings Hne tt tab b2) as (k & p & b3 & Hp & Hb3 & Hround).
  rewrite Hround, He.
  destruct (result (applyRandom mappings (keys mappings) tt tab b2)).
  assert (Ht3 : tabWith i (tabs b3) = Some tab) by by rewrite Hb3.
  pose proof (executeScript_same i (SetSpecificDetails p) b3 tab Ht3 Hr) as Ht4.
  cbn [runScript fst] in Ht4.
  exists k, p, (Tab.setDocument (setSpecificDetails p (Tab.document tab)) tab).
  split; [done|]. split; [|done].
  apply (applyLoop_keeps_tabWith mappings Hne after); [|exact Ht4].
  intros x Hx. apply Hothers, elem_of_app. by right.
Qed.

Lemma professional_sets_one_profile_witness :
  exists k p tab',
    ({[ "sheets.example" := Some spreadsheet ]} : gmap string (option Profile.t)) !! k = Some p /\
    tabWith 7 (tabs (state (manageTabs "professional" office))) = Some tab' /\
    Tab.document tab' = setSpecificDetails p Sample.inbox /\
    outline tab' = outline Sample.mail.
Proof.
  apply (professional_sets_one_profile office {[ "sheets.example" := Some spreadsheet ]}
           [] [Sample.settings] Sample.mail 7);
    [reflexivity | apply insert_non_empty | reflexivity | | reflexivity | reflexivity].
  intros x Hx. apply list_elem_of_singleton in Hx as ->. discriminate.
Defined.

(** X22. A tab that the snapshot does not record (it was opened, or
    became eligible, after the cycle began) is purged by a [purgeAll]
    like the others, and undo does not bring its page back: after undo it
    still has the purged page, and the snapshot is gone. *)
Theorem late_tab_stays_disguised (b : Browser) (snapshot : Snapshot) (tab : Tab.t) (i : Z) :
  storage b = Some snapshot -> snapshot ≠ ∅ ->
  (forall k d, snapshot !! k = Some d -> JS.parseInt k ≠ Some i) ->
  tabWith i (tabs b) = Some tab ->
  eligibleId tab = Some i ->
  Tab.refuses tab = None ->
  storage (state (undoChanges (state (manageTabs "purgeAll" b)))) = None /\
  exists tab',
    tabWith i (tabs (state (undoChanges (state (manageTabs "purgeAll" b))))) = Some tab' /\
    Tab.document tab' = purgeTabDetails (Tab.document tab).
Proof.
  intros Hs Hne Hkeys Ht He Hr.
  assert (Hn : noSavedState (storage b) = false).
  { rewrite Hs. cbn [noSavedState]. apply Nat.eqb_neq. by rewrite keys_empty. }
  destruct (manageTabs_again "purgeAll" b Hn) as (Hs1 & _).
  assert (Hpurged : exists tab1,
            tabWith i (tabs (state (manageTabs "purgeAll" b))) = Some tab1 /\
            Tab.document tab1 = purgeTabDetails (Tab.document tab)).
  { destruct (manageTabs_split "purgeAll" b) as (-> & _).
    rewrite saveState_same_tabs, applyPhase_purgeAll, state_mk.
    destruct (purgeLoop_tab i (Tab.document tab) (tabs b) (state (saveState b)) tab)
      as (tab1 & Ht1 & _ & _ & Hp1); [by rewrite saveState_same_tabs | done | by left |].
    exists tab1. split; [exact Ht1|]. apply Hp1. right. exists tab.
    split; [by apply (tabWith_elem i) | done]. }
  destruct Hpurged as (tab1 & Ht1 & Hd1).
  set (b1 := state (manageTabs "purgeAll" b)) in *.
  rewrite Hs in Hs1, Hn.
  rewrite (undoChanges_saved b1 snapshot Hs1) by by rewrite Hs1.
  rewrite state_mk. split; [done|]. cbn [tabs setStorage].
  exists tab1. split; [|exact Hd1].
  apply forOf_keeps_tabWith; [|exact Ht1]. intros u [k d] b' Hx Hb'.
  rewrite restoreTab_state. destruct (JS.parseInt k) as [j|] eqn:Hp; [|done].
  rewrite executeScript_other; [done|]. intros ->.
  apply elem_of_map_to_list in Hx. by apply (Hkeys k d).
Qed.

Lemma late_tab_stays_disguised_witness :
  exists tab',
    tabWith 9 (tabs (state (undoChanges (state (manageTabs "purgeAll"
                 {| storage := Some {[ "7" := Sample.inboxDetails ]};
                    tabs := [Sample.mail; Sample.notebook];
                    mappingsFile := NetworkError; entropy := [] |})))))
      = Some tab' /\
    Tab.document tab' = purgeTabDetails Sample.notes.
Proof.
  destruct (late_tab_stays_disguised
              {| storage := Some {[ "7" := Sample.inboxDetails ]};
                 tabs := [Sample.mail; Sample.notebook];
                 mappingsFile := NetworkError; entropy := [] |}
              {[ "7" := Sample.inboxDetails ]} Sample.notebook 9) as [_ H];
    [reflexivity | apply insert_non_empty | | reflexivity | reflexivity | reflexivity | exact H].
  intros k d Hk Hp. apply lookup_singleton_Some in Hk as [<- _].
  vm_compute in Hp. discriminate Hp.
Defined.

(** X23. Undo twice is undo once: a second [undoChanges] right after the
    first finds nothing saved, so it injects no script, makes no write to
    the store, and leaves the browser as the first left it. *)
Theorem undo_twice_is_undo_once (b : Browser) :
  state (undoChanges (state (undoChanges b))) = state (undoChanges b) /\
  injections (calls (undoChanges (state (undoChanges b)))) = 0%nat /\
  Forall (fun c => isStorageWrite c = false) (calls (undoChanges (state (undoChanges b)))).
Proof.
  assert (Hn : noSavedState (storage (state (undoChanges b))) = true).
  { destruct (noSavedState (storage b)) eqn:Hb.
    - by rewrite (undoChanges_nothing b Hb), state_mk.
    - destruct (noSavedState_false _ Hb) as (saved & Hsaved & _).
      by rewrite (undoChanges_saved b saved Hsaved Hb), state_mk. }
  rewrite (undoChanges_nothing _ Hn), state_mk, calls_mk.
  split; [done|]. split; [done|]. by repeat constructor.
Qed.
